(** * The shard state machine's admin applier and its error envelope

    A shallow embedding of [raftstore/errors.go] and of the admin command
    applier ([execAdminRequest], [doExecCompactLog], [doExecConfigChange],
    [doExecSplit], [updateWriteMetrics]) of matrixcube, together with the
    heartbeat response multiplexer exercised by [TestActivity].

    Conventions.
    - A Go [uint64] is a [Z] in [0, 2^64); every addition the source does on
      one is followed by [wrap64].  An [int64] is a [Z] in [-2^63, 2^63).
    - A [[]byte] is a [list byte]; [nil] and the empty slice coincide, as they
      do for [len] and [bytes.Equal].
    - [logger.Fatal] ends the process: a handler that reaches it yields
      [Fatal] and no state.
    - The data storage, the replica factory and the response pools are
      collaborators outside the sources; they are parameters. *)

From Stdlib Require Import ZArith List String Ascii Bool Lia.
From Stdlib.Strings Require Import Byte.
From stdpp Require Import base option list gmap strings.
From stdpp Require Import sorting pretty.
Import ListNotations.

Local Open Scope string_scope.
Local Open Scope Z_scope.
Local Open Scope list_scope.

(** ** Machine integers *)

Definition wrap64 (z : Z) : Z := z mod 2 ^ 64.

Definition is_uint64 (z : Z) : Prop := 0 <= z < 2 ^ 64.
Definition is_int64 (z : Z) : Prop := - 2 ^ 63 <= z < 2 ^ 63.

(** ** Byte strings *)

Definition bytes := list byte.

Fixpoint bytes_Compare (a b : bytes) : comparison :=
  match a, b with
  | [], [] => Eq
  | [], _ :: _ => Lt
  | _ :: _, [] => Gt
  | x :: a', y :: b' =>
      match N.compare (Byte.to_N x) (Byte.to_N y) with
      | Eq => bytes_Compare a' b'
      | c => c
      end
  end.

Fixpoint bytes_Equal (a b : bytes) : bool :=
  match a, b with
  | [], [] => true
  | x :: a', y :: b' => Byte.eqb x y && bytes_Equal a' b'
  | _, _ => false
  end.

(** ** Errors

    [errors.New] makes a sentinel that carries its text; [errors.Wrapf] keeps
    the cause and records the format with its arguments. *)

Inductive ReplicaRole := ReplicaRole_Voter | ReplicaRole_Learner.

Inductive FmtArg :=
| ArgUint64 (n : Z)
| ArgRole (r : ReplicaRole).

Inductive error :=
| errors_New (text : string)
| errors_Wrapf (cause : error) (format : string) (args : list FmtArg).

Fixpoint errors_Cause (e : error) : error :=
  match e with
  | errors_New _ => e
  | errors_Wrapf c _ _ => errors_Cause c
  end.

(** [String()] of a role, the name of the enum value, as [%v] prints it. *)
Definition ReplicaRole_String (r : ReplicaRole) : string :=
  match r with
  | ReplicaRole_Voter => "Voter"
  | ReplicaRole_Learner => "Learner"
  end.

(** An argument as [fmt] prints it: an integer in decimal, a role by its
    name (the source prints a role with [%v] only). *)
Definition formatArg (a : FmtArg) : string :=
  match a with
  | ArgUint64 n => pretty n
  | ArgRole r => ReplicaRole_String r
  end.

(** [fmt.Sprintf] for the formats this package uses: literal text, the verbs
    [%d] and [%v], which take the next argument, and [%%]. *)
Fixpoint Sprintf (format : string) (args : list FmtArg) : string :=
  match format with
  | EmptyString => EmptyString
  | String c tail =>
      match tail with
      | String verb rest =>
          if Ascii.eqb c "%"%char then
            if Ascii.eqb verb "d"%char || Ascii.eqb verb "v"%char then
              match args with
              | a :: args' => String.append (formatArg a) (Sprintf rest args')
              | [] =>
                  String.append
                    (String "%"%char (String "!"%char (String verb "(MISSING)")))
                    (Sprintf rest [])
              end
            else if Ascii.eqb verb "%"%char then String "%"%char (Sprintf rest args)
            else String c (Sprintf tail args)
          else String c (Sprintf tail args)
      | EmptyString => String c EmptyString
      end
  end.

(** [Error()]: the text of a sentinel; for an error of [errors.Wrapf] the
    formatted message, ": " and the text of the cause. *)
Fixpoint Error (e : error) : string :=
  match e with
  | errors_New text => text
  | errors_Wrapf cause format args =>
      String.append (Sprintf format args) (String.append ": " (Error cause))
  end.

#[global] Instance ReplicaRole_eq_dec : EqDecision ReplicaRole.
Proof. solve_decision. Defined.
#[global] Instance FmtArg_eq_dec : EqDecision FmtArg.
Proof. solve_decision. Defined.

Fixpoint error_eqb (a b : error) : bool :=
  match a, b with
  | errors_New s, errors_New t => bool_decide (s = t)
  | errors_Wrapf c f l, errors_Wrapf c' f' l' =>
      error_eqb c c' && bool_decide (f = f') && bool_decide (l = l')
  | _, _ => false
  end.

(** ** The shard metadata model ([metapb], [meta])

    The generated protobuf types are not part of the sources; the records
    below have the fields the handlers use, with the attributes the
    specification gives a shard: id, group, unique, ruleGroups, disableSplit,
    the range [start, end), the epoch (confVer, version), the replicas
    (id, containerID, role in Voter, Learner), the labels and the state. *)

Module Epoch.
Record t := mk { ConfVer : Z; Version : Z }.
Definition zero : t := mk 0 0.
End Epoch.

Module Replica.
Record t := mk { ID : Z; ContainerID : Z; Role : ReplicaRole }.
Definition withRole (r : t) (role : ReplicaRole) : t :=
  mk (ID r) (ContainerID r) role.
End Replica.

Inductive ResourceState :=
| ResourceState_Running
| ResourceState_Destroying
| ResourceState_Destroyed.

Module Pair.
Record t := mk { Key : string; Value : string }.
End Pair.

Module Shard.
Record t := mk {
  ID : Z;
  Start : bytes;
  End_ : bytes;
  Epoch : Epoch.t;
  State : ResourceState;
  Replicas : list Replica.t;
  DisableSplit : bool;
  Group : Z;
  Unique : string;
  RuleGroups : list string;
  Labels : list Pair.t
}.

(** [Shard{}] *)
Definition zero : t :=
  mk 0 [] [] Epoch.zero ResourceState_Running [] false 0 "" [] [].

Definition withEpoch (s : t) (e : Epoch.t) : t :=
  mk (ID s) (Start s) (End_ s) e (State s) (Replicas s) (DisableSplit s)
     (Group s) (Unique s) (RuleGroups s) (Labels s).
Definition withReplicas (s : t) (rs : list Replica.t) : t :=
  mk (ID s) (Start s) (End_ s) (Epoch s) (State s) rs (DisableSplit s)
     (Group s) (Unique s) (RuleGroups s) (Labels s).
Definition withState (s : t) (st : ResourceState) : t :=
  mk (ID s) (Start s) (End_ s) (Epoch s) st (Replicas s) (DisableSplit s)
     (Group s) (Unique s) (RuleGroups s) (Labels s).
End Shard.

Inductive ReplicaState :=
| ReplicaState_Normal
| ReplicaState_Tombstone
| ReplicaState_Splitting.

Module ShardLocalState.
Record t := mk { State : ReplicaState; Shard : Shard.t; RemoveData : bool }.
End ShardLocalState.

Module ShardMetadata.
Record t := mk { ShardID : Z; LogIndex : Z; Metadata : ShardLocalState.t }.
End ShardMetadata.

(** ** Requests and responses ([rpc], [errorpb]) *)

(** [metapb.ConfigChangeType].  The last constructor stands for every
    value of the enum that the [switch] of [doExecConfigChange] has no
    [case] for. *)
Inductive ConfigChangeType :=
| ConfigChangeType_AddNode
| ConfigChangeType_RemoveNode
| ConfigChangeType_AddLearnerNode
| ConfigChangeType_Unhandled (code : Z).

Module ConfigChangeRequest.
Record t := mk { ChangeType : ConfigChangeType; Replica : Replica.t }.
Definition zero : t := mk ConfigChangeType_AddNode (Replica.mk 0 0 ReplicaRole_Voter).
End ConfigChangeRequest.

Module SplitRequest.
Record t := mk {
  Start : bytes; End_ : bytes; NewShardID : Z; NewReplicas : list Replica.t
}.
End SplitRequest.

Module BatchSplitRequest.
Record t := mk { Requests : list SplitRequest.t; Context : bytes }.
Definition zero : t := mk [] [].
End BatchSplitRequest.

Module CompactLogRequest.
Record t := mk { CompactIndex : Z }.
Definition zero : t := mk 0.
End CompactLogRequest.

Inductive AdminCmdType :=
| AdminCmdType_ConfigChange
| AdminCmdType_BatchSplit
| AdminCmdType_UpdateMetadata
| AdminCmdType_CompactLog
| AdminCmdType_UpdateLabels.

(** The admin part of an [rpc.RequestBatch]: the command it carries. *)
Inductive RequestBatch :=
| Req_ConfigChange (r : ConfigChangeRequest.t)
| Req_BatchSplit (r : BatchSplitRequest.t)
| Req_CompactLog (r : CompactLogRequest.t)
| Req_None.

(** The generated getters return the zero request for another command. *)
Definition GetConfigChangeRequest (b : RequestBatch) : ConfigChangeRequest.t :=
  match b with Req_ConfigChange r => r | _ => ConfigChangeRequest.zero end.
Definition GetBatchSplitRequest (b : RequestBatch) : BatchSplitRequest.t :=
  match b with Req_BatchSplit r => r | _ => BatchSplitRequest.zero end.
Definition GetCompactLogRequest (b : RequestBatch) : CompactLogRequest.t :=
  match b with Req_CompactLog r => r | _ => CompactLogRequest.zero end.

Module KeyNotInShard.
Record t := mk { Key : bytes; ShardID : Z; Start : bytes; End_ : bytes }.
End KeyNotInShard.

Module StaleEpoch.
Record t := mk { NewShards : list Shard.t }.
End StaleEpoch.

(** [errorpb.Error]; [StaleCommand] points to the empty message or is nil. *)
Module errorpb.
Record t := mk {
  Message : string;
  StaleCommand : option unit;
  StaleEpoch : option StaleEpoch.t;
  KeyNotInShard : option KeyNotInShard.t
}.
Definition zero : t := mk "" None None None.
Definition withMessage (e : t) (m : string) : t :=
  mk m (StaleCommand e) (StaleEpoch e) (KeyNotInShard e).
Definition withStaleCommand (e : t) (c : option unit) : t :=
  mk (Message e) c (StaleEpoch e) (KeyNotInShard e).
Definition withStaleEpoch (e : t) (c : option StaleEpoch.t) : t :=
  mk (Message e) (StaleCommand e) c (KeyNotInShard e).
End errorpb.

(** What a marshalled admin response carries. *)
Inductive AdminResponse :=
| CompactLogResponse
| ConfigChangeResponse (shard : Shard.t)
| BatchSplitResponse (shards : list Shard.t).

Module Response.
Record t := mk { AdminType : AdminCmdType; Value : AdminResponse }.
End Response.

Module ResponseBatchHeader.
Record t := mk { ID : bytes; Error : errorpb.t }.
Definition withID (h : t) (id : bytes) : t := mk id (Error h).
Definition withError (h : t) (e : errorpb.t) : t := mk (ID h) e.
End ResponseBatchHeader.

Module ResponseBatch.
Record t := mk {
  Header : option ResponseBatchHeader.t;
  Responses : list Response.t
}.
(** [rpc.ResponseBatch{}] *)
Definition empty : t := mk None [].
Definition withHeader (r : t) (h : option ResponseBatchHeader.t) : t :=
  mk h (Responses r).
End ResponseBatch.

(** ** [raftstore/errors.go] *)

Definition errStaleCMD : error := errors_New "stale command".
Definition errStaleEpoch : error := errors_New "stale epoch".
Definition errNotLeader : error := errors_New "notLeader".
Definition errShardNotFound : error := errors_New "shard not found".
Definition errMissingUUIDCMD : error := errors_New "missing request id".
Definition errLargeRaftEntrySize : error := errors_New "raft entry is too large".
Definition errKeyNotInShard : error := errors_New "key not in shard".
Definition errStoreNotMatch : error := errors_New "store not match".

(** [new(errorpb.StaleCommand)] *)
Definition infoStaleCMD : option unit := Some tt.

Definition buildUUID (uuid : bytes) (resp : ResponseBatch.t) : ResponseBatch.t :=
  match ResponseBatch.Header resp with
  | None => resp
  | Some h =>
      if negb (Nat.eqb (length (ResponseBatchHeader.ID h)) 0)
      then ResponseBatch.withHeader resp (Some (ResponseBatchHeader.withID h uuid))
      else resp
  end.

(** Writes through [resp.Header.Error]; the header is never nil where the
    source does so, a nil header would panic and is left as it is here. *)
Definition setError (resp : ResponseBatch.t) (f : errorpb.t -> errorpb.t)
  : ResponseBatch.t :=
  match ResponseBatch.Header resp with
  | None => resp
  | Some h =>
      ResponseBatch.withHeader resp
        (Some (ResponseBatchHeader.withError h (f (ResponseBatchHeader.Error h))))
  end.

Section ErrorResponses.

(** What the pools of package [pb] hand out. *)
Variable AcquireResponseBatch : ResponseBatch.t.
Variable AcquireResponseBatchHeader : ResponseBatchHeader.t.

Definition errorBaseResp (uuid : bytes) : ResponseBatch.t :=
  let resp := AcquireResponseBatch in
  let resp := ResponseBatch.withHeader resp (Some AcquireResponseBatchHeader) in
  buildUUID uuid resp.

Definition errorOtherCMDResp (err : error) : ResponseBatch.t :=
  let resp := errorBaseResp [] in
  setError resp (fun e => errorpb.withMessage e (Error err)).

Definition errorPbResp (err : errorpb.t) (uuid : bytes) : ResponseBatch.t :=
  let resp := errorBaseResp uuid in
  setError resp (fun _ => err).

Definition errorStaleCMDResp (uuid : bytes) : ResponseBatch.t :=
  let resp := errorBaseResp uuid in
  let resp := setError resp (fun e => errorpb.withMessage e (Error errStaleCMD)) in
  setError resp (fun e => errorpb.withStaleCommand e infoStaleCMD).

Definition errorStaleEpochResp (uuid : bytes) (newShards : list Shard.t)
  : ResponseBatch.t :=
  let resp := errorBaseResp uuid in
  let resp := setError resp (fun e => errorpb.withMessage e (Error errStaleCMD)) in
  setError resp
    (fun e => errorpb.withStaleEpoch e (Some (StaleEpoch.mk newShards))).

End ErrorResponses.

Definition compare_ge (c : comparison) : bool :=
  match c with Lt => false | _ => true end.
Definition compare_lt (c : comparison) : bool :=
  match c with Lt => true | _ => false end.

Definition checkKeyInShard (key : bytes) (shard : Shard.t) : option errorpb.t :=
  if compare_ge (bytes_Compare key (Shard.Start shard)) &&
     (Nat.eqb (length (Shard.End_ shard)) 0 ||
      compare_lt (bytes_Compare key (Shard.End_ shard)))
  then None
  else
    let e := KeyNotInShard.mk key (Shard.ID shard) (Shard.Start shard)
                              (Shard.End_ shard) in
    Some (errorpb.mk (Error errKeyNotInShard) None None (Some e)).

(** ** Write metrics

    [float64(x)] of an [int64] rounds to 53 significant bits, ties to even.
    Every float that arises in [updateWriteMetrics] is an integer of
    magnitude at most [2^63]; it is represented by that integer. *)

Definition float64_of_int64 (x : Z) : Z :=
  let a := Z.abs x in
  if a <? 2 ^ 53 then x
  else
    let e := Z.log2 a - 52 in
    let q := a / 2 ^ e in
    let r := a mod 2 ^ e in
    let half := 2 ^ (e - 1) in
    let q' := if (half <? r) || ((r =? half) && Z.odd q) then q + 1 else q in
    Z.sgn x * (q' * 2 ^ e).

Definition math_Abs (f : Z) : Z := Z.abs f.

(** [uint64(f)] of an integral float inside the range of [uint64]. *)
Definition uint64_of_float64 (f : Z) : Z := wrap64 f.

(** [uint64(x)] of an [int64]. *)
Definition uint64_of_int64 (x : Z) : Z := wrap64 x.

Module adminMetrics.
Record t := mk { compact : Z; split : Z; splitSucceed : Z }.
End adminMetrics.

Module applyMetrics.
Record t := mk {
  writtenBytes : Z;
  writtenKeys : Z;
  approximateDiffHint : Z;
  admin : adminMetrics.t
}.
Definition withAdmin (m : t) (a : adminMetrics.t) : t :=
  mk (writtenBytes m) (writtenKeys m) (approximateDiffHint m) a.
End applyMetrics.

(** The counters of the write context that [updateWriteMetrics] reads:
    [writtenBytes] is a [uint64], [diffBytes] is signed (an [int64]). *)
Module writeContext.
Record t := mk { writtenBytes : Z; diffBytes : Z }.
End writeContext.

(** [updateWriteMetrics] reads [d.writeCtx] and updates [d.applyCtx.metrics]:
    it is a function of these two fields of the state machine. *)
Definition updateWriteMetrics (metrics : applyMetrics.t) (writeCtx : writeContext.t)
  : applyMetrics.t :=
  let writtenBytes :=
    wrap64 (applyMetrics.writtenBytes metrics + writeContext.writtenBytes writeCtx) in
  let hint := applyMetrics.approximateDiffHint metrics in
  let hint' :=
    if writeContext.diffBytes writeCtx <? 0 then
      let v := uint64_of_float64
                 (math_Abs (float64_of_int64 (writeContext.diffBytes writeCtx))) in
      if hint <=? v then 0 else hint - v
    else wrap64 (hint + uint64_of_int64 (writeContext.diffBytes writeCtx)) in
  applyMetrics.mk writtenBytes (applyMetrics.writtenKeys metrics) hint'
                  (applyMetrics.admin metrics).

(** ** The admin applier: state *)

Inductive adminResult :=
| compactionResult (index : Z)
| configChangeResult (index : Z) (changes : list ConfigChangeRequest.t)
                     (shard : Shard.t)
| splitResult (newShards : list Shard.t).

Module applyContext.
Record t := mk {
  index : Z;
  term : Z;
  req : RequestBatch;
  metrics : applyMetrics.t;
  adminResult : option adminResult
}.
Definition withAdminMetrics (c : t) (a : adminMetrics.t) : t :=
  mk (index c) (term c) (req c) (applyMetrics.withAdmin (metrics c) a)
     (adminResult c).
End applyContext.

(** [ctx.adminResult = &adminResult{...}] *)
Definition setAdminResult (c : applyContext.t) (r : adminResult) : applyContext.t :=
  applyContext.mk (applyContext.index c) (applyContext.term c) (applyContext.req c)
                  (applyContext.metrics c) (Some r).

(** Calls made on the collaborators, oldest first. *)
Inductive Effect :=
| Eff_GetPersistentLogIndex (shardID : Z)
| Eff_SaveShardMetadata (records : list ShardMetadata.t)
| Eff_Split (old : ShardMetadata.t) (news : list ShardMetadata.t) (context : bytes)
| Eff_create (reason : string) (shards : list Shard.t).

(** An error as [storage.Split] returns it.  The source compares it with the
    sentinel by identity ([err == storage.ErrAborted]): it is the sentinel
    itself, or it is another error value, which may well carry the text of
    the sentinel. *)
Inductive splitError :=
| storage_ErrAborted
| splitFailure (err : error).

(** Modelled from the spec: the storage adapter is a consumed interface,
    not part of the sources: [GetPersistentLogIndex(shardID)] gives an index
    or an error, [SaveShardMetadata(records)] and [Split(old, new, context)]
    give an error or none, and [Split] answers [ErrAborted] for "superseded;
    do nothing".  An answer may depend on the calls made so far. *)
Module DataStorage.
Record t := mk {
  GetPersistentLogIndex : list Effect -> Z -> Z + error;
  SaveShardMetadata : list Effect -> list ShardMetadata.t -> option error;
  Split : list Effect -> ShardMetadata.t -> list ShardMetadata.t -> bytes
          -> option splitError
}.
End DataStorage.

(** Modelled from the spec: the declaration of [stateMachine] and its
    accessors ([getShard], [updateShard], [getFirstIndex], [setFirstIndex],
    [isRemoved], [setRemoved], [setSplited]) are not part of the sources.
    The record has the fields the admin handlers read and write (the
    in-memory shard, [firstIndex], the removed and splited marks, the
    identity of this replica), with the record of the calls they made. *)
Module stateMachine.
Record t := mk {
  shardID : Z;
  replica : Replica.t;
  shard : Shard.t;
  firstIndex : Z;
  removed : bool;
  splited : bool;
  calls : list Effect
}.
Definition getShard (d : t) : Shard.t := shard d.
Definition updateShard (d : t) (s : Shard.t) : t :=
  mk (shardID d) (replica d) s (firstIndex d) (removed d) (splited d) (calls d).
Definition getFirstIndex (d : t) : Z := firstIndex d.
Definition setFirstIndex (d : t) (i : Z) : t :=
  mk (shardID d) (replica d) (shard d) i (removed d) (splited d) (calls d).
Definition isRemoved (d : t) : bool := removed d.
Definition setRemoved (d : t) : t :=
  mk (shardID d) (replica d) (shard d) (firstIndex d) true (splited d) (calls d).
Definition setSplited (d : t) : t :=
  mk (shardID d) (replica d) (shard d) (firstIndex d) (removed d) true (calls d).
Definition called (d : t) (e : Effect) : t :=
  mk (shardID d) (replica d) (shard d) (firstIndex d) (removed d) (splited d)
     (calls d ++ [e]).
End stateMachine.

(** What a handler leaves behind: the process is gone, or it returned. *)
Inductive outcome :=
| Fatal (msg : string)
| Return (resp : ResponseBatch.t) (err : option error)
         (d : stateMachine.t) (ctx : applyContext.t).

Definition ErrNotLearnerReplica : error := errors_New "not learner".
Definition ErrReplicaNotFound : error := errors_New "replica not found".
Definition ErrReplicaDuplicated : error := errors_New "replica duplicated".

(** [errors.Is(err, target)] for a sentinel [target]. *)
Definition errors_Is (err target : error) : bool :=
  error_eqb (errors_Cause err) target.

(** Modelled from the spec: [newAdminResponseBatch] is not part of the
    sources; the response batch of an admin command carries the one response
    of that command. *)
Definition newAdminResponseBatch (adminType : AdminCmdType) (rsp : AdminResponse)
  : ResponseBatch.t :=
  ResponseBatch.mk None [Response.mk adminType rsp].

(** Modelled from the spec: [findReplica] is not part of the sources; it
    locates the existing replica on [containerID].  The result stands for the
    pointer into [shard.Replicas]: the position and the replica there. *)
Definition findReplica (shard : Shard.t) (containerID : Z)
  : option (nat * Replica.t) :=
  list_find (fun r => Replica.ContainerID r = containerID) (Shard.Replicas shard).

(** Modelled from the spec: [removeReplica] is not part of the sources; it
    removes the entry of [containerID]. *)
Definition removeReplica (shard : Shard.t) (containerID : Z) : Shard.t :=
  Shard.withReplicas shard
    (filter (fun r => Replica.ContainerID r <> containerID) (Shard.Replicas shard)).

Definition is_Some_b {A} (o : option A) : bool :=
  match o with Some _ => true | None => false end.

(** ** The admin applier: handlers *)

(** [current.Epoch.Version += uint64(newShardsCount)] *)
Definition addVersion (current : Shard.t) (newShardsCount : nat) : Shard.t :=
  Shard.withEpoch current
    (Epoch.mk (Epoch.ConfVer (Shard.Epoch current))
              (wrap64 (Epoch.Version (Shard.Epoch current)
                       + Z.of_nat newShardsCount))).

(** [res.Epoch.ConfVer++] *)
Definition incrConfVer (res : Shard.t) : Shard.t :=
  Shard.withEpoch res
    (Epoch.mk (wrap64 (Epoch.ConfVer (Shard.Epoch res) + 1))
              (Epoch.Version (Shard.Epoch res))).

Section Applier.

Variable dataStorage : DataStorage.t.

(** The replica factory: [create] seeds the children and
    [getShardsMetadata] returns their metadata records. *)
Variable getShardsMetadata : list Shard.t -> list ShardMetadata.t.

Definition adjustCompactionIndex (d : stateMachine.t) (index : Z)
  : stateMachine.t * (Z + error) :=
  let answer := DataStorage.GetPersistentLogIndex dataStorage
                  (stateMachine.calls d) (stateMachine.shardID d) in
  let d := stateMachine.called d
             (Eff_GetPersistentLogIndex (stateMachine.shardID d)) in
  match answer with
  | inr err => (d, inr err)
  | inl persistentLogIndex =>
      if persistentLogIndex <? index
      then (d, inl persistentLogIndex)
      else (d, inl index)
  end.

Definition doExecCompactLog (d : stateMachine.t) (ctx : applyContext.t) : outcome :=
  let m := applyMetrics.admin (applyContext.metrics ctx) in
  let ctx := applyContext.withAdminMetrics ctx
               (adminMetrics.mk (adminMetrics.compact m + 1) (adminMetrics.split m)
                                (adminMetrics.splitSucceed m)) in
  let req := GetCompactLogRequest (applyContext.req ctx) in
  let compactIndex := CompactLogRequest.CompactIndex req in
  let firstIndex := stateMachine.getFirstIndex d in
  if compactIndex <=? firstIndex then Return ResponseBatch.empty None d ctx
  else
    match adjustCompactionIndex d compactIndex with
    | (d, inr err) => Return ResponseBatch.empty (Some err) d ctx
    | (d, inl compactIndex) =>
        let d := stateMachine.setFirstIndex d (wrap64 (compactIndex + 1)) in
        let resp := newAdminResponseBatch AdminCmdType_CompactLog CompactLogResponse in
        let ctx := setAdminResult ctx (compactionResult compactIndex) in
        Return resp None d ctx
    end.

Definition saveShardMetedata (d : stateMachine.t) (index term : Z)
           (shard : Shard.t) (state : ReplicaState)
  : stateMachine.t * option error :=
  let records :=
    [ShardMetadata.mk (Shard.ID shard) index
                      (ShardLocalState.mk state shard false)] in
  let answer := DataStorage.SaveShardMetadata dataStorage
                  (stateMachine.calls d) records in
  (stateMachine.called d (Eff_SaveShardMetadata records), answer).

(** The [switch] of [doExecConfigChange]: an early return with an error, or
    the changed copy [res] with the state machine (marked removed when the
    replica removed is its own). *)
Definition configChangeSwitch (d : stateMachine.t) (req : ConfigChangeRequest.t)
           (res : Shard.t) : error + (Shard.t * stateMachine.t) :=
  let replica := ConfigChangeRequest.Replica req in
  let p := findReplica res (Replica.ContainerID replica) in
  match ConfigChangeRequest.ChangeType req with
  | ConfigChangeType_AddNode =>
      match p with
      | Some (i, p) =>
          if Replica.ID p =? Replica.ID replica then
            if negb (bool_decide (Replica.Role p = ReplicaRole_Learner)) then
              inl (errors_Wrapf ErrReplicaDuplicated
                     "shardID %d, replicaID %d, role %v"
                     [ArgUint64 (Shard.ID res); ArgUint64 (Replica.ID p);
                      ArgRole (Replica.Role p)])
            else
              inr (Shard.withReplicas res
                     (<[i := Replica.withRole p ReplicaRole_Voter]>
                        (Shard.Replicas res)), d)
          else
            inl (errors_Wrapf ErrReplicaDuplicated
                   "shardID %d, replicaID %d found on container %d"
                   [ArgUint64 (Shard.ID res); ArgUint64 (Replica.ID p);
                    ArgUint64 (Replica.ContainerID replica)])
      | None =>
          let replica := Replica.withRole replica ReplicaRole_Voter in
          inr (Shard.withReplicas res (Shard.Replicas res ++ [replica]), d)
      end
  | ConfigChangeType_RemoveNode =>
      match p with
      | Some (i, p) =>
          if negb (Replica.ID p =? Replica.ID replica) then
            inl (errors_Wrapf ErrReplicaNotFound
                   "shardID %d, replicaID %d found on container %d"
                   [ArgUint64 (Shard.ID res); ArgUint64 (Replica.ID p);
                    ArgUint64 (Replica.ContainerID replica)])
          else
            let res := removeReplica res (Replica.ContainerID replica) in
            if Replica.ID (stateMachine.replica d) =? Replica.ID replica
            then inr (res, stateMachine.setRemoved d)
            else inr (res, d)
      | None =>
          inl (errors_Wrapf ErrReplicaNotFound
                 "shardID %d, replicaID %d found on container %d"
                 [ArgUint64 (Shard.ID res); ArgUint64 (Replica.ID replica);
                  ArgUint64 (Replica.ContainerID replica)])
      end
  | ConfigChangeType_AddLearnerNode =>
      match p with
      | Some (i, p) =>
          inl (errors_Wrapf ErrReplicaDuplicated
                 "shardID %d, replicaID %d role %v already exist on store %d"
                 [ArgUint64 (Shard.ID res); ArgUint64 (Replica.ID p);
                  ArgRole (Replica.Role p);
                  ArgUint64 (Replica.ContainerID replica)])
      | None =>
          let replica := Replica.withRole replica ReplicaRole_Learner in
          inr (Shard.withReplicas res (Shard.Replicas res ++ [replica]), d)
      end
  | ConfigChangeType_Unhandled _ => inr (res, d)
  end.

Definition doExecConfigChange (d : stateMachine.t) (ctx : applyContext.t) : outcome :=
  let req := GetConfigChangeRequest (applyContext.req ctx) in
  let current := stateMachine.getShard d in
  (* res is a deep copy of current *)
  let res := current in
  let res := incrConfVer res in
  match configChangeSwitch d req res with
  | inl err => Return ResponseBatch.empty (Some err) d ctx
  | inr (res, d) =>
      let state := if stateMachine.isRemoved d
                   then ReplicaState_Tombstone else ReplicaState_Normal in
      let d := stateMachine.updateShard d res in
      match saveShardMetedata d (applyContext.index ctx) (applyContext.term ctx)
                              res state with
      | (d, Some err) => Fatal "failed to save metadata"
      | (d, None) =>
          let resp := newAdminResponseBatch AdminCmdType_ConfigChange
                        (ConfigChangeResponse res) in
          let ctx := setAdminResult ctx
                       (configChangeResult (applyContext.index ctx) [req] res) in
          Return resp None d ctx
      end
  end.

(** The child that the loop of [doExecSplit] builds for one request. *)
Definition newShardOf (current : Shard.t) (req : SplitRequest.t) : Shard.t :=
  Shard.mk (SplitRequest.NewShardID req)
           (SplitRequest.Start req)
           (SplitRequest.End_ req)
           (Shard.Epoch current)
           (Shard.State Shard.zero)
           (SplitRequest.NewReplicas req)
           (Shard.DisableSplit current)
           (Shard.Group current)
           (Shard.Unique current)
           (Shard.RuleGroups current)
           (Shard.Labels Shard.zero).

(** The [for idx, req := range splitReqs.Requests] loop: the message of the
    [Fatal] it ran into, or the children with the [splitSucceed] counter. *)
Fixpoint splitLoop (current : Shard.t) (last idx : nat) (expectStart : bytes)
         (reqs : list SplitRequest.t) (newShards : list Shard.t)
         (splitSucceed : Z) : string + (list Shard.t * Z) :=
  match reqs with
  | [] => inr (newShards, splitSucceed)
  | req :: rest =>
      if is_Some_b (checkKeyInShard (SplitRequest.Start req) current) ||
         (negb (Nat.eqb idx last) &&
          is_Some_b (checkKeyInShard (SplitRequest.End_ req) current))
      then inl "invalid split reuqest range"
      else if negb (bytes_Equal (SplitRequest.Start req) expectStart)
      then inl "invalid split reuqest start key"
      else
        let expectStart := SplitRequest.End_ req in
        splitLoop current last (S idx) expectStart rest
                  (newShards ++ [newShardOf current req]) (splitSucceed + 1)
  end.

Definition doExecSplit (d : stateMachine.t) (ctx : applyContext.t) : outcome :=
  let m := applyMetrics.admin (applyContext.metrics ctx) in
  let ctx := applyContext.withAdminMetrics ctx
               (adminMetrics.mk (adminMetrics.compact m) (adminMetrics.split m + 1)
                                (adminMetrics.splitSucceed m)) in
  let splitReqs := GetBatchSplitRequest (applyContext.req ctx) in
  let requests := BatchSplitRequest.Requests splitReqs in
  match requests with
  | [] => Fatal "missing splits request"
  | first :: _ =>
      let current := stateMachine.getShard d in
      if negb (bytes_Equal (SplitRequest.Start first) (Shard.Start current)) ||
         negb (bytes_Equal (SplitRequest.End_ (List.last requests first))
                           (Shard.End_ current))
      then Fatal "invalid splits keys"
      else
        let newShardsCount := length requests in
        let current := addVersion current newShardsCount in
        let expectStart := Shard.Start current in
        let last := (length requests - 1)%nat in
        let m := applyMetrics.admin (applyContext.metrics ctx) in
        match splitLoop current last 0 expectStart requests []
                        (adminMetrics.splitSucceed m) with
        | inl msg => Fatal msg
        | inr (newShards, splitSucceed) =>
            let ctx := applyContext.withAdminMetrics ctx
                         (adminMetrics.mk (adminMetrics.compact m)
                                          (adminMetrics.split m) splitSucceed) in
            let d := stateMachine.called d (Eff_create "splited" newShards) in
            let current := Shard.withState current ResourceState_Destroying in
            let old :=
              ShardMetadata.mk (Shard.ID current) (applyContext.index ctx)
                (ShardLocalState.mk ReplicaState_Normal current false) in
            let news := getShardsMetadata newShards in
            let err := DataStorage.Split dataStorage (stateMachine.calls d) old news
                         (BatchSplitRequest.Context splitReqs) in
            let d := stateMachine.called d
                       (Eff_Split old news (BatchSplitRequest.Context splitReqs)) in
            match err with
            | Some err =>
                match err with
                | storage_ErrAborted => Return ResponseBatch.empty None d ctx
                | splitFailure _ => Fatal "failed to split on data storage"
                end
            | None =>
                let d := stateMachine.setSplited d in
                let d := stateMachine.updateShard d current in
                let resp := newAdminResponseBatch AdminCmdType_BatchSplit
                              (BatchSplitResponse newShards) in
                let ctx := setAdminResult ctx (splitResult newShards) in
                Return resp None d ctx
            end
        end
  end.

End Applier.

(** ** The heartbeat response multiplexer *)

Module hbstream.












End hbstream.

(** ** Scenario fixtures and counters *)

(** [ctx.metrics.admin.compact++] *)
Definition countCompact (ctx : applyContext.t) : applyContext.t :=
  let m := applyMetrics.admin (applyContext.metrics ctx) in
  applyContext.withAdminMetrics ctx
    (adminMetrics.mk (adminMetrics.compact m + 1) (adminMetrics.split m)
                     (adminMetrics.splitSucceed m)).

(** A storage whose persistent log index is [p] at every call. *)
Definition storageAt (p : Z) : DataStorage.t :=
  DataStorage.mk (fun _ _ => inl p) (fun _ _ => None) (fun _ _ _ _ => None).

Definition compactCtx (compactIndex : Z) : applyContext.t :=
  applyContext.mk 1 1 (Req_CompactLog (CompactLogRequest.mk compactIndex))
                  (applyMetrics.mk 0 0 0 (adminMetrics.mk 0 0 0)) None.

Definition machineAt (firstIndex : Z) (shard : Shard.t) (self : Replica.t)
  : stateMachine.t :=
  stateMachine.mk (Shard.ID shard) self shard firstIndex false false [].

Definition configChangeCtx (index : Z) (changeType : ConfigChangeType)
           (replica : Replica.t) : applyContext.t :=
  applyContext.mk index 1
    (Req_ConfigChange (ConfigChangeRequest.mk changeType replica))
    (applyMetrics.mk 0 0 0 (adminMetrics.mk 0 0 0)) None.

Definition shardOf (confVer version : Z) (replicas : list Replica.t) : Shard.t :=
  Shard.mk 7 [] [] (Epoch.mk confVer version) ResourceState_Running replicas
           false 0 "" [] [].

(** The record [saveShardMetedata] hands to the storage. *)
Definition savedRecords (index : Z) (shard : Shard.t) (state : ReplicaState)
  : list ShardMetadata.t :=
  [ShardMetadata.mk (Shard.ID shard) index (ShardLocalState.mk state shard false)].

(** ** Split geometry *)

(** Each request starts where the one before it ended, the first one at
    [expectStart]. *)
Fixpoint contiguous (expectStart : bytes) (reqs : list SplitRequest.t) : Prop :=
  match reqs with
  | [] => True
  | req :: rest =>
      SplitRequest.Start req = expectStart /\ contiguous (SplitRequest.End_ req) rest
  end.

(** The validation of a request list against the parent: the list is not
    empty, it starts at the parent's start and ends at the parent's end, every
    start lies within the parent's range and so does every end but the last,
    and the requests are contiguous. *)
Definition validSplit (parent : Shard.t) (reqs : list SplitRequest.t) : Prop :=
  (exists first, head reqs = Some first /\
                 SplitRequest.Start first = Shard.Start parent) /\
  (exists final, last reqs = Some final /\
                 SplitRequest.End_ final = Shard.End_ parent) /\
  (forall i req, reqs !! i = Some req ->
                 checkKeyInShard (SplitRequest.Start req) parent = None /\
                 (i <> (length reqs - 1)%nat ->
                  checkKeyInShard (SplitRequest.End_ req) parent = None)) /\
  (forall i req next, reqs !! i = Some req -> reqs !! S i = Some next ->
                      SplitRequest.End_ req = SplitRequest.Start next).

(** The parent as [doExecSplit] hands it to the storage and keeps it. *)
Definition destroying (parent : Shard.t) (newShardsCount : nat) : Shard.t :=
  Shard.withState (addVersion parent newShardsCount) ResourceState_Destroying.

Definition oldMetadata (parent : Shard.t) (newShardsCount : nat) (index : Z)
  : ShardMetadata.t :=
  ShardMetadata.mk (Shard.ID parent) index
    (ShardLocalState.mk ReplicaState_Normal (destroying parent newShardsCount) false).

(** The children of [reqs]. *)
Definition childrenOf (parent : Shard.t) (reqs : list SplitRequest.t)
  : list Shard.t :=
  map (newShardOf (addVersion parent (length reqs))) reqs.

(** What [storage.Split] answers to the call of [doExecSplit]. *)
Definition splitAnswer (ds : DataStorage.t)
           (getShardsMetadata : list Shard.t -> list ShardMetadata.t)
           (d : stateMachine.t) (ctx : applyContext.t)
           (reqs : list SplitRequest.t) (context : bytes) : option splitError :=
  let parent := stateMachine.shard d in
  DataStorage.Split ds
    (stateMachine.calls d ++ [Eff_create "splited" (childrenOf parent reqs)])
    (oldMetadata parent (length reqs) (applyContext.index ctx))
    (getShardsMetadata (childrenOf parent reqs)) context.

(** The calls [doExecSplit] has made once [storage.Split] has answered. *)
Definition splitCalls (getShardsMetadata : list Shard.t -> list ShardMetadata.t)
           (d : stateMachine.t) (ctx : applyContext.t)
           (reqs : list SplitRequest.t) (context : bytes) : list Effect :=
  let parent := stateMachine.shard d in
  (stateMachine.calls d ++ [Eff_create "splited" (childrenOf parent reqs)]) ++
  [Eff_Split (oldMetadata parent (length reqs) (applyContext.index ctx))
             (getShardsMetadata (childrenOf parent reqs)) context].

(** [ctx.metrics.admin.split++] and one [splitSucceed++] per request. *)
Definition countSplit (ctx : applyContext.t) (requests : nat) : applyContext.t :=
  let m := applyMetrics.admin (applyContext.metrics ctx) in
  applyContext.withAdminMetrics ctx
    (adminMetrics.mk (adminMetrics.compact m) (adminMetrics.split m + 1)
                     (adminMetrics.splitSucceed m + Z.of_nat requests)).

(** One metadata record per child, at log index 0. *)
Definition metadataOf (shards : list Shard.t) : list ShardMetadata.t :=
  map (fun s => ShardMetadata.mk (Shard.ID s) 0
                  (ShardLocalState.mk ReplicaState_Normal s false)) shards.

(** A storage whose [Split] answers [answer] at every call. *)
Definition storageSplit (answer : option splitError) : DataStorage.t :=
  DataStorage.mk (fun _ _ => inl 0) (fun _ _ => None) (fun _ _ _ _ => answer).

(** The two-way split: parent ["a","z"), requests ["a","m") and ["m","z"). *)
Definition parentAZ : Shard.t :=
  Shard.mk 7 [x61] [x7a] (Epoch.mk 3 9) ResourceState_Running
           [Replica.mk 1 1 ReplicaRole_Voter] false 4 "u" ["r"] [].

Definition requestsAMZ : list SplitRequest.t :=
  [SplitRequest.mk [x61] [x6d] 10 [Replica.mk 100 1 ReplicaRole_Voter];
   SplitRequest.mk [x6d] [x7a] 11 [Replica.mk 101 1 ReplicaRole_Voter]].

Definition splitCtx (index : Z) (reqs : list SplitRequest.t) : applyContext.t :=
  applyContext.mk index 1 (Req_BatchSplit (BatchSplitRequest.mk reqs []))
                  (applyMetrics.mk 0 0 0 (adminMetrics.mk 0 0 0)) None.

(** The state machine after [doExecSplit] got [Aborted] from the storage:
    only the calls it made are added. *)
Definition afterAborted (calls : list Effect) (d : stateMachine.t) : stateMachine.t :=
  stateMachine.mk (stateMachine.shardID d) (stateMachine.replica d)
                  (stateMachine.shard d) (stateMachine.firstIndex d)
                  (stateMachine.removed d) (stateMachine.splited d) calls.

(** The state machine after a split the storage accepted. *)
Definition afterSplit (calls : list Effect) (parent : Shard.t)
           (d : stateMachine.t) : stateMachine.t :=
  stateMachine.mk (stateMachine.shardID d) (stateMachine.replica d)
                  parent (stateMachine.firstIndex d)
                  (stateMachine.removed d) true calls.


(** ** Key ranges *)

(** [key] lies in the half-open range [start, end), an empty [end] standing
    for no upper bound: the test of [checkKeyInShard]. *)
Definition inRange (key start end_ : bytes) : bool :=
  compare_ge (bytes_Compare key start) &&
  (Nat.eqb (length end_) 0 || compare_lt (bytes_Compare key end_)).

(** A response whose header, if any, has the empty ID. *)
Definition headerID (resp : ResponseBatch.t) : option bytes :=
  match ResponseBatch.Header resp with
  | Some h => Some (ResponseBatchHeader.ID h)
  | None => None
  end.

(** No request but the last has an empty end, which would stand for no
    upper bound. *)
Definition boundedEnds (reqs : list SplitRequest.t) : Prop :=
  forall i req, reqs !! i = Some req -> i <> (length reqs - 1)%nat ->
                SplitRequest.End_ req <> [].

(** The split keys do not decrease: no request but the last ends below its
    start. *)
Definition increasingKeys (reqs : list SplitRequest.t) : Prop :=
  forall i req, reqs !! i = Some req -> i <> (length reqs - 1)%nat ->
                compare_ge (bytes_Compare (SplitRequest.End_ req)
                                          (SplitRequest.Start req)) = true.


(** A storage whose [GetPersistentLogIndex] fails at every call. *)
Definition storageFailing (err : error) : DataStorage.t :=
  DataStorage.mk (fun _ _ => inr err) (fun _ _ => None) (fun _ _ _ _ => None).

(** [updateWriteMetrics] after every write batch of a run, oldest first. *)
Definition updateWriteMetricsAll (metrics : applyMetrics.t)
           (batches : list writeContext.t) : applyMetrics.t :=
  foldl updateWriteMetrics metrics batches.

(** At most one replica per container. *)
Definition uniqueContainers (shard : Shard.t) : Prop :=
  NoDup (map Replica.ContainerID (Shard.Replicas shard)).

(** The replica state [doExecConfigChange] persists. *)
Definition persistedState (d : stateMachine.t) : ReplicaState :=
  if stateMachine.removed d then ReplicaState_Tombstone else ReplicaState_Normal.

(** ** Label updates *)

(** [rpc.UpdatePolicy].  The last constructor stands for every value of the
    enum that the [switch] of [doUpdateLabels] has no [case] for. *)
Inductive UpdatePolicy :=
| UpdatePolicy_Add
| UpdatePolicy_Remove
| UpdatePolicy_Reset
| UpdatePolicy_Clear
| UpdatePolicy_Unhandled (code : Z).

Module UpdateLabelsRequest.
Record t := mk { Labels : list Pair.t; Policy : UpdatePolicy }.
End UpdateLabelsRequest.

(** [current.Labels = labels] *)
Definition setLabels (s : Shard.t) (labels : list Pair.t) : Shard.t :=
  Shard.mk (Shard.ID s) (Shard.Start s) (Shard.End_ s) (Shard.Epoch s)
           (Shard.State s) (Shard.Replicas s) (Shard.DisableSplit s)
           (Shard.Group s) (Shard.Unique s) (Shard.RuleGroups s) labels.

(** The inner loop of [doUpdateLabels]: [remove] after the loop over the
    requested labels. *)
Fixpoint removeFlag (labels : list Pair.t) (oldLabel : Pair.t) (remove : bool) : bool :=
  match labels with
  | [] => remove
  | label :: rest =>
      removeFlag rest oldLabel
                 (if String.eqb (Pair.Key label) (Pair.Key oldLabel) then true
                  else remove)
  end.

(** The outer loop: [newLabels] after the loop over the old labels. *)
Fixpoint keptLabels (old labels : list Pair.t) (newLabels : list Pair.t)
  : list Pair.t :=
  match old with
  | [] => newLabels
  | oldLabel :: rest =>
      if negb (removeFlag labels oldLabel false)
      then keptLabels rest labels (newLabels ++ [oldLabel])
      else keptLabels rest labels newLabels
  end.

(** The [switch] of [doUpdateLabels] on the policy. *)
Definition updatedLabels (policy : UpdatePolicy) (old labels : list Pair.t)
  : list Pair.t :=
  match policy with
  | UpdatePolicy_Add => keptLabels old labels [] ++ labels
  | UpdatePolicy_Remove => keptLabels old labels []
  | UpdatePolicy_Reset => labels
  | UpdatePolicy_Clear => []
  | UpdatePolicy_Unhandled _ => old
  end.

(** What [doUpdateLabels] leaves behind: the process is gone, or it
    returned the response of [UpdateLabels] and no error, with the admin
    result of that type set in the context; both carry no content. *)
Inductive labelsOutcome :=
| LabelsFatal (msg : string)
| LabelsReturn (d : stateMachine.t).

Section Labels.

Variable dataStorage : DataStorage.t.

(** [sort.Slice] with the order of the keys: it is not stable, so which
    sorted arrangement it gives is left open. *)
Variable sortSlice : list Pair.t -> list Pair.t.

(** The request is [ctx.req.GetUpdateLabelsRequest()]. *)
Definition doUpdateLabels (d : stateMachine.t) (ctx : applyContext.t)
           (updateReq : UpdateLabelsRequest.t) : labelsOutcome :=
  let current := stateMachine.getShard d in
  let current :=
    setLabels current
      (updatedLabels (UpdateLabelsRequest.Policy updateReq) (Shard.Labels current)
                     (UpdateLabelsRequest.Labels updateReq)) in
  let records :=
    [ShardMetadata.mk (stateMachine.shardID d) (applyContext.index ctx)
                      (ShardLocalState.mk ReplicaState_Normal current false)] in
  let err := DataStorage.SaveShardMetadata dataStorage (stateMachine.calls d)
               records in
  let d := stateMachine.called d (Eff_SaveShardMetadata records) in
  match err with
  | Some _ => LabelsFatal "failed to update labels"
  | None =>
      let current := setLabels current (sortSlice (Shard.Labels current)) in
      let d := stateMachine.updateShard d current in
      LabelsReturn d
  end.

End Labels.

(** The slice is in the order [sort.Slice] leaves with [less] comparing the
    keys: no label has a key below the key of a label before it. *)
Definition sortedByKey (labels : list Pair.t) : Prop :=
  StronglySorted (fun x y => String.ltb (Pair.Key y) (Pair.Key x) = false) labels.

(** [sortSlice] sorts [labels]: it rearranges them into key order. *)
Definition sortsByKey (sortSlice : list Pair.t -> list Pair.t)
           (labels : list Pair.t) : Prop :=
  sortSlice labels ≡ₚ labels /\ sortedByKey (sortSlice labels).

(** A label with one of the requested keys. *)
Definition requested (labels : list Pair.t) (label : Pair.t) : Prop :=
  exists l, l ∈ labels /\ Pair.Key l = Pair.Key label.

(** Insertion into a slice in key order, and the sort it gives. *)
Fixpoint insertByKey (label : Pair.t) (labels : list Pair.t) : list Pair.t :=
  match labels with
  | [] => [label]
  | l :: rest =>
      if String.ltb (Pair.Key label) (Pair.Key l) then label :: l :: rest
      else l :: insertByKey label rest
  end.

Definition insertionSort (labels : list Pair.t) : list Pair.t :=
  fold_right insertByKey [] labels.

(** The state machine after [doUpdateLabels]: the shard with the new labels
    in memory, and the call that saved it. *)
Definition afterLabels (d : stateMachine.t) (index : Z)
           (saved sorted : list Pair.t) : stateMachine.t :=
  stateMachine.mk (stateMachine.shardID d) (stateMachine.replica d)
    (setLabels (stateMachine.shard d) sorted)
    (stateMachine.firstIndex d) (stateMachine.removed d) (stateMachine.splited d)
    (stateMachine.calls d ++
     [Eff_SaveShardMetadata
        [ShardMetadata.mk (stateMachine.shardID d) index
           (ShardLocalState.mk ReplicaState_Normal
                               (setLabels (stateMachine.shard d) saved) false)]]).

(** A storage whose [SaveShardMetadata] answers [answer] at every call. *)
Definition storageSave (answer : option error) : DataStorage.t :=
  DataStorage.mk (fun _ _ => inl 0) (fun _ _ => answer) (fun _ _ _ _ => None).

Definition labelsCtx (index : Z) : applyContext.t :=
  applyContext.mk index 1 Req_None
                  (applyMetrics.mk 0 0 0 (adminMetrics.mk 0 0 0)) None.

Definition labelledShard (labels : list Pair.t) : Shard.t :=
  Shard.mk 7 [] [] (Epoch.mk 3 9) ResourceState_Running
           [Replica.mk 1 1 ReplicaRole_Voter] false 0 "" [] labels.

(** ** The Redis handlers (package [redis]) *)

Module redis.

Inductive RespType := StatusResp | ErrorResp | IntegerResp | BulkResp.

(** [redispb.RedisResponse]; [Type] is [None] where the source leaves it at
    its zero value. *)
Record RedisResponse := mkRedisResponse {
  Type_ : option RespType;
  IntegerResult : Z;
  BulkResult : bytes;
  ErrorResult : string
}.

(** What [resp.Value] holds: one of the prepared values [invalidCommandResp]
    and [statusResp], [errorResp(err)], or a marshalled [RedisResponse]. *)
Inductive Value :=
| invalidCommandResp
| statusResp
| errorResp (err : error)
| MustMarshal (r : RedisResponse).

(** [raftcmdpb.Request]: the key, and [Cmd] as the [RedisArgs.Args] that
    [protoc.MustUnmarshal] reads from it. *)
Record Request := mkRequest { Key : bytes; Args : list bytes }.

(** The store behind [h.getRedisKV(shard)]: what each of its operations
    answers for a shard. *)
Record RedisKV := mkRedisKV {
  Set_ : Z -> bytes -> bytes -> option error;
  IncrBy : Z -> bytes -> Z -> Z + error;
  DecrBy : Z -> bytes -> Z -> Z + error;
  GetSet : Z -> bytes -> bytes -> bytes + error;
  Append : Z -> bytes -> bytes -> Z + error;
  SetNX : Z -> bytes -> bytes -> Z + error;
  Get : Z -> bytes -> bytes + error;
  StrLen : Z -> bytes -> Z + error
}.

(** [len(b)] of a slice; the lengths of slices and their sums fit an [int],
    so [uint64(...)] and [int64(...)] of them are the same number. *)
Definition len (b : bytes) : Z := Z.of_nat (length b).

Section Handlers.

Variable kv : RedisKV.

(** [format.ParseStrInt64] and [format.Int64ToString] of package
    [fagongzi/util/format]. *)
Variable ParseStrInt64 : bytes -> Z + error.
Variable Int64ToString : Z -> bytes.

Definition set (shard : Z) (req : Request) : Z * Z * Value :=
  match Args req with
  | [arg] =>
      match Set_ kv shard (Key req) arg with
      | Some err => (0, 0, errorResp err)
      | None =>
          let writtenBytes := len (Key req) + len arg in
          (writtenBytes, writtenBytes, statusResp)
      end
  | _ => (0, 0, invalidCommandResp)
  end.

Definition incrBy (shard : Z) (req : Request) : Z * Z * Value :=
  match Args req with
  | [arg] =>
      match ParseStrInt64 arg with
      | inr err => (0, 0, errorResp err)
      | inl incrment =>
          match IncrBy kv shard (Key req) incrment with
          | inr err => (0, 0, errorResp err)
          | inl value =>
              let writtenBytes := len (Int64ToString value) in
              (writtenBytes, 0,
               MustMarshal (mkRedisResponse (Some IntegerResp) value [] ""))
          end
      end
  | _ => (0, 0, invalidCommandResp)
  end.

Definition incr (shard : Z) (req : Request) : Z * Z * Value :=
  match IncrBy kv shard (Key req) 1 with
  | inr err => (0, 0, errorResp err)
  | inl value =>
      let writtenBytes := len (Int64ToString value) in
      (writtenBytes, 0, MustMarshal (mkRedisResponse (Some IntegerResp) value [] ""))
  end.

Definition decrby (shard : Z) (req : Request) : Z * Z * Value :=
  match Args req with
  | [arg] =>
      match ParseStrInt64 arg with
      | inr err => (0, 0, errorResp err)
      | inl incrment =>
          match DecrBy kv shard (Key req) incrment with
          | inr err => (0, 0, errorResp err)
          | inl value =>
              let writtenBytes := len (Int64ToString value) in
              (writtenBytes, 0,
               MustMarshal (mkRedisResponse (Some IntegerResp) value [] ""))
          end
      end
  | _ => (0, 0, invalidCommandResp)
  end.

Definition decr (shard : Z) (req : Request) : Z * Z * Value :=
  match DecrBy kv shard (Key req) 1 with
  | inr err => (0, 0, errorResp err)
  | inl value =>
      let writtenBytes := len (Int64ToString value) in
      (writtenBytes, 0, MustMarshal (mkRedisResponse (Some IntegerResp) value [] ""))
  end.

Definition getset (shard : Z) (req : Request) : Z * Z * Value :=
  match Args req with
  | [arg] =>
      match GetSet kv shard (Key req) arg with
      | inr err => (0, 0, errorResp err)
      | inl value =>
          let writtenBytes := len value in
          (writtenBytes, writtenBytes,
           MustMarshal (mkRedisResponse (Some BulkResp) 0 value ""))
      end
  | _ => (0, 0, invalidCommandResp)
  end.

Definition append (shard : Z) (req : Request) : Z * Z * Value :=
  match Args req with
  | [arg] =>
      match Append kv shard (Key req) arg with
      | inr err => (0, 0, errorResp err)
      | inl n =>
          let writtenBytes := len arg in
          (writtenBytes, writtenBytes,
           MustMarshal (mkRedisResponse (Some IntegerResp) n [] ""))
      end
  | _ => (0, 0, invalidCommandResp)
  end.

Definition setnx (shard : Z) (req : Request) : Z * Z * Value :=
  match Args req with
  | [arg] =>
      match SetNX kv shard (Key req) arg with
      | inr err => (0, 0, errorResp err)
      | inl n =>
          let writtenBytes := if 0 <? n then len (Key req) + len arg else 0 in
          (writtenBytes, writtenBytes,
           MustMarshal (mkRedisResponse (Some IntegerResp) n [] ""))
      end
  | _ => (0, 0, invalidCommandResp)
  end.

Definition get (shard : Z) (req : Request) : Value :=
  match Get kv shard (Key req) with
  | inr err => MustMarshal (mkRedisResponse (Some ErrorResp) 0 [] (Error err))
  | inl value => MustMarshal (mkRedisResponse (Some BulkResp) 0 value "")
  end.

Definition strlen (shard : Z) (req : Request) : Value :=
  match StrLen kv shard (Key req) with
  | inr err => MustMarshal (mkRedisResponse (Some ErrorResp) 0 [] (Error err))
  | inl value => MustMarshal (mkRedisResponse None value [] "")
  end.

(** The write handlers. *)
Definition writeHandlers : list (Z -> Request -> Z * Z * Value) :=
  [set; incrBy; incr; decrby; decr; getset; append; setnx].

(** The write handlers that read one argument. *)
Definition argHandlers : list (Z -> Request -> Z * Z * Value) :=
  [set; incrBy; decrby; getset; append; setnx].

End Handlers.

(** The response tells of a failure. *)
Definition failed (v : Value) : bool :=
  match v with
  | invalidCommandResp | errorResp _ => true
  | _ => false
  end.

End redis.

(** A store that accepts every write and answers 1 or the empty value. *)
Definition storeOk : redis.RedisKV :=
  redis.mkRedisKV (fun _ _ _ => None) (fun _ _ _ => inl 1) (fun _ _ _ => inl 1)
                  (fun _ _ _ => inl []) (fun _ _ _ => inl 1) (fun _ _ _ => inl 1)
                  (fun _ _ => inl []) (fun _ _ => inl 0).

Definition parseNone (b : bytes) : Z + error := inr (errors_New "invalid syntax").
Definition showEmpty (n : Z) : bytes := [].

(** The bytes the batches of a run added: the sum of their non-negative
    [diffBytes]. *)
Definition addedBytes (batches : list writeContext.t) : Z :=
  fold_right (fun w sum => Z.max 0 (writeContext.diffBytes w) + sum) 0 batches.

(** The old labels whose key is not the key of a requested label, in their
    order. *)
Definition unrequested (old labels : list Pair.t) : list Pair.t :=
  List.filter
    (fun o => negb (existsb (fun l => String.eqb (Pair.Key l) (Pair.Key o)) labels))
    old.

(** * Properties *)

(** ** Machine integers, byte strings, errors *)

Lemma wrap64_range z : is_uint64 (wrap64 z).
Proof. unfold is_uint64, wrap64. apply Z.mod_pos_bound. lia. Qed.

Lemma wrap64_small z : is_uint64 z -> wrap64 z = z.
Proof. unfold is_uint64, wrap64. intros H. apply Z.mod_small. lia. Qed.

Lemma bytes_Equal_eq a b : bytes_Equal a b = true <-> a = b.
Proof.
  revert b. induction a as [|x a IH]; intros [|y b]; simpl; try (split; congruence).
  rewrite andb_true_iff, IH. split.
  - intros [Hxy ->]. f_equal. now apply Byte.byte_dec_bl.
  - intros [= -> ->]. split; [now apply Byte.byte_dec_lb | reflexivity].
Qed.

Lemma bytes_Equal_refl a : bytes_Equal a a = true.
Proof. now apply bytes_Equal_eq. Qed.

Lemma error_eqb_eq a b : error_eqb a b = true <-> a = b.
Proof.
  revert b. induction a as [s | c IH f l]; intros [t | c' f' l']; simpl;
    try (split; congruence).
  - rewrite bool_decide_eq_true. split; congruence.
  - rewrite !andb_true_iff, !bool_decide_eq_true, IH. split.
    + intros [[-> ->] ->]. reflexivity.
    + intros [= -> -> ->]. auto.
Qed.

(** ** The error envelope *)

Lemma setError_Header resp f h :
  ResponseBatch.Header resp = Some h ->
  ResponseBatch.Header (setError resp f)
  = Some (ResponseBatchHeader.withError h (f (ResponseBatchHeader.Error h))).
Proof. intros H. unfold setError. rewrite H. reflexivity. Qed.

Lemma errorBaseResp_Header batch header uuid :
  exists h, ResponseBatch.Header (errorBaseResp batch header uuid) = Some h.
Proof.
  unfold errorBaseResp, buildUUID. simpl.
  destruct (negb _); simpl; eauto.
Qed.

(** C10: the response of [errorStaleEpochResp] has a header whose error
    carries [StaleEpoch] with the given new shards, while its message is the
    text of [errStaleCMD], "stale command", and not the text "stale epoch" of
    the distinct value [errStaleEpoch]. *)
Theorem errorStaleEpochResp_message
        (batch : ResponseBatch.t) (header : ResponseBatchHeader.t)
        (uuid : bytes) (newShards : list Shard.t) :
  exists h,
    ResponseBatch.Header (errorStaleEpochResp batch header uuid newShards) = Some h /\
    errorpb.StaleEpoch (ResponseBatchHeader.Error h)
    = Some (StaleEpoch.mk newShards) /\
    errorpb.Message (ResponseBatchHeader.Error h) = "stale command" /\
    errorpb.Message (ResponseBatchHeader.Error h) = Error errStaleCMD /\
    Error errStaleEpoch = "stale epoch" /\
    errStaleEpoch <> errStaleCMD /\
    errorpb.Message (ResponseBatchHeader.Error h) <> Error errStaleEpoch.
Proof.
  destruct (errorBaseResp_Header batch header uuid) as [h0 Hh0].
  unfold errorStaleEpochResp.
  eexists. split.
  - erewrite setError_Header; [reflexivity|].
    erewrite setError_Header; [reflexivity|exact Hh0].
  - simpl. repeat split; try reflexivity; discriminate.
Qed.

(** ** Write metrics *)

Example float64_of_int64_exact : float64_of_int64 (- (2 ^ 53)) = - (2 ^ 53).
Proof. reflexivity. Qed.

Example float64_of_int64_tie_down : float64_of_int64 (2 ^ 53 + 1) = 2 ^ 53.
Proof. reflexivity. Qed.

Example float64_of_int64_tie_up : float64_of_int64 (2 ^ 53 + 3) = 2 ^ 53 + 4.
Proof. reflexivity. Qed.

Example float64_of_int64_max : float64_of_int64 (2 ^ 63 - 1) = 2 ^ 63.
Proof. reflexivity. Qed.

Example float64_of_int64_min : float64_of_int64 (- 2 ^ 63) = - 2 ^ 63.
Proof. reflexivity. Qed.

Lemma float64_of_int64_small x : Z.abs x <= 2 ^ 53 -> float64_of_int64 x = x.
Proof.
  intros H. unfold float64_of_int64.
  destruct (Z.ltb_spec (Z.abs x) (2 ^ 53)) as [|Hge]; [reflexivity|].
  assert (Hx : x = 2 ^ 53 \/ x = - 2 ^ 53) by lia.
  destruct Hx as [-> | ->]; reflexivity.
Qed.

(** The hint after [updateWriteMetrics] never exceeds the hint before when
    bytes were deleted, and is never negative. *)
Lemma updateWriteMetrics_negative metrics w :
  writeContext.diffBytes w < 0 ->
  applyMetrics.approximateDiffHint (updateWriteMetrics metrics w)
  = let v := uint64_of_float64
               (math_Abs (float64_of_int64 (writeContext.diffBytes w))) in
    if applyMetrics.approximateDiffHint metrics <=? v then 0
    else applyMetrics.approximateDiffHint metrics - v.
Proof.
  intros H. unfold updateWriteMetrics. simpl.
  destruct (Z.ltb_spec (writeContext.diffBytes w) 0); [reflexivity | lia].
Qed.

(** C9, as stated, fails: with a hint of [2^53 + 1] and [diffBytes] equal to
    [-(2^53 + 1)] the absolute value of [diffBytes] reaches the hint, yet the
    hint is left at 1 and not set to zero, since the conversion to [float64]
    rounds the magnitude down to [2^53]. *)
Lemma updateWriteMetrics_abs_counterexample :
  ~ (forall metrics w,
        is_uint64 (applyMetrics.approximateDiffHint metrics) ->
        is_int64 (writeContext.diffBytes w) ->
        writeContext.diffBytes w < 0 ->
        applyMetrics.approximateDiffHint (updateWriteMetrics metrics w)
        = if applyMetrics.approximateDiffHint metrics
             <=? Z.abs (writeContext.diffBytes w)
          then 0
          else applyMetrics.approximateDiffHint metrics
               - Z.abs (writeContext.diffBytes w)).
Proof.
  intros H.
  pose (m := applyMetrics.mk 0 0 (2 ^ 53 + 1) (adminMetrics.mk 0 0 0)).
  pose (w := writeContext.mk 0 (- (2 ^ 53 + 1))).
  assert (Hc : applyMetrics.approximateDiffHint (updateWriteMetrics m w) = 1)
    by (vm_compute; reflexivity).
  assert (Hclaim := H m w).
  rewrite Hc in Hclaim.
  assert (Hf : 1 = (if applyMetrics.approximateDiffHint m
                       <=? Z.abs (writeContext.diffBytes w)
                    then 0
                    else applyMetrics.approximateDiffHint m
                         - Z.abs (writeContext.diffBytes w))).
  { apply Hclaim.
    - unfold is_uint64, m; cbn; lia.
    - unfold is_int64, w; cbn; lia.
    - unfold w; cbn; lia. }
  vm_compute in Hf. discriminate Hf.
Qed.

(** C9, amended: when [diffBytes] is negative the hint decreases by
    [v = uint64(math.Abs(float64(diffBytes)))] and saturates at zero (it is
    zero whenever [v] reaches the hint), so it never underflows; [v] is the
    absolute value of [diffBytes] whenever that is at most [2^53].  When
    [diffBytes] is non-negative it is added to the hint in [uint64]. *)
Theorem updateWriteMetrics_hint (metrics : applyMetrics.t) (w : writeContext.t) :
  is_uint64 (applyMetrics.approximateDiffHint metrics) ->
  is_int64 (writeContext.diffBytes w) ->
  let hint := applyMetrics.approximateDiffHint metrics in
  let hint' := applyMetrics.approximateDiffHint (updateWriteMetrics metrics w) in
  let v := uint64_of_float64
             (math_Abs (float64_of_int64 (writeContext.diffBytes w))) in
  (writeContext.diffBytes w < 0 ->
   hint' = (if hint <=? v then 0 else hint - v) /\
   0 <= hint' <= hint /\
   (Z.abs (writeContext.diffBytes w) <= 2 ^ 53 ->
    v = Z.abs (writeContext.diffBytes w) /\
    hint' = Z.max 0 (hint - Z.abs (writeContext.diffBytes w)))) /\
  (0 <= writeContext.diffBytes w ->
   hint' = wrap64 (hint + writeContext.diffBytes w)).
Proof.
  intros Hh Hd hint hint' v. unfold is_uint64, is_int64 in *. split.
  - intros Hneg.
    assert (Heq : hint' = if hint <=? v then 0 else hint - v)
      by (apply updateWriteMetrics_negative; exact Hneg).
    assert (Hv : 0 <= v) by (apply wrap64_range).
    split; [exact Heq|]. split.
    + rewrite Heq. fold hint in Hh. destruct (Z.leb_spec hint v); lia.
    + intros Hsmall.
      assert (Hve : v = Z.abs (writeContext.diffBytes w)).
      { unfold v, uint64_of_float64, math_Abs.
        rewrite float64_of_int64_small by exact Hsmall.
        apply wrap64_small. unfold is_uint64. lia. }
      split; [exact Hve|].
      rewrite Heq, Hve. fold hint in Hh.
      destruct (Z.leb_spec hint (Z.abs (writeContext.diffBytes w))); lia.
  - intros Hpos. unfold hint', updateWriteMetrics. simpl.
    destruct (Z.ltb_spec (writeContext.diffBytes w) 0); [lia|].
    unfold uint64_of_int64. rewrite (wrap64_small (writeContext.diffBytes w)).
    + reflexivity.
    + unfold is_uint64. lia.
Qed.

Lemma updateWriteMetrics_hint_witness :
  let metrics := applyMetrics.mk 0 0 100 (adminMetrics.mk 0 0 0) in
  let w := writeContext.mk 0 (- 250) in
  is_uint64 (applyMetrics.approximateDiffHint metrics) /\
  is_int64 (writeContext.diffBytes w) /\
  applyMetrics.approximateDiffHint (updateWriteMetrics metrics w) = 0.
Proof.
  intros metrics w.
  assert (Hh : is_uint64 (applyMetrics.approximateDiffHint metrics))
    by (unfold is_uint64; simpl; lia).
  assert (Hd : is_int64 (writeContext.diffBytes w))
    by (unfold is_int64; simpl; lia).
  split; [exact Hh|]. split; [exact Hd|].
  destruct (updateWriteMetrics_hint metrics w Hh Hd) as [Hneg _].
  destruct Hneg as [Heq _]; [simpl; lia|].
  rewrite Heq. reflexivity.
Defined.

(** ** Log compaction *)

Lemma adjustCompactionIndex_ok ds d index p :
  DataStorage.GetPersistentLogIndex ds (stateMachine.calls d) (stateMachine.shardID d)
  = inl p ->
  adjustCompactionIndex ds d index
  = (stateMachine.called d (Eff_GetPersistentLogIndex (stateMachine.shardID d)),
     inl (Z.min index p)).
Proof.
  intros H. unfold adjustCompactionIndex. rewrite H.
  destruct (Z.ltb_spec p index); f_equal; f_equal; lia.
Qed.

(** A compaction at or below [firstIndex] does nothing but count itself. *)
Lemma doExecCompactLog_noop ds d ctx j :
  applyContext.req ctx = Req_CompactLog (CompactLogRequest.mk j) ->
  j <= stateMachine.firstIndex d ->
  doExecCompactLog ds d ctx = Return ResponseBatch.empty None d (countCompact ctx).
Proof.
  intros Hreq Hle. unfold doExecCompactLog. simpl. rewrite Hreq. simpl.
  unfold stateMachine.getFirstIndex.
  destruct (Z.leb_spec j (stateMachine.firstIndex d)); [reflexivity | lia].
Qed.

Lemma doExecCompactLog_apply ds d ctx i p :
  applyContext.req ctx = Req_CompactLog (CompactLogRequest.mk i) ->
  stateMachine.firstIndex d < i ->
  DataStorage.GetPersistentLogIndex ds (stateMachine.calls d) (stateMachine.shardID d)
  = inl p ->
  doExecCompactLog ds d ctx
  = Return (newAdminResponseBatch AdminCmdType_CompactLog CompactLogResponse) None
           (stateMachine.setFirstIndex
              (stateMachine.called d
                 (Eff_GetPersistentLogIndex (stateMachine.shardID d)))
              (wrap64 (Z.min i p + 1)))
           (setAdminResult (countCompact ctx) (compactionResult (Z.min i p))).
Proof.
  intros Hreq Hlt Hp. unfold doExecCompactLog. simpl. rewrite Hreq. simpl.
  unfold stateMachine.getFirstIndex.
  destruct (Z.leb_spec i (stateMachine.firstIndex d)); [lia|].
  rewrite (adjustCompactionIndex_ok ds d i p Hp). reflexivity.
Qed.

(** C5: a [CompactLog] whose [compactIndex] is above [firstIndex], with
    [GetPersistentLogIndex] answering [persistentLogIndex], applies the index
    [min(compactIndex, persistentLogIndex)]: [firstIndex] becomes that index
    plus 1 (as a [uint64]) and the admin result carries that index. *)
Theorem doExecCompactLog_clamp
        (ds : DataStorage.t) (d : stateMachine.t) (ctx : applyContext.t)
        (compactIndex persistentLogIndex : Z) :
  applyContext.req ctx = Req_CompactLog (CompactLogRequest.mk compactIndex) ->
  stateMachine.firstIndex d < compactIndex ->
  DataStorage.GetPersistentLogIndex ds (stateMachine.calls d) (stateMachine.shardID d)
  = inl persistentLogIndex ->
  let clamped := Z.min compactIndex persistentLogIndex in
  exists resp d' ctx',
    doExecCompactLog ds d ctx = Return resp None d' ctx' /\
    stateMachine.firstIndex d' = wrap64 (clamped + 1) /\
    (0 <= clamped < 2 ^ 64 - 1 -> stateMachine.firstIndex d' = clamped + 1) /\
    applyContext.adminResult ctx' = Some (compactionResult clamped) /\
    stateMachine.shard d' = stateMachine.shard d.
Proof.
  intros Hreq Hlt Hp clamped.
  eexists _, _, _. split; [apply (doExecCompactLog_apply ds d ctx _ _ Hreq Hlt Hp)|].
  simpl. fold clamped. repeat split; try reflexivity.
  intros Hr. apply wrap64_small. unfold is_uint64. lia.
Qed.

(** The compact clamp scenario: [firstIndex] 5, persistent log index 20,
    [CompactLog(100)] gives [firstIndex] 21 and result index 20. *)
Lemma doExecCompactLog_clamp_witness :
  let d := machineAt 5 Shard.zero (Replica.mk 1 1 ReplicaRole_Voter) in
  exists resp d' ctx',
    doExecCompactLog (storageAt 20) d (compactCtx 100) = Return resp None d' ctx' /\
    stateMachine.firstIndex d' = 21 /\
    applyContext.adminResult ctx' = Some (compactionResult 20).
Proof.
  intros d.
  destruct (doExecCompactLog_clamp (storageAt 20) d (compactCtx 100) 100 20)
    as (resp & d' & ctx' & Hrun & Hfirst & _ & Hres & _).
  - reflexivity.
  - simpl; lia.
  - reflexivity.
  - exists resp, d', ctx'. split; [exact Hrun|]. split; [|exact Hres].
    rewrite Hfirst. reflexivity.
Defined.

(** C6, as stated, fails: with [firstIndex] 5 and persistent log index 20,
    [CompactLog(100)] is clamped and leaves [firstIndex] at 21; the following
    [CompactLog(50)] is above it, so it answers with a compaction response
    and emits an admin result. *)
Lemma doExecCompactLog_twice_counterexample :
  ~ (forall ds d ctx1 ctx2 i j resp1 err1 d1 ctx1',
        applyContext.req ctx1 = Req_CompactLog (CompactLogRequest.mk i) ->
        applyContext.req ctx2 = Req_CompactLog (CompactLogRequest.mk j) ->
        is_uint64 i -> is_uint64 j -> is_uint64 (stateMachine.firstIndex d) ->
        j < i ->
        doExecCompactLog ds d ctx1 = Return resp1 err1 d1 ctx1' ->
        exists d2 ctx2',
          doExecCompactLog ds d1 ctx2 = Return ResponseBatch.empty None d2 ctx2' /\
          applyContext.adminResult ctx2' = applyContext.adminResult ctx2 /\
          stateMachine.firstIndex d2 = stateMachine.firstIndex d1).
Proof.
  intros H.
  pose (d := machineAt 5 Shard.zero (Replica.mk 1 1 ReplicaRole_Voter)).
  assert (Hlt : stateMachine.firstIndex d < 100) by (simpl; lia).
  assert (H1 := doExecCompactLog_apply (storageAt 20) d (compactCtx 100) 100 20
                  eq_refl Hlt eq_refl).
  assert (Hi : is_uint64 100) by (unfold is_uint64; lia).
  assert (Hj : is_uint64 50) by (unfold is_uint64; lia).
  assert (Hf : is_uint64 (stateMachine.firstIndex d)) by (unfold is_uint64; simpl; lia).
  assert (Hji : 50 < 100) by lia.
  destruct (H (storageAt 20) d (compactCtx 100) (compactCtx 50) 100 50
              _ _ _ _ eq_refl eq_refl Hi Hj Hf Hji H1) as (d2 & ctx2' & Hrun & _).
  vm_compute in Hrun. discriminate Hrun.
Qed.

(** C6, amended: for [CompactLog(i)] followed by [CompactLog(j)] with
    [j < i], the second application is a no-op (empty response, no error, no
    admin result, state machine unchanged) whenever [j] is at most the
    [firstIndex] the first application left; that is the case when the first
    application was itself a no-op ([i <= firstIndex]) or applied [i]
    unclamped ([i <= persistentLogIndex], [i + 1] a [uint64]). *)
Theorem doExecCompactLog_twice
        (ds : DataStorage.t) (d : stateMachine.t) (ctx1 ctx2 : applyContext.t)
        (i j : Z) (resp1 : ResponseBatch.t) (err1 : option error)
        (d1 : stateMachine.t) (ctx1' : applyContext.t) :
  applyContext.req ctx1 = Req_CompactLog (CompactLogRequest.mk i) ->
  applyContext.req ctx2 = Req_CompactLog (CompactLogRequest.mk j) ->
  j < i ->
  doExecCompactLog ds d ctx1 = Return resp1 err1 d1 ctx1' ->
  (i <= stateMachine.firstIndex d \/
   (exists p,
       DataStorage.GetPersistentLogIndex ds (stateMachine.calls d)
                                         (stateMachine.shardID d) = inl p /\
       i <= p /\ 0 <= i < 2 ^ 64 - 1) ->
   j <= stateMachine.firstIndex d1) /\
  (j <= stateMachine.firstIndex d1 ->
   exists ctx2',
     doExecCompactLog ds d1 ctx2 = Return ResponseBatch.empty None d1 ctx2' /\
     applyContext.adminResult ctx2' = applyContext.adminResult ctx2).
Proof.
  intros Hreq1 Hreq2 Hji Hrun. split.
  - intros [Hnoop | (p & Hp & Hip & Hi)].
    + rewrite (doExecCompactLog_noop ds d ctx1 i Hreq1 Hnoop) in Hrun.
      injection Hrun as _ _ <- _. lia.
    + destruct (Z.le_gt_cases i (stateMachine.firstIndex d)) as [Hle | Hgt].
      * rewrite (doExecCompactLog_noop ds d ctx1 i Hreq1 Hle) in Hrun.
        injection Hrun as _ _ <- _. lia.
      * rewrite (doExecCompactLog_apply ds d ctx1 i p Hreq1 Hgt Hp) in Hrun.
        injection Hrun as _ _ <- _. simpl.
        rewrite Z.min_l by lia. rewrite wrap64_small; [lia|].
        unfold is_uint64. lia.
  - intros Hle. exists (countCompact ctx2). split.
    + apply (doExecCompactLog_noop ds d1 ctx2 j Hreq2 Hle).
    + reflexivity.
Qed.

Lemma doExecCompactLog_twice_witness :
  let d := machineAt 5 Shard.zero (Replica.mk 1 1 ReplicaRole_Voter) in
  let d1 := stateMachine.setFirstIndex
              (stateMachine.called d (Eff_GetPersistentLogIndex 0)) 11 in
  doExecCompactLog (storageAt 20) d (compactCtx 10)
  = Return (newAdminResponseBatch AdminCmdType_CompactLog CompactLogResponse) None
           d1 (setAdminResult (countCompact (compactCtx 10)) (compactionResult 10)) /\
  exists ctx2',
    doExecCompactLog (storageAt 20) d1 (compactCtx 7)
    = Return ResponseBatch.empty None d1 ctx2' /\
    applyContext.adminResult ctx2' = None.
Proof.
  intros d d1.
  assert (Hrun : doExecCompactLog (storageAt 20) d (compactCtx 10)
                 = Return (newAdminResponseBatch AdminCmdType_CompactLog
                                                 CompactLogResponse) None d1
                          (setAdminResult (countCompact (compactCtx 10))
                                          (compactionResult 10)))
    by reflexivity.
  split; [exact Hrun|].
  assert (Hji : 7 < 10) by lia.
  destruct (doExecCompactLog_twice (storageAt 20) d (compactCtx 10) (compactCtx 7)
              10 7 _ _ _ _ eq_refl eq_refl Hji Hrun) as [Hfirst Hnoop].
  apply Hnoop. apply Hfirst. right. exists 20.
  split; [reflexivity|]. lia.
Defined.

(** ** Configuration changes *)

Lemma findReplica_incrConfVer shard containerID :
  findReplica (incrConfVer shard) containerID = findReplica shard containerID.
Proof. reflexivity. Qed.

Lemma findReplica_Some shard containerID i p :
  findReplica shard containerID = Some (i, p) ->
  Shard.Replicas shard !! i = Some p /\ Replica.ContainerID p = containerID.
Proof.
  unfold findReplica. intros H. apply list_find_Some in H. tauto.
Qed.

Lemma findReplica_None shard containerID :
  findReplica shard containerID = None <->
  forall p, p ∈ Shard.Replicas shard -> Replica.ContainerID p <> containerID.
Proof.
  unfold findReplica. rewrite list_find_None, Forall_forall. reflexivity.
Qed.

(** The [switch] changes the replicas of [res] only, and of the state
    machine the [removed] flag only. *)
Lemma configChangeSwitch_inr d req res res' d1 :
  configChangeSwitch d req res = inr (res', d1) ->
  res' = Shard.withReplicas res (Shard.Replicas res') /\
  (d1 = d \/ d1 = stateMachine.setRemoved d).
Proof.
  unfold configChangeSwitch. intros H.
  destruct req as [[| | |code] replica]; simpl in H;
    destruct (findReplica res (Replica.ContainerID replica)) as [[i p]|];
    repeat (match type of H with
            | context [if ?c then _ else _] => destruct c
            end);
    try discriminate H; injection H as Hr Hd; subst res' d1;
    destruct res; simpl; auto.
Qed.

Lemma configChangeSwitch_inl d req res err :
  configChangeSwitch d req res = inl err ->
  errors_Is err ErrReplicaDuplicated = true \/
  errors_Is err ErrReplicaNotFound = true.
Proof.
  unfold configChangeSwitch. intros H.
  destruct req as [[| | |code] replica]; simpl in H;
    destruct (findReplica res (Replica.ContainerID replica)) as [[i p]|];
    repeat (match type of H with
            | context [if ?c then _ else _] => destruct c
            end);
    inversion H; subst; clear H; auto.
Qed.

Lemma doExecConfigChange_inl ds d ctx err :
  configChangeSwitch d (GetConfigChangeRequest (applyContext.req ctx))
                     (incrConfVer (stateMachine.shard d)) = inl err ->
  doExecConfigChange ds d ctx = Return ResponseBatch.empty (Some err) d ctx.
Proof.
  intros H. unfold doExecConfigChange, stateMachine.getShard. rewrite H. reflexivity.
Qed.

Lemma doExecConfigChange_inr ds d ctx res d1 :
  let req := GetConfigChangeRequest (applyContext.req ctx) in
  let state := if stateMachine.removed d1
               then ReplicaState_Tombstone else ReplicaState_Normal in
  let records := savedRecords (applyContext.index ctx) res state in
  configChangeSwitch d req (incrConfVer (stateMachine.shard d)) = inr (res, d1) ->
  doExecConfigChange ds d ctx
  = match DataStorage.SaveShardMetadata ds (stateMachine.calls d1) records with
    | Some _ => Fatal "failed to save metadata"
    | None =>
        Return (newAdminResponseBatch AdminCmdType_ConfigChange
                                      (ConfigChangeResponse res))
               None
               (stateMachine.called (stateMachine.updateShard d1 res)
                                    (Eff_SaveShardMetadata records))
               (setAdminResult ctx
                  (configChangeResult (applyContext.index ctx) [req] res))
    end.
Proof.
  intros req state records H.
  unfold doExecConfigChange, stateMachine.getShard. fold req. rewrite H.
  unfold saveShardMetedata, stateMachine.isRemoved. simpl.
  fold state. fold (savedRecords (applyContext.index ctx) res state). fold records.
  destruct (DataStorage.SaveShardMetadata ds (stateMachine.calls d1) records);
    reflexivity.
Qed.

(** C7: after a [ConfigChange] that returns no error, [epoch.confVer] is one
    more than before (as a [uint64]) and [epoch.version] is the same. *)
Theorem doExecConfigChange_epoch
        (ds : DataStorage.t) (d : stateMachine.t) (ctx : applyContext.t)
        (resp : ResponseBatch.t) (d' : stateMachine.t) (ctx' : applyContext.t) :
  doExecConfigChange ds d ctx = Return resp None d' ctx' ->
  let before := Shard.Epoch (stateMachine.shard d) in
  let after := Shard.Epoch (stateMachine.shard d') in
  Epoch.ConfVer after = wrap64 (Epoch.ConfVer before + 1) /\
  (0 <= Epoch.ConfVer before < 2 ^ 64 - 1 ->
   Epoch.ConfVer after = Epoch.ConfVer before + 1) /\
  Epoch.Version after = Epoch.Version before.
Proof.
  intros Hrun before after.
  destruct (configChangeSwitch d (GetConfigChangeRequest (applyContext.req ctx))
                               (incrConfVer (stateMachine.shard d)))
    as [err | [res d1]] eqn:Hsw.
  - rewrite (doExecConfigChange_inl ds d ctx err Hsw) in Hrun. discriminate Hrun.
  - rewrite (doExecConfigChange_inr ds d ctx res d1 Hsw) in Hrun.
    destruct (DataStorage.SaveShardMetadata _ _ _); [discriminate Hrun|].
    injection Hrun as _ <- _.
    apply configChangeSwitch_inr in Hsw. destruct Hsw as [Hres _].
    assert (Hep : after = Shard.Epoch (incrConfVer (stateMachine.shard d)))
      by (unfold after; simpl; rewrite Hres; reflexivity).
    rewrite Hep. simpl. fold before. repeat split.
    intros Hr. apply wrap64_small. unfold is_uint64. lia.
Qed.

Lemma doExecConfigChange_epoch_witness :
  let d := machineAt 5 (shardOf 3 9 [Replica.mk 1 1 ReplicaRole_Voter])
                     (Replica.mk 1 1 ReplicaRole_Voter) in
  let ctx := configChangeCtx 6 ConfigChangeType_AddLearnerNode
                             (Replica.mk 2 2 ReplicaRole_Voter) in
  exists resp d' ctx',
    doExecConfigChange (storageAt 0) d ctx = Return resp None d' ctx' /\
    Epoch.ConfVer (Shard.Epoch (stateMachine.shard d')) = 4 /\
    Epoch.Version (Shard.Epoch (stateMachine.shard d')) = 9.
Proof.
  intros d ctx.
  destruct (doExecConfigChange (storageAt 0) d ctx)
    as [msg | resp [err|] d' ctx'] eqn:Hrun;
    [vm_compute in Hrun; discriminate Hrun
    | vm_compute in Hrun; discriminate Hrun |].
  exists resp, d', ctx'. split; [reflexivity|].
  destruct (doExecConfigChange_epoch (storageAt 0) d ctx resp d' ctx' Hrun)
    as (Hconf & _ & Hver).
  rewrite Hconf, Hver. split; reflexivity.
Defined.

(** C3: a [ConfigChange] that returns an error returns [ReplicaDuplicated] or
    [ReplicaNotFound] with the empty response and changes nothing: the state
    machine (its shard with replicas and epoch, its flags, the calls made on
    the storage, so no [SaveShardMetadata]) and the apply context are the
    ones before. *)
Theorem doExecConfigChange_failure
        (ds : DataStorage.t) (d : stateMachine.t) (ctx : applyContext.t)
        (resp : ResponseBatch.t) (err : error)
        (d' : stateMachine.t) (ctx' : applyContext.t) :
  doExecConfigChange ds d ctx = Return resp (Some err) d' ctx' ->
  (errors_Is err ErrReplicaDuplicated = true \/
   errors_Is err ErrReplicaNotFound = true) /\
  resp = ResponseBatch.empty /\
  d' = d /\
  ctx' = ctx /\
  stateMachine.shard d' = stateMachine.shard d /\
  stateMachine.calls d' = stateMachine.calls d.
Proof.
  intros Hrun.
  destruct (configChangeSwitch d (GetConfigChangeRequest (applyContext.req ctx))
                               (incrConfVer (stateMachine.shard d)))
    as [e | [res d1]] eqn:Hsw.
  - rewrite (doExecConfigChange_inl ds d ctx e Hsw) in Hrun.
    injection Hrun as <- <- <- <-.
    split; [exact (configChangeSwitch_inl _ _ _ _ Hsw)|]. auto.
  - rewrite (doExecConfigChange_inr ds d ctx res d1 Hsw) in Hrun.
    destruct (DataStorage.SaveShardMetadata _ _ _); discriminate Hrun.
Qed.

(** Duplicate learner rejected: with replicas [(1,1,Voter); (2,2,Learner)],
    [AddLearnerNode] of replica 3 on container 2 fails and changes nothing. *)
Lemma doExecConfigChange_failure_witness :
  let d := machineAt 5 (shardOf 3 9 [Replica.mk 1 1 ReplicaRole_Voter;
                                     Replica.mk 2 2 ReplicaRole_Learner])
                     (Replica.mk 1 1 ReplicaRole_Voter) in
  let ctx := configChangeCtx 6 ConfigChangeType_AddLearnerNode
                             (Replica.mk 3 2 ReplicaRole_Voter) in
  exists err,
    doExecConfigChange (storageAt 0) d ctx
    = Return ResponseBatch.empty (Some err) d ctx /\
    errors_Is err ErrReplicaDuplicated = true.
Proof.
  intros d ctx.
  destruct (doExecConfigChange (storageAt 0) d ctx)
    as [msg | resp [err|] d' ctx'] eqn:Hrun;
    [vm_compute in Hrun; discriminate Hrun | |
     vm_compute in Hrun; discriminate Hrun].
  destruct (doExecConfigChange_failure (storageAt 0) d ctx resp err d' ctx' Hrun)
    as (_ & -> & -> & -> & _).
  exists err. split; [reflexivity|].
  vm_compute in Hrun. injection Hrun as <-. reflexivity.
Defined.

(** C2: [ConfigChange] with [AddNode].  With [p] the replica found on the
    requested container: same id and a role other than [Learner] fails with
    [ReplicaDuplicated]; same id and role [Learner] promotes [p] to [Voter]
    in place; another id fails with [ReplicaDuplicated]; no replica on the
    container appends the requested replica with role [Voter].  The two
    successful cases return once the storage has saved the metadata. *)
Theorem doExecConfigChange_AddNode
        (ds : DataStorage.t) (d : stateMachine.t) (ctx : applyContext.t)
        (replica : Replica.t) :
  applyContext.req ctx
  = Req_ConfigChange (ConfigChangeRequest.mk ConfigChangeType_AddNode replica) ->
  let replicas := Shard.Replicas (stateMachine.shard d) in
  let found := findReplica (stateMachine.shard d) (Replica.ContainerID replica) in
  let saved := forall records,
      DataStorage.SaveShardMetadata ds (stateMachine.calls d) records = None in
  (forall i p,
      found = Some (i, p) -> Replica.ID p = Replica.ID replica ->
      Replica.Role p <> ReplicaRole_Learner ->
      exists err,
        doExecConfigChange ds d ctx = Return ResponseBatch.empty (Some err) d ctx /\
        errors_Is err ErrReplicaDuplicated = true) /\
  (forall i p,
      found = Some (i, p) -> Replica.ID p = Replica.ID replica ->
      Replica.Role p = ReplicaRole_Learner -> saved ->
      exists resp d' ctx',
        doExecConfigChange ds d ctx = Return resp None d' ctx' /\
        Shard.Replicas (stateMachine.shard d')
        = <[i := Replica.withRole p ReplicaRole_Voter]> replicas /\
        Shard.Replicas (stateMachine.shard d') !! i
        = Some (Replica.mk (Replica.ID p) (Replica.ContainerID p) ReplicaRole_Voter)) /\
  (forall i p,
      found = Some (i, p) -> Replica.ID p <> Replica.ID replica ->
      exists err,
        doExecConfigChange ds d ctx = Return ResponseBatch.empty (Some err) d ctx /\
        errors_Is err ErrReplicaDuplicated = true) /\
  (found = None -> saved ->
   exists resp d' ctx',
     doExecConfigChange ds d ctx = Return resp None d' ctx' /\
     Shard.Replicas (stateMachine.shard d')
     = replicas ++ [Replica.mk (Replica.ID replica) (Replica.ContainerID replica)
                               ReplicaRole_Voter]).
Proof.
  intros Hreq replicas found saved.
  assert (Hsw : forall r,
             configChangeSwitch d (GetConfigChangeRequest (applyContext.req ctx))
                                (incrConfVer (stateMachine.shard d)) = r ->
             r = match found with
                 | Some (i, p) =>
                     if Replica.ID p =? Replica.ID replica then
                       if negb (bool_decide (Replica.Role p = ReplicaRole_Learner))
                       then inl (errors_Wrapf ErrReplicaDuplicated
                                   "shardID %d, replicaID %d, role %v"
                                   [ArgUint64 (Shard.ID (stateMachine.shard d));
                                    ArgUint64 (Replica.ID p);
                                    ArgRole (Replica.Role p)])
                       else inr (Shard.withReplicas
                                   (incrConfVer (stateMachine.shard d))
                                   (<[i := Replica.withRole p ReplicaRole_Voter]>
                                      replicas), d)
                     else inl (errors_Wrapf ErrReplicaDuplicated
                                 "shardID %d, replicaID %d found on container %d"
                                 [ArgUint64 (Shard.ID (stateMachine.shard d));
                                  ArgUint64 (Replica.ID p);
                                  ArgUint64 (Replica.ContainerID replica)])
                 | None =>
                     inr (Shard.withReplicas
                            (incrConfVer (stateMachine.shard d))
                            (replicas ++ [Replica.withRole replica ReplicaRole_Voter]),
                          d)
                 end).
  { intros r <-. rewrite Hreq. reflexivity. }
  repeat split.
  - intros i p Hf Hid Hrole. specialize (Hsw _ eq_refl). rewrite Hf in Hsw.
    rewrite (proj2 (Z.eqb_eq _ _) Hid) in Hsw.
    rewrite bool_decide_eq_false_2 in Hsw by exact Hrole. simpl in Hsw.
    eexists. split; [apply (doExecConfigChange_inl ds d ctx _ Hsw)|reflexivity].
  - intros i p Hf Hid Hrole Hsaved. specialize (Hsw _ eq_refl). rewrite Hf in Hsw.
    rewrite (proj2 (Z.eqb_eq _ _) Hid) in Hsw.
    rewrite bool_decide_eq_true_2 in Hsw by exact Hrole. simpl in Hsw.
    rewrite (doExecConfigChange_inr ds d ctx _ _ Hsw), Hsaved.
    eexists _, _, _. split; [reflexivity|]. simpl. split; [reflexivity|].
    apply list_lookup_insert_eq.
    apply findReplica_Some in Hf. destruct Hf as [Hf _].
    apply lookup_lt_Some in Hf. exact Hf.
  - intros i p Hf Hid. specialize (Hsw _ eq_refl). rewrite Hf in Hsw.
    rewrite (proj2 (Z.eqb_neq _ _) Hid) in Hsw.
    eexists. split; [apply (doExecConfigChange_inl ds d ctx _ Hsw)|reflexivity].
  - intros Hf Hsaved. specialize (Hsw _ eq_refl). rewrite Hf in Hsw.
    rewrite (doExecConfigChange_inr ds d ctx _ _ Hsw), Hsaved.
    eexists _, _, _. split; reflexivity.
Qed.

(** Learner promotion: with replicas [(1,1,Voter); (2,2,Learner)], [AddNode]
    of replica 2 on container 2 leaves [(1,1,Voter); (2,2,Voter)]. *)
Lemma doExecConfigChange_AddNode_witness :
  let d := machineAt 5 (shardOf 3 9 [Replica.mk 1 1 ReplicaRole_Voter;
                                     Replica.mk 2 2 ReplicaRole_Learner])
                     (Replica.mk 1 1 ReplicaRole_Voter) in
  let ctx := configChangeCtx 6 ConfigChangeType_AddNode
                             (Replica.mk 2 2 ReplicaRole_Voter) in
  exists resp d' ctx',
    doExecConfigChange (storageAt 0) d ctx = Return resp None d' ctx' /\
    Shard.Replicas (stateMachine.shard d')
    = [Replica.mk 1 1 ReplicaRole_Voter; Replica.mk 2 2 ReplicaRole_Voter].
Proof.
  intros d ctx.
  destruct (doExecConfigChange_AddNode (storageAt 0) d ctx
              (Replica.mk 2 2 ReplicaRole_Voter) eq_refl)
    as (_ & Hpromote & _ & _).
  destruct (Hpromote 1%nat (Replica.mk 2 2 ReplicaRole_Learner))
    as (resp & d' & ctx' & Hrun & Hreplicas & _).
  - reflexivity.
  - reflexivity.
  - reflexivity.
  - intros records. reflexivity.
  - exists resp, d', ctx'. split; [exact Hrun|]. rewrite Hreplicas. reflexivity.
Defined.

(** ** Batch split *)

Lemma checkKeyInShard_addVersion key parent n :
  checkKeyInShard key (addVersion parent n) = checkKeyInShard key parent.
Proof. reflexivity. Qed.

(** What the loop returns when it returns: one child per request, in
    order; the requests passed the range checks and were contiguous from
    [expectStart]. *)
Lemma splitLoop_inr current final reqs :
  forall idx expectStart acc n shards n',
    splitLoop current final idx expectStart reqs acc n = inr (shards, n') ->
    shards = acc ++ map (newShardOf current) reqs /\
    n' = n + Z.of_nat (length reqs) /\
    contiguous expectStart reqs /\
    (forall i req, reqs !! i = Some req ->
                   checkKeyInShard (SplitRequest.Start req) current = None /\
                   ((idx + i)%nat <> final ->
                    checkKeyInShard (SplitRequest.End_ req) current = None)).
Proof.
  induction reqs as [|req rest IH]; intros idx expectStart acc n shards n' H.
  - simpl in H. injection H as <- <-. simpl. rewrite app_nil_r.
    split; [reflexivity|]. split; [lia|]. split; [exact I|].
    intros i req Hreq. discriminate Hreq.
  - simpl in H.
    destruct (checkKeyInShard (SplitRequest.Start req) current) eqn:Hs;
      [discriminate H|]. simpl in H.
    destruct (negb (Nat.eqb idx final) &&
              is_Some_b (checkKeyInShard (SplitRequest.End_ req) current)) eqn:He;
      [discriminate H|].
    destruct (bytes_Equal (SplitRequest.Start req) expectStart) eqn:Hstart;
      simpl in H; [|discriminate H].
    apply bytes_Equal_eq in Hstart.
    apply IH in H. destruct H as (-> & -> & Hcont & Hin).
    simpl. rewrite <- app_assoc. simpl.
    split; [reflexivity|]. split; [lia|]. split; [split; assumption|].
    intros [|i] r Hr.
    + injection Hr as <-. split; [exact Hs|]. intros Hne.
      rewrite Nat.add_0_r in Hne.
      destruct (Nat.eqb_spec idx final); [contradiction|].
      simpl in He. destruct (checkKeyInShard (SplitRequest.End_ req) current);
        [discriminate He | reflexivity].
    + destruct (Hin i r Hr) as [Hs' He']. split; [exact Hs'|].
      intros Hne. apply He'. lia.
Qed.

(** The loop returns on a request list that passes the checks. *)
Lemma splitLoop_valid current final reqs :
  forall idx expectStart acc n,
    (forall i req, reqs !! i = Some req ->
                   checkKeyInShard (SplitRequest.Start req) current = None /\
                   ((idx + i)%nat <> final ->
                    checkKeyInShard (SplitRequest.End_ req) current = None)) ->
    contiguous expectStart reqs ->
    splitLoop current final idx expectStart reqs acc n
    = inr (acc ++ map (newShardOf current) reqs, n + Z.of_nat (length reqs)).
Proof.
  induction reqs as [|req rest IH]; intros idx expectStart acc n Hin Hcont.
  - simpl. rewrite app_nil_r. do 2 f_equal. lia.
  - simpl. destruct Hcont as [Hstart Hcont].
    destruct (Hin 0%nat req eq_refl) as [Hs He].
    rewrite Hs. simpl.
    assert (Hend : negb (Nat.eqb idx final) &&
                   is_Some_b (checkKeyInShard (SplitRequest.End_ req) current)
                   = false).
    { destruct (Nat.eqb_spec idx final) as [|Hne]; [reflexivity|].
      rewrite He by (rewrite Nat.add_0_r; exact Hne). reflexivity. }
    rewrite Hend. rewrite Hstart, bytes_Equal_refl. simpl.
    rewrite IH.
    + rewrite <- app_assoc. simpl. do 2 f_equal. lia.
    + intros i r Hr. destruct (Hin (S i) r Hr) as [Hs' He'].
      split; [exact Hs'|]. intros Hne. apply He'. lia.
    + exact Hcont.
Qed.

Lemma contiguous_adjacent reqs :
  forall expectStart,
    contiguous expectStart reqs ->
    forall i req next, reqs !! i = Some req -> reqs !! S i = Some next ->
                       SplitRequest.End_ req = SplitRequest.Start next.
Proof.
  induction reqs as [|r rest IH]; intros expectStart Hc i req next Hreq Hnext.
  - discriminate Hreq.
  - destruct Hc as [_ Hc]. destruct i as [|i].
    + injection Hreq as <-. destruct rest as [|r' rest']; [discriminate Hnext|].
      injection Hnext as <-. destruct Hc as [Hc _]. symmetry. exact Hc.
    + exact (IH _ Hc i req next Hreq Hnext).
Qed.

Lemma adjacent_contiguous reqs :
  forall expectStart,
    (forall first, head reqs = Some first -> SplitRequest.Start first = expectStart) ->
    (forall i req next, reqs !! i = Some req -> reqs !! S i = Some next ->
                        SplitRequest.End_ req = SplitRequest.Start next) ->
    contiguous expectStart reqs.
Proof.
  induction reqs as [|r rest IH]; intros expectStart Hhead Hadj; simpl; [exact I|].
  split; [apply Hhead; reflexivity|].
  apply IH.
  - intros first Hfirst. destruct rest as [|r' rest']; [discriminate Hfirst|].
    injection Hfirst as <-. symmetry. apply (Hadj 0%nat r r'); reflexivity.
  - intros i req next Hreq Hnext. apply (Hadj (S i) req next); assumption.
Qed.

Lemma last_List_last {A} (l : list A) (x d : A) :
  last l = Some x -> List.last l d = x.
Proof.
  induction l as [|a l IH]; [discriminate|].
  destruct l as [|b l]; simpl in *.
  - intros [= <-]. reflexivity.
  - intros H. apply IH. exact H.
Qed.

Lemma List_last_last {A} (l : list A) (d : A) :
  l <> [] -> last l = Some (List.last l d).
Proof.
  induction l as [|a l IH]; [congruence|]. intros _.
  destruct l as [|b l]; [reflexivity|].
  change (last (b :: l) = Some (List.last (b :: l) d)).
  apply IH. discriminate.
Qed.

Lemma validSplit_contiguous parent reqs :
  validSplit parent reqs -> contiguous (Shard.Start parent) reqs.
Proof.
  intros ((first & Hhead & Hstart) & _ & _ & Hadj).
  apply adjacent_contiguous; [|exact Hadj].
  intros f Hf. rewrite Hhead in Hf. injection Hf as <-. exact Hstart.
Qed.

(** [doExecSplit] on a request list that passes validation: the outcome is
    decided by the answer of [storage.Split]. *)
Lemma doExecSplit_valid ds gsm d ctx reqs context :
  applyContext.req ctx = Req_BatchSplit (BatchSplitRequest.mk reqs context) ->
  validSplit (stateMachine.shard d) reqs ->
  let parent := stateMachine.shard d in
  let calls := splitCalls gsm d ctx reqs context in
  let ctx1 := countSplit ctx (length reqs) in
  doExecSplit ds gsm d ctx
  = match splitAnswer ds gsm d ctx reqs context with
    | Some storage_ErrAborted =>
        Return ResponseBatch.empty None (afterAborted calls d) ctx1
    | Some (splitFailure _) => Fatal "failed to split on data storage"
    | None =>
        Return (newAdminResponseBatch AdminCmdType_BatchSplit
                  (BatchSplitResponse (childrenOf parent reqs)))
               None
               (afterSplit calls (destroying parent (length reqs)) d)
               (setAdminResult ctx1 (splitResult (childrenOf parent reqs)))
    end.
Proof.
  intros Hreq Hvalid parent calls ctx1.
  pose proof (validSplit_contiguous _ _ Hvalid) as Hcont.
  destruct Hvalid as ((first & Hhead & Hstart) & (final & Hlast & Hend) & Hin & _).
  destruct reqs as [|r rest]; [discriminate Hhead|].
  injection Hhead as ->.
  unfold doExecSplit. simpl applyContext.req. rewrite Hreq.
  cbv beta zeta. simpl GetBatchSplitRequest. simpl BatchSplitRequest.Requests.
  cbv iota. unfold stateMachine.getShard. fold parent.
  rewrite Hstart, bytes_Equal_refl.
  rewrite (last_List_last _ final first Hlast), Hend, bytes_Equal_refl.
  simpl negb. simpl orb. cbv iota.
  erewrite splitLoop_valid.
  - unfold splitAnswer, childrenOf. fold parent. simpl app at 1.
    destruct (DataStorage.Split ds _ _ _ _) as [[|err]|]; reflexivity.
  - intros i req Hi. destruct (Hin i req Hi) as [Hs He].
    split; [exact Hs|]. intros Hne. apply He. simpl in *. lia.
  - exact Hcont.
Qed.

(** [validSplit] is what [doExecSplit] checks: a run that returns, returned
    on a valid request list. *)
Lemma doExecSplit_Return_valid ds gsm d ctx reqs context resp err d' ctx' :
  applyContext.req ctx = Req_BatchSplit (BatchSplitRequest.mk reqs context) ->
  doExecSplit ds gsm d ctx = Return resp err d' ctx' ->
  validSplit (stateMachine.shard d) reqs.
Proof.
  intros Hreq Hrun. unfold doExecSplit in Hrun.
  simpl applyContext.req in Hrun. rewrite Hreq in Hrun.
  cbv beta zeta in Hrun. simpl GetBatchSplitRequest in Hrun.
  simpl BatchSplitRequest.Requests in Hrun.
  destruct reqs as [|first rest]; [discriminate Hrun|]. cbv iota in Hrun.
  unfold stateMachine.getShard in Hrun.
  destruct (bytes_Equal (SplitRequest.Start first)
                        (Shard.Start (stateMachine.shard d))) eqn:Hstart;
    [|discriminate Hrun].
  destruct (bytes_Equal (SplitRequest.End_ (List.last (first :: rest) first))
                        (Shard.End_ (stateMachine.shard d))) eqn:Hend;
    [|discriminate Hrun].
  simpl negb in Hrun. simpl orb in Hrun. cbv iota in Hrun.
  apply bytes_Equal_eq in Hstart, Hend.
  destruct (splitLoop _ _ _ _ _ _ _) as [msg | [shards n]] eqn:Hloop;
    [discriminate Hrun|].
  apply splitLoop_inr in Hloop. destruct Hloop as (_ & _ & Hcont & Hin).
  split; [exists first; split; [reflexivity | exact Hstart]|].
  split; [exists (List.last (first :: rest) first); split;
          [apply List_last_last; discriminate | exact Hend]|].
  split.
  - intros i req Hi. destruct (Hin i req Hi) as [Hs He].
    split; [exact Hs|]. intros Hne. apply He. simpl in *. lia.
  - exact (contiguous_adjacent _ _ Hcont).
Qed.

(** C4: when [storage.Split] answers with the sentinel [Aborted],
    [doExecSplit] returns the empty response and no error; the in-memory
    shard (epoch, range, state) and the [splited] flag are the ones before
    and no admin result is set.  Any other error of [storage.Split], one
    that carries the text of the sentinel included, is fatal. *)
Theorem doExecSplit_aborted
        (ds : DataStorage.t) (gsm : list Shard.t -> list ShardMetadata.t)
        (d : stateMachine.t) (ctx : applyContext.t)
        (reqs : list SplitRequest.t) (context : bytes) :
  applyContext.req ctx = Req_BatchSplit (BatchSplitRequest.mk reqs context) ->
  validSplit (stateMachine.shard d) reqs ->
  (splitAnswer ds gsm d ctx reqs context = Some storage_ErrAborted ->
   exists d' ctx',
     doExecSplit ds gsm d ctx = Return ResponseBatch.empty None d' ctx' /\
     stateMachine.shard d' = stateMachine.shard d /\
     stateMachine.splited d' = stateMachine.splited d /\
     stateMachine.removed d' = stateMachine.removed d /\
     stateMachine.firstIndex d' = stateMachine.firstIndex d /\
     applyContext.adminResult ctx' = applyContext.adminResult ctx) /\
  (forall err,
      splitAnswer ds gsm d ctx reqs context = Some (splitFailure err) ->
      doExecSplit ds gsm d ctx = Fatal "failed to split on data storage").
Proof.
  intros Hreq Hvalid. pose proof (doExecSplit_valid ds gsm d ctx reqs context
                                                    Hreq Hvalid) as Hrun.
  cbv zeta in Hrun. split.
  - intros Hans. rewrite Hans in Hrun.
    eexists _, _. split; [exact Hrun|]. repeat split.
  - intros err Hans. rewrite Hans in Hrun. exact Hrun.
Qed.

Lemma validSplit_AMZ : validSplit parentAZ requestsAMZ.
Proof.
  split; [exists (SplitRequest.mk [x61] [x6d] 10 [Replica.mk 100 1 ReplicaRole_Voter]);
          split; reflexivity|].
  split; [exists (SplitRequest.mk [x6d] [x7a] 11 [Replica.mk 101 1 ReplicaRole_Voter]);
          split; reflexivity|].
  split.
  - intros [|[|i]] req Hi; try discriminate Hi; injection Hi as <-;
      (split; [reflexivity|]); intros Hne; [reflexivity | contradiction].
  - intros [|[|i]] req next Hi Hn; try discriminate Hn.
    injection Hi as <-. injection Hn as <-. reflexivity.
Qed.

Lemma doExecSplit_aborted_witness :
  let d := machineAt 5 parentAZ (Replica.mk 1 1 ReplicaRole_Voter) in
  (exists d' ctx',
      doExecSplit (storageSplit (Some storage_ErrAborted)) metadataOf d
                  (splitCtx 6 requestsAMZ)
      = Return ResponseBatch.empty None d' ctx' /\
      stateMachine.shard d' = parentAZ /\
      stateMachine.splited d' = false /\
      applyContext.adminResult ctx' = None) /\
  doExecSplit (storageSplit (Some (splitFailure (errors_New "aborted")))) metadataOf d
              (splitCtx 6 requestsAMZ)
  = Fatal "failed to split on data storage".
Proof.
  intros d. split.
  - destruct (doExecSplit_aborted (storageSplit (Some storage_ErrAborted))
                metadataOf d (splitCtx 6 requestsAMZ) requestsAMZ [] eq_refl
                validSplit_AMZ) as [Haborted _].
    destruct (Haborted eq_refl)
      as (d' & ctx' & Hrun & Hshard & Hsplited & _ & _ & Hres).
    exists d', ctx'. split; [exact Hrun|].
    rewrite Hshard, Hsplited, Hres. repeat split.
  - destruct (doExecSplit_aborted
                (storageSplit (Some (splitFailure (errors_New "aborted"))))
                metadataOf d (splitCtx 6 requestsAMZ) requestsAMZ [] eq_refl
                validSplit_AMZ) as [_ Hfatal].
    exact (Hfatal (errors_New "aborted") eq_refl).
Defined.

Lemma childrenOf_lookup parent reqs i child :
  childrenOf parent reqs !! i = Some child ->
  exists req, reqs !! i = Some req /\
              child = newShardOf (addVersion parent (length reqs)) req.
Proof.
  unfold childrenOf. rewrite list_lookup_fmap.
  destruct (reqs !! i) as [req|]; simpl; [|discriminate].
  intros [= <-]. exists req. split; reflexivity.
Qed.

Lemma childrenOf_head parent reqs first :
  head reqs = Some first ->
  head (childrenOf parent reqs)
  = Some (newShardOf (addVersion parent (length reqs)) first).
Proof. destruct reqs; simpl; [discriminate|]. intros [= ->]. reflexivity. Qed.

Lemma childrenOf_last parent reqs final :
  last reqs = Some final ->
  last (childrenOf parent reqs)
  = Some (newShardOf (addVersion parent (length reqs)) final).
Proof.
  unfold childrenOf. intros H. rewrite fmap_last, H. reflexivity.
Qed.

(** C1: a [BatchSplit] whose requests pass validation and whose
    [storage.Split] succeeds returns the children of the requests, one per
    request and in order.  They tile the parent's range: the first starts at
    the parent's start, the last ends at the parent's end, each ends where
    the next starts.  Every child has the parent's version plus the number
    of requests (as a [uint64]), the parent's group, unique, ruleGroups and
    disableSplit, and the id, start, end and replicas of its request. *)
Theorem doExecSplit_tiles
        (ds : DataStorage.t) (gsm : list Shard.t -> list ShardMetadata.t)
        (d : stateMachine.t) (ctx : applyContext.t)
        (reqs : list SplitRequest.t) (context : bytes) :
  applyContext.req ctx = Req_BatchSplit (BatchSplitRequest.mk reqs context) ->
  validSplit (stateMachine.shard d) reqs ->
  splitAnswer ds gsm d ctx reqs context = None ->
  let parent := stateMachine.shard d in
  let count := Z.of_nat (length reqs) in
  exists children d' ctx',
    doExecSplit ds gsm d ctx
    = Return (newAdminResponseBatch AdminCmdType_BatchSplit
                                    (BatchSplitResponse children)) None d' ctx' /\
    applyContext.adminResult ctx' = Some (splitResult children) /\
    length children = length reqs /\
    (exists child, head children = Some child /\
                   Shard.Start child = Shard.Start parent) /\
    (exists child, last children = Some child /\
                   Shard.End_ child = Shard.End_ parent) /\
    (forall i child next,
        children !! i = Some child -> children !! S i = Some next ->
        Shard.End_ child = Shard.Start next) /\
    (forall i child,
        children !! i = Some child ->
        Epoch.Version (Shard.Epoch child)
        = wrap64 (Epoch.Version (Shard.Epoch parent) + count) /\
        (0 <= Epoch.Version (Shard.Epoch parent) ->
         Epoch.Version (Shard.Epoch parent) + count < 2 ^ 64 ->
         Epoch.Version (Shard.Epoch child)
         = Epoch.Version (Shard.Epoch parent) + count) /\
        Shard.Group child = Shard.Group parent /\
        Shard.Unique child = Shard.Unique parent /\
        Shard.RuleGroups child = Shard.RuleGroups parent /\
        Shard.DisableSplit child = Shard.DisableSplit parent /\
        exists req,
          reqs !! i = Some req /\
          Shard.ID child = SplitRequest.NewShardID req /\
          Shard.Start child = SplitRequest.Start req /\
          Shard.End_ child = SplitRequest.End_ req /\
          Shard.Replicas child = SplitRequest.NewReplicas req).
Proof.
  intros Hreq Hvalid Hans parent count.
  pose proof (doExecSplit_valid ds gsm d ctx reqs context Hreq Hvalid) as Hrun.
  cbv zeta in Hrun. rewrite Hans in Hrun. fold parent in Hrun.
  destruct Hvalid as ((first & Hhead & Hstart) & (final & Hlast & Hend) & _ & Hadj).
  exists (childrenOf parent reqs). eexists _, _.
  split; [exact Hrun|]. split; [reflexivity|].
  split; [unfold childrenOf; apply length_map|].
  split; [eexists; split; [apply (childrenOf_head _ _ _ Hhead) | exact Hstart]|].
  split; [eexists; split; [apply (childrenOf_last _ _ _ Hlast) | exact Hend]|].
  split.
  - intros i child next Hc Hn.
    apply childrenOf_lookup in Hc, Hn.
    destruct Hc as (req & Hi & ->). destruct Hn as (req' & Hi' & ->).
    simpl. exact (Hadj i req req' Hi Hi').
  - intros i child Hc. apply childrenOf_lookup in Hc.
    destruct Hc as (req & Hi & ->). simpl. fold count.
    split; [reflexivity|].
    split; [intros H0 Hlt; apply wrap64_small; unfold is_uint64; lia|].
    repeat (split; [reflexivity|]).
    exists req. repeat split. exact Hi.
Qed.

(** The two-way split: parent ["a","z") at version 9 with requests
    ["a","m") for shard 10 and ["m","z") for shard 11. *)
Lemma doExecSplit_tiles_witness :
  let d := machineAt 5 parentAZ (Replica.mk 1 1 ReplicaRole_Voter) in
  exists children d' ctx',
    doExecSplit (storageSplit None) metadataOf d (splitCtx 6 requestsAMZ)
    = Return (newAdminResponseBatch AdminCmdType_BatchSplit
                                    (BatchSplitResponse children)) None d' ctx' /\
    map (fun c => (Shard.ID c, Shard.Start c, Shard.End_ c,
                   Epoch.Version (Shard.Epoch c), Shard.Group c)) children
    = [(10, [x61], [x6d], 11, 4); (11, [x6d], [x7a], 11, 4)] /\
    Shard.State (stateMachine.shard d') = ResourceState_Destroying.
Proof.
  intros d.
  destruct (doExecSplit_tiles (storageSplit None) metadataOf d
              (splitCtx 6 requestsAMZ) requestsAMZ [] eq_refl validSplit_AMZ eq_refl)
    as (children & d' & ctx' & Hrun & _).
  exists children, d', ctx'. split; [exact Hrun|].
  vm_compute in Hrun. injection Hrun as <- <- _. split; reflexivity.
Defined.

(** ** The heartbeat response multiplexer *)






(** * Further properties of the code *)

(** ** The order of byte strings *)

Lemma to_N_inj x y : Byte.to_N x = Byte.to_N y -> x = y.
Proof.
  intros H. pose proof (Byte.of_to_N x) as Hx. rewrite H, Byte.of_to_N in Hx.
  congruence.
Qed.

Lemma bytes_Compare_refl a : bytes_Compare a a = Eq.
Proof. induction a as [|x a IH]; simpl; [reflexivity|]. rewrite N.compare_refl. exact IH. Qed.

Lemma bytes_Compare_Eq a b : bytes_Compare a b = Eq -> a = b.
Proof.
  revert b. induction a as [|x a IH]; intros [|y b]; simpl; try congruence.
  destruct (N.compare_spec (Byte.to_N x) (Byte.to_N y)) as [Hxy| |]; try discriminate.
  intros H. apply to_N_inj in Hxy. rewrite Hxy, (IH b H). reflexivity.
Qed.

Lemma bytes_Compare_antisym a b :
  bytes_Compare b a = CompOpp (bytes_Compare a b).
Proof.
  revert b. induction a as [|x a IH]; intros [|y b]; simpl; try reflexivity.
  rewrite (N.compare_antisym (Byte.to_N x) (Byte.to_N y)).
  destruct (N.compare (Byte.to_N x) (Byte.to_N y)); simpl; auto.
Qed.

Lemma bytes_Compare_Lt_trans a b c :
  bytes_Compare a b = Lt -> bytes_Compare b c = Lt -> bytes_Compare a c = Lt.
Proof.
  revert b c. induction a as [|x a IH]; intros [|y b] [|z c]; simpl;
    try congruence.
  destruct (N.compare_spec (Byte.to_N x) (Byte.to_N y)) as [Hxy|Hxy|Hxy];
    destruct (N.compare_spec (Byte.to_N y) (Byte.to_N z)) as [Hyz|Hyz|Hyz];
    try discriminate; intros Hab Hbc.
  - rewrite Hxy, Hyz, N.compare_refl. exact (IH b c Hab Hbc).
  - rewrite Hxy. apply N.compare_lt_iff in Hyz. rewrite Hyz. reflexivity.
  - rewrite <- Hyz. apply N.compare_lt_iff in Hxy. rewrite Hxy. reflexivity.
  - assert (H : (Byte.to_N x < Byte.to_N z)%N) by lia.
    apply N.compare_lt_iff in H. rewrite H. reflexivity.
Qed.

Lemma compare_ge_lt c : compare_ge c = negb (compare_lt c).
Proof. destruct c; reflexivity. Qed.

(** [a >= b] and [b >= c] give [a >= c]. *)
Lemma bytes_ge_trans a b c :
  compare_ge (bytes_Compare a b) = true ->
  compare_ge (bytes_Compare b c) = true ->
  compare_ge (bytes_Compare a c) = true.
Proof.
  intros Hab Hbc.
  destruct (bytes_Compare a c) eqn:Hac; try reflexivity. exfalso.
  destruct (bytes_Compare b c) eqn:Hbc'; try discriminate Hbc.
  - apply bytes_Compare_Eq in Hbc'. subst c. rewrite Hac in Hab. discriminate.
  - assert (Hcb : bytes_Compare c b = Lt)
      by (rewrite bytes_Compare_antisym, Hbc'; reflexivity).
    rewrite (bytes_Compare_Lt_trans a c b Hac Hcb) in Hab. discriminate.
Qed.

(** [a < b] and [b < c] give [a < c]. *)
Lemma bytes_lt_trans a b c :
  compare_lt (bytes_Compare a b) = true ->
  compare_lt (bytes_Compare b c) = true ->
  compare_lt (bytes_Compare a c) = true.
Proof.
  intros Hab Hbc.
  destruct (bytes_Compare a b) eqn:H1; try discriminate.
  destruct (bytes_Compare b c) eqn:H2; try discriminate.
  rewrite (bytes_Compare_Lt_trans a b c H1 H2). reflexivity.
Qed.

Lemma checkKeyInShard_inRange key shard :
  checkKeyInShard key shard = None <->
  inRange key (Shard.Start shard) (Shard.End_ shard) = true.
Proof.
  unfold checkKeyInShard, inRange.
  destruct (compare_ge _ && _); split; congruence.
Qed.

(** ** The error envelope, further *)

Lemma setError_headerID resp f : headerID (setError resp f) = headerID resp.
Proof.
  unfold headerID, setError. destruct resp as [[h|] rs]; reflexivity.
Qed.

Lemma errorBaseResp_headerID batch header uuid :
  headerID (errorBaseResp batch header uuid)
  = Some (if Nat.eqb (length (ResponseBatchHeader.ID header)) 0
          then ResponseBatchHeader.ID header else uuid).
Proof.
  unfold errorBaseResp, buildUUID, headerID. simpl.
  destruct (Nat.eqb (length (ResponseBatchHeader.ID header)) 0); reflexivity.
Qed.

(** [buildUUID] writes the uuid only over an ID that is already non-empty:
    when the acquired header has an empty ID, each of the four error
    responses has a header with the empty ID, whatever uuid was given. *)
Theorem error_responses_drop_uuid
        (batch : ResponseBatch.t) (header : ResponseBatchHeader.t)
        (uuid : bytes) (err : error) (pbErr : errorpb.t)
        (newShards : list Shard.t) :
  ResponseBatchHeader.ID header = [] ->
  headerID (errorBaseResp batch header uuid) = Some [] /\
  headerID (errorPbResp batch header pbErr uuid) = Some [] /\
  headerID (errorStaleCMDResp batch header uuid) = Some [] /\
  headerID (errorStaleEpochResp batch header uuid newShards) = Some [] /\
  headerID (errorOtherCMDResp batch header err) = Some [].
Proof.
  intros Hid.
  assert (Hbase : forall u, headerID (errorBaseResp batch header u) = Some []).
  { intros u. rewrite errorBaseResp_headerID, Hid. reflexivity. }
  unfold errorPbResp, errorStaleCMDResp, errorStaleEpochResp, errorOtherCMDResp.
  rewrite !setError_headerID. repeat split; apply Hbase.
Qed.

Lemma error_responses_drop_uuid_witness :
  let header := ResponseBatchHeader.mk [] errorpb.zero in
  ResponseBatchHeader.ID header = [] /\
  headerID (errorStaleCMDResp ResponseBatch.empty header [x01; x02]) = Some [].
Proof.
  intros header. split; [reflexivity|].
  destruct (error_responses_drop_uuid ResponseBatch.empty header [x01; x02]
              errStaleCMD errorpb.zero [] eq_refl) as (_ & _ & H & _).
  exact H.
Defined.

(** When the acquired header already has a non-empty ID, the responses that
    take a uuid carry it, and [errorOtherCMDResp], which passes nil, clears
    the ID. *)
Theorem error_responses_set_uuid
        (batch : ResponseBatch.t) (header : ResponseBatchHeader.t)
        (uuid : bytes) (err : error) (pbErr : errorpb.t)
        (newShards : list Shard.t) :
  ResponseBatchHeader.ID header <> [] ->
  headerID (errorPbResp batch header pbErr uuid) = Some uuid /\
  headerID (errorStaleCMDResp batch header uuid) = Some uuid /\
  headerID (errorStaleEpochResp batch header uuid newShards) = Some uuid /\
  headerID (errorOtherCMDResp batch header err) = Some [].
Proof.
  intros Hid.
  assert (Hbase : forall u, headerID (errorBaseResp batch header u) = Some u).
  { intros u. rewrite errorBaseResp_headerID.
    destruct (ResponseBatchHeader.ID header); [congruence | reflexivity]. }
  unfold errorPbResp, errorStaleCMDResp, errorStaleEpochResp, errorOtherCMDResp.
  rewrite !setError_headerID. repeat split; apply Hbase.
Qed.

Lemma error_responses_set_uuid_witness :
  let header := ResponseBatchHeader.mk [x09] errorpb.zero in
  ResponseBatchHeader.ID header <> [] /\
  headerID (errorStaleEpochResp ResponseBatch.empty header [x01; x02] [])
  = Some [x01; x02].
Proof.
  intros header.
  assert (Hne : ResponseBatchHeader.ID header <> []) by discriminate.
  split; [exact Hne|].
  destruct (error_responses_set_uuid ResponseBatch.empty header [x01; x02]
              errStaleCMD errorpb.zero [] Hne) as (_ & _ & H & _).
  exact H.
Defined.

(** The range of a shard is half-open: the start key belongs to the shard
    exactly when the range is not empty (no end, or start below end), and a
    non-empty end key never belongs to it. *)
Theorem checkKeyInShard_half_open (shard : Shard.t) :
  (checkKeyInShard (Shard.Start shard) shard = None <->
   Shard.End_ shard = [] \/
   bytes_Compare (Shard.Start shard) (Shard.End_ shard) = Lt) /\
  (Shard.End_ shard <> [] ->
   exists e, checkKeyInShard (Shard.End_ shard) shard = Some e).
Proof.
  split.
  - rewrite checkKeyInShard_inRange. unfold inRange.
    rewrite bytes_Compare_refl. simpl.
    destruct (Shard.End_ shard) as [|y e] eqn:He; simpl.
    + split; auto.
    + destruct (bytes_Compare (Shard.Start shard) (y :: e)); simpl;
        (split; [intros H; try discriminate H; auto
                | intros [H|H]; try discriminate H; auto]).
  - intros Hne. unfold checkKeyInShard. rewrite bytes_Compare_refl.
    destruct (Shard.End_ shard) as [|y e] eqn:He; [congruence|].
    simpl. rewrite andb_false_r. eexists. reflexivity.
Qed.

(** For a key outside the shard, the response built from the error of
    [checkKeyInShard] has the message "key not in shard" and a
    [KeyNotInShard] payload with the key and the shard's id, start and end,
    and neither a [StaleCommand] nor a [StaleEpoch] payload. *)
Theorem errorPbResp_keyNotInShard
        (batch : ResponseBatch.t) (header : ResponseBatchHeader.t)
        (uuid key : bytes) (shard : Shard.t) :
  inRange key (Shard.Start shard) (Shard.End_ shard) = false ->
  exists e h,
    checkKeyInShard key shard = Some e /\
    ResponseBatch.Header (errorPbResp batch header e uuid) = Some h /\
    ResponseBatchHeader.Error h = e /\
    errorpb.Message e = "key not in shard" /\
    errorpb.KeyNotInShard e
    = Some (KeyNotInShard.mk key (Shard.ID shard) (Shard.Start shard)
                             (Shard.End_ shard)) /\
    errorpb.StaleCommand e = None /\
    errorpb.StaleEpoch e = None.
Proof.
  intros Hout. unfold checkKeyInShard. unfold inRange in Hout. rewrite Hout.
  destruct (errorBaseResp_Header batch header uuid) as [h0 Hh0].
  eexists _, _. split; [reflexivity|]. split.
  - unfold errorPbResp. erewrite setError_Header by exact Hh0. reflexivity.
  - simpl. repeat split.
Qed.

Lemma errorPbResp_keyNotInShard_witness :
  let shard := Shard.mk 7 [x61] [x7a] Epoch.zero ResourceState_Running [] false 0 "" [] [] in
  inRange [x7a] (Shard.Start shard) (Shard.End_ shard) = false /\
  exists e, checkKeyInShard [x7a] shard = Some e /\
            errorpb.Message e = "key not in shard".
Proof.
  intros shard. split; [reflexivity|].
  destruct (errorPbResp_keyNotInShard ResponseBatch.empty
              (ResponseBatchHeader.mk [] errorpb.zero) [] [x7a] shard eq_refl)
    as (e & h & He & _ & _ & Hm & _).
  exists e. split; [exact He | exact Hm].
Defined.

Lemma checkKeyInShard_half_open_witness :
  let shard := Shard.mk 7 [x61] [x7a] Epoch.zero ResourceState_Running [] false 0 "" [] [] in
  Shard.End_ shard <> [] /\
  checkKeyInShard [x61] shard = None /\
  exists e, checkKeyInShard [x7a] shard = Some e.
Proof.
  intros shard.
  assert (Hne : Shard.End_ shard <> []) by discriminate.
  destruct (checkKeyInShard_half_open shard) as [Hstart Hend].
  split; [exact Hne|]. split.
  - apply Hstart. right. reflexivity.
  - exact (Hend Hne).
Defined.

(** ** Batch split, further *)

Lemma checkKeyInShard_child key current req :
  checkKeyInShard key (newShardOf current req) = None <->
  inRange key (SplitRequest.Start req) (SplitRequest.End_ req) = true.
Proof. apply checkKeyInShard_inRange. Qed.

(** A run of [doExecSplit] that answers with children ran on a valid request
    list, the storage accepted the split, and the children are the ones of
    the requests. *)
Lemma doExecSplit_children ds gsm d ctx reqs context children err d' ctx' :
  applyContext.req ctx = Req_BatchSplit (BatchSplitRequest.mk reqs context) ->
  doExecSplit ds gsm d ctx
  = Return (newAdminResponseBatch AdminCmdType_BatchSplit
                                  (BatchSplitResponse children)) err d' ctx' ->
  validSplit (stateMachine.shard d) reqs /\
  splitAnswer ds gsm d ctx reqs context = None /\
  children = childrenOf (stateMachine.shard d) reqs /\
  err = None /\
  d' = afterSplit (splitCalls gsm d ctx reqs context)
                  (destroying (stateMachine.shard d) (length reqs)) d /\
  ctx' = setAdminResult (countSplit ctx (length reqs)) (splitResult children).
Proof.
  intros Hreq Hrun.
  pose proof (doExecSplit_Return_valid _ _ _ _ _ _ _ _ _ _ Hreq Hrun) as Hvalid.
  rewrite (doExecSplit_valid ds gsm d ctx reqs context Hreq Hvalid) in Hrun.
  cbv zeta in Hrun.
  destruct (splitAnswer ds gsm d ctx reqs context) as [e|].
  - destruct e; discriminate Hrun.
  - injection Hrun as <- <- <- <-. split; [exact Hvalid|]. repeat split.
Qed.

(** Contiguous requests leave no gap: a key at or above the first start and
    below the last end is in the range of one of the requests. *)
Lemma contiguous_cover key pend reqs :
  forall expectStart final,
    contiguous expectStart reqs ->
    last reqs = Some final -> SplitRequest.End_ final = pend ->
    inRange key expectStart pend = true ->
    exists req, req ∈ reqs /\
                inRange key (SplitRequest.Start req) (SplitRequest.End_ req) = true.
Proof.
  induction reqs as [|r rest IH]; intros expectStart final Hcont Hlast Hend Hin;
    [discriminate Hlast|].
  destruct Hcont as [Hstart Hcont].
  unfold inRange in Hin. apply andb_true_iff in Hin. destruct Hin as [Hge Hlt].
  destruct (Nat.eqb (length (SplitRequest.End_ r)) 0 ||
            compare_lt (bytes_Compare key (SplitRequest.End_ r))) eqn:Hhere.
  - exists r. split; [apply list_elem_of_here|].
    unfold inRange. rewrite Hstart, Hge, Hhere. reflexivity.
  - destruct rest as [|r' rest'].
    + injection Hlast as <-. rewrite Hend, Hlt in Hhere. discriminate Hhere.
    + apply orb_false_iff in Hhere. destruct Hhere as [_ Hnlt].
      destruct (IH (SplitRequest.End_ r) final Hcont Hlast Hend) as (req & Hel & Hreq).
      * unfold inRange. rewrite compare_ge_lt, Hnlt, Hlt. reflexivity.
      * exists req. split; [apply list_elem_of_further; exact Hel | exact Hreq].
Qed.

(** The children of a split leave no gap: every key of the parent's range
    lies in the range of at least one child. *)
Theorem doExecSplit_children_cover
        (ds : DataStorage.t) (gsm : list Shard.t -> list ShardMetadata.t)
        (d : stateMachine.t) (ctx : applyContext.t)
        (reqs : list SplitRequest.t) (context : bytes)
        (children : list Shard.t) (err : option error)
        (d' : stateMachine.t) (ctx' : applyContext.t) (key : bytes) :
  applyContext.req ctx = Req_BatchSplit (BatchSplitRequest.mk reqs context) ->
  doExecSplit ds gsm d ctx
  = Return (newAdminResponseBatch AdminCmdType_BatchSplit
                                  (BatchSplitResponse children)) err d' ctx' ->
  checkKeyInShard key (stateMachine.shard d) = None ->
  exists child, child ∈ children /\ checkKeyInShard key child = None.
Proof.
  intros Hreq Hrun Hkey.
  destruct (doExecSplit_children _ _ _ _ _ _ _ _ _ _ Hreq Hrun)
    as (Hvalid & _ & -> & _).
  pose proof (validSplit_contiguous _ _ Hvalid) as Hcont.
  destruct Hvalid as (_ & (final & Hlast & Hend) & _).
  apply checkKeyInShard_inRange in Hkey.
  destruct (contiguous_cover key _ reqs _ final Hcont Hlast Hend Hkey)
    as (req & Hel & Hin).
  exists (newShardOf (addVersion (stateMachine.shard d) (length reqs)) req). split.
  - unfold childrenOf. apply list_elem_of_fmap. exists req. split; [reflexivity | exact Hel].
  - apply checkKeyInShard_child. exact Hin.
Qed.

Lemma doExecSplit_children_cover_witness :
  let d := machineAt 5 parentAZ (Replica.mk 1 1 ReplicaRole_Voter) in
  checkKeyInShard [x6d; x30] parentAZ = None /\
  exists child,
    child ∈ childrenOf parentAZ requestsAMZ /\
    checkKeyInShard [x6d; x30] child = None.
Proof.
  intros d. split; [reflexivity|].
  assert (Hrun : exists d' ctx',
             doExecSplit (storageSplit None) metadataOf d (splitCtx 6 requestsAMZ)
             = Return (newAdminResponseBatch AdminCmdType_BatchSplit
                         (BatchSplitResponse (childrenOf parentAZ requestsAMZ)))
                      None d' ctx')
    by (eexists _, _; reflexivity).
  destruct Hrun as (d' & ctx' & Hrun).
  exact (doExecSplit_children_cover (storageSplit None) metadataOf d
           (splitCtx 6 requestsAMZ) requestsAMZ [] _ None d' ctx'
           [x6d; x30] eq_refl Hrun eq_refl).
Defined.

Lemma inRange_within key start end_ pstart pend :
  inRange start pstart pend = true ->
  (end_ = pend \/ (end_ <> [] /\ inRange end_ pstart pend = true)) ->
  inRange key start end_ = true ->
  inRange key pstart pend = true.
Proof.
  unfold inRange. rewrite !andb_true_iff, !orb_true_iff.
  intros [Hs _] Hend [Hks Hke]. split.
  - exact (bytes_ge_trans _ _ _ Hks Hs).
  - destruct Hend as [-> | [Hne [_ He]]]; [exact Hke|].
    destruct Hke as [Hke|Hke];
      [destruct end_; [congruence | discriminate Hke]|].
    destruct He as [He|He]; [left; exact He | right].
    exact (bytes_lt_trans _ _ _ Hke He).
Qed.

(** When no request but the last has an empty end, every child lies within
    the parent: a key of a child's range is a key of the parent's range. *)
Theorem doExecSplit_children_within
        (ds : DataStorage.t) (gsm : list Shard.t -> list ShardMetadata.t)
        (d : stateMachine.t) (ctx : applyContext.t)
        (reqs : list SplitRequest.t) (context : bytes)
        (children : list Shard.t) (err : option error)
        (d' : stateMachine.t) (ctx' : applyContext.t) :
  applyContext.req ctx = Req_BatchSplit (BatchSplitRequest.mk reqs context) ->
  doExecSplit ds gsm d ctx
  = Return (newAdminResponseBatch AdminCmdType_BatchSplit
                                  (BatchSplitResponse children)) err d' ctx' ->
  boundedEnds reqs ->
  forall child key,
    child ∈ children ->
    checkKeyInShard key child = None ->
    checkKeyInShard key (stateMachine.shard d) = None.
Proof.
  intros Hreq Hrun Hbounded child key Hel Hkey.
  destruct (doExecSplit_children _ _ _ _ _ _ _ _ _ _ Hreq Hrun)
    as (Hvalid & _ & -> & _).
  apply list_elem_of_lookup in Hel. destruct Hel as [i Hi].
  apply childrenOf_lookup in Hi. destruct Hi as (req & Hi & ->).
  apply checkKeyInShard_child in Hkey.
  destruct Hvalid as (_ & (final & Hlast & Hend) & Hin & _).
  destruct (Hin i req Hi) as [Hs He].
  apply checkKeyInShard_inRange in Hs.
  apply checkKeyInShard_inRange.
  apply (inRange_within key (SplitRequest.Start req) (SplitRequest.End_ req) _ _ Hs);
    [|exact Hkey].
  destruct (decide (i = (length reqs - 1)%nat)) as [Hlasti | Hne].
  - left. rewrite last_lookup in Hlast.
    replace (pred (length reqs)) with i in Hlast by lia.
    rewrite Hi in Hlast. injection Hlast as ->. exact Hend.
  - right. split; [exact (Hbounded i req Hi Hne)|].
    apply checkKeyInShard_inRange. exact (He Hne).
Qed.

Lemma boundedEnds_AMZ : boundedEnds requestsAMZ.
Proof.
  intros [|[|i]] req Hi Hne; try discriminate Hi.
  - injection Hi as <-. discriminate.
  - contradiction.
Qed.

Lemma doExecSplit_children_within_witness :
  let d := machineAt 5 parentAZ (Replica.mk 1 1 ReplicaRole_Voter) in
  boundedEnds requestsAMZ /\
  forall child key,
    child ∈ childrenOf parentAZ requestsAMZ ->
    checkKeyInShard key child = None ->
    checkKeyInShard key parentAZ = None.
Proof.
  intros d. split; [exact boundedEnds_AMZ|].
  assert (Hrun : exists d' ctx',
             doExecSplit (storageSplit None) metadataOf d (splitCtx 6 requestsAMZ)
             = Return (newAdminResponseBatch AdminCmdType_BatchSplit
                         (BatchSplitResponse (childrenOf parentAZ requestsAMZ)))
                      None d' ctx')
    by (eexists _, _; reflexivity).
  destruct Hrun as (d' & ctx' & Hrun).
  exact (doExecSplit_children_within (storageSplit None) metadataOf d
           (splitCtx 6 requestsAMZ) requestsAMZ [] _ None d' ctx'
           eq_refl Hrun boundedEnds_AMZ).
Defined.

(** With non-decreasing split keys every request starts at or after
    [expectStart]. *)
Lemma contiguous_starts_ge reqs :
  forall expectStart,
    contiguous expectStart reqs ->
    increasingKeys reqs ->
    forall req, req ∈ reqs ->
                compare_ge (bytes_Compare (SplitRequest.Start req) expectStart) = true.
Proof.
  induction reqs as [|r rest IH]; intros expectStart Hcont Hinc req Hel.
  - inversion Hel.
  - destruct Hcont as [Hstart Hcont].
    apply elem_of_cons in Hel. destruct Hel as [-> | Hel].
    + rewrite Hstart, bytes_Compare_refl. reflexivity.
    + assert (Hrest : increasingKeys rest).
      { intros i q Hi Hne. apply (Hinc (S i) q Hi). simpl in *.
        destruct rest; [discriminate Hi | simpl in *; lia]. }
      pose proof (IH _ Hcont Hrest req Hel) as Hge.
      assert (Hr : compare_ge (bytes_Compare (SplitRequest.End_ r)
                                             (SplitRequest.Start r)) = true).
      { apply (Hinc 0%nat r eq_refl). simpl.
        destruct rest; [inversion Hel | simpl; lia]. }
      rewrite <- Hstart. exact (bytes_ge_trans _ _ _ Hge Hr).
Qed.

Lemma increasingKeys_tail r rest : increasingKeys (r :: rest) -> increasingKeys rest.
Proof.
  intros Hinc i q Hi Hne. apply (Hinc (S i) q Hi). simpl in *.
  destruct rest; [discriminate Hi | simpl in *; lia].
Qed.

Lemma boundedEnds_tail r rest : boundedEnds (r :: rest) -> boundedEnds rest.
Proof.
  intros Hb i q Hi Hne. apply (Hb (S i) q Hi). simpl in *.
  destruct rest; [discriminate Hi | simpl in *; lia].
Qed.

Lemma contiguous_disjoint key reqs :
  forall expectStart i j ri rj,
    contiguous expectStart reqs -> boundedEnds reqs -> increasingKeys reqs ->
    (i < j)%nat -> reqs !! i = Some ri -> reqs !! j = Some rj ->
    inRange key (SplitRequest.Start ri) (SplitRequest.End_ ri) = true ->
    inRange key (SplitRequest.Start rj) (SplitRequest.End_ rj) = true ->
    False.
Proof.
  induction reqs as [|r rest IH];
    intros expectStart i j ri rj Hcont Hb Hinc Hij Hi Hj Hini Hinj;
    [discriminate Hi|].
  destruct Hcont as [_ Hcont].
  destruct j as [|j]; [lia|]. simpl in Hj.
  destruct i as [|i].
  - injection Hi as <-.
    assert (Hrest : rest <> []) by (destruct rest; [discriminate Hj | discriminate]).
    assert (Hne : SplitRequest.End_ r <> []).
    { apply (Hb 0%nat r eq_refl). simpl. destruct rest; [congruence | simpl; lia]. }
    pose proof (contiguous_starts_ge rest _ Hcont (increasingKeys_tail _ _ Hinc) rj
                  (list_elem_of_lookup_2 _ _ _ Hj)) as Hge.
    unfold inRange in Hini, Hinj.
    apply andb_true_iff in Hini, Hinj.
    destruct Hini as [_ Hlt]. destruct Hinj as [Hkj _].
    pose proof (bytes_ge_trans _ _ _ Hkj Hge) as Hk.
    rewrite compare_ge_lt in Hk.
    destruct (SplitRequest.End_ r) as [|y e]; [congruence|].
    simpl in Hlt. rewrite Hlt in Hk. discriminate Hk.
  - simpl in Hi.
    apply (IH _ i j ri rj Hcont (boundedEnds_tail _ _ Hb)
              (increasingKeys_tail _ _ Hinc)); [lia | assumption..].
Qed.

(** When the split keys do not decrease and no request but the last has an
    empty end, the children do not overlap: no key lies in the ranges of two
    children. *)
Theorem doExecSplit_children_disjoint
        (ds : DataStorage.t) (gsm : list Shard.t -> list ShardMetadata.t)
        (d : stateMachine.t) (ctx : applyContext.t)
        (reqs : list SplitRequest.t) (context : bytes)
        (children : list Shard.t) (err : option error)
        (d' : stateMachine.t) (ctx' : applyContext.t) :
  applyContext.req ctx = Req_BatchSplit (BatchSplitRequest.mk reqs context) ->
  doExecSplit ds gsm d ctx
  = Return (newAdminResponseBatch AdminCmdType_BatchSplit
                                  (BatchSplitResponse children)) err d' ctx' ->
  boundedEnds reqs -> increasingKeys reqs ->
  forall i j child other key,
    i <> j ->
    children !! i = Some child -> children !! j = Some other ->
    checkKeyInShard key child = None ->
    checkKeyInShard key other <> None.
Proof.
  intros Hreq Hrun Hb Hinc i j child other key Hij Hi Hj Hkey Hother.
  destruct (doExecSplit_children _ _ _ _ _ _ _ _ _ _ Hreq Hrun)
    as (Hvalid & _ & -> & _).
  pose proof (validSplit_contiguous _ _ Hvalid) as Hcont.
  apply childrenOf_lookup in Hi, Hj.
  destruct Hi as (ri & Hi & ->). destruct Hj as (rj & Hj & ->).
  apply checkKeyInShard_child in Hkey, Hother.
  destruct (Nat.lt_total i j) as [Hlt | [Heq | Hgt]]; [|contradiction|].
  - exact (contiguous_disjoint key reqs _ i j ri rj Hcont Hb Hinc Hlt Hi Hj
             Hkey Hother).
  - exact (contiguous_disjoint key reqs _ j i rj ri Hcont Hb Hinc Hgt Hj Hi
             Hother Hkey).
Qed.

Lemma increasingKeys_AMZ : increasingKeys requestsAMZ.
Proof.
  intros [|[|i]] req Hi Hne; try discriminate Hi.
  - injection Hi as <-. reflexivity.
  - contradiction.
Qed.

Lemma doExecSplit_children_disjoint_witness :
  let d := machineAt 5 parentAZ (Replica.mk 1 1 ReplicaRole_Voter) in
  boundedEnds requestsAMZ /\ increasingKeys requestsAMZ /\
  forall child other,
    childrenOf parentAZ requestsAMZ !! 0%nat = Some child ->
    childrenOf parentAZ requestsAMZ !! 1%nat = Some other ->
    checkKeyInShard [x62] child = None ->
    checkKeyInShard [x62] other <> None.
Proof.
  intros d. split; [exact boundedEnds_AMZ|]. split; [exact increasingKeys_AMZ|].
  assert (Hrun : exists d' ctx',
             doExecSplit (storageSplit None) metadataOf d (splitCtx 6 requestsAMZ)
             = Return (newAdminResponseBatch AdminCmdType_BatchSplit
                         (BatchSplitResponse (childrenOf parentAZ requestsAMZ)))
                      None d' ctx')
    by (eexists _, _; reflexivity).
  destruct Hrun as (d' & ctx' & Hrun).
  intros child other.
  apply (doExecSplit_children_disjoint (storageSplit None) metadataOf d
           (splitCtx 6 requestsAMZ) requestsAMZ [] _ None d' ctx'
           eq_refl Hrun boundedEnds_AMZ increasingKeys_AMZ 0%nat 1%nat child other
           [x62]).
  discriminate.
Defined.

(** A [BatchSplit] whose request list does not pass validation (an empty
    list, a first start or last end that is not the parent's, a key outside
    the parent's range, a gap between two requests) ends the process. *)
Theorem doExecSplit_invalid_fatal
        (ds : DataStorage.t) (gsm : list Shard.t -> list ShardMetadata.t)
        (d : stateMachine.t) (ctx : applyContext.t)
        (reqs : list SplitRequest.t) (context : bytes) :
  applyContext.req ctx = Req_BatchSplit (BatchSplitRequest.mk reqs context) ->
  ~ validSplit (stateMachine.shard d) reqs ->
  exists msg, doExecSplit ds gsm d ctx = Fatal msg.
Proof.
  intros Hreq Hinvalid.
  destruct (doExecSplit ds gsm d ctx) as [msg | resp err d' ctx'] eqn:Hrun.
  - exists msg. reflexivity.
  - exfalso. apply Hinvalid.
    exact (doExecSplit_Return_valid _ _ _ _ _ _ _ _ _ _ Hreq Hrun).
Qed.

(** The invalid split with a gap: parent ["a","z"), requests ["a","m") and
    ["n","z"). *)
Lemma doExecSplit_invalid_fatal_witness :
  let d := machineAt 5 parentAZ (Replica.mk 1 1 ReplicaRole_Voter) in
  let reqs := [SplitRequest.mk [x61] [x6d] 10 []; SplitRequest.mk [x6e] [x7a] 11 []] in
  ~ validSplit parentAZ reqs /\
  exists msg, doExecSplit (storageSplit None) metadataOf d (splitCtx 6 reqs) = Fatal msg.
Proof.
  intros d reqs.
  assert (Hinvalid : ~ validSplit parentAZ reqs).
  { intros (_ & _ & _ & Hadj).
    specialize (Hadj 0%nat _ _ eq_refl eq_refl). discriminate Hadj. }
  split; [exact Hinvalid|].
  exact (doExecSplit_invalid_fatal (storageSplit None) metadataOf d
           (splitCtx 6 reqs) reqs [] eq_refl Hinvalid).
Defined.

(** After a split the storage accepted, memory and storage agree on the
    parent: the in-memory shard is the old shard with the version raised and
    the state [Destroying] (id, range, confVer and replicas as before), it is
    the shard of the record handed to [storage.Split] at the entry's index,
    the children were created before that call, and the state machine is
    marked splited. *)
Theorem doExecSplit_parent
        (ds : DataStorage.t) (gsm : list Shard.t -> list ShardMetadata.t)
        (d : stateMachine.t) (ctx : applyContext.t)
        (reqs : list SplitRequest.t) (context : bytes)
        (children : list Shard.t) (err : option error)
        (d' : stateMachine.t) (ctx' : applyContext.t) :
  applyContext.req ctx = Req_BatchSplit (BatchSplitRequest.mk reqs context) ->
  doExecSplit ds gsm d ctx
  = Return (newAdminResponseBatch AdminCmdType_BatchSplit
                                  (BatchSplitResponse children)) err d' ctx' ->
  let before := stateMachine.shard d in
  let after := stateMachine.shard d' in
  Shard.State after = ResourceState_Destroying /\
  Shard.ID after = Shard.ID before /\
  Shard.Start after = Shard.Start before /\
  Shard.End_ after = Shard.End_ before /\
  Shard.Replicas after = Shard.Replicas before /\
  Epoch.ConfVer (Shard.Epoch after) = Epoch.ConfVer (Shard.Epoch before) /\
  Epoch.Version (Shard.Epoch after)
  = wrap64 (Epoch.Version (Shard.Epoch before) + Z.of_nat (length reqs)) /\
  stateMachine.splited d' = true /\
  stateMachine.removed d' = stateMachine.removed d /\
  stateMachine.firstIndex d' = stateMachine.firstIndex d /\
  stateMachine.calls d'
  = stateMachine.calls d ++
    [Eff_create "splited" children;
     Eff_Split (ShardMetadata.mk (Shard.ID before) (applyContext.index ctx)
                  (ShardLocalState.mk ReplicaState_Normal after false))
               (gsm children) context].
Proof.
  intros Hreq Hrun before after.
  destruct (doExecSplit_children _ _ _ _ _ _ _ _ _ _ Hreq Hrun)
    as (_ & _ & -> & _ & Hd & _).
  unfold after. rewrite Hd. simpl. repeat split.
  unfold splitCalls. rewrite <- app_assoc. reflexivity.
Qed.

Lemma doExecSplit_parent_witness :
  let d := machineAt 5 parentAZ (Replica.mk 1 1 ReplicaRole_Voter) in
  exists d' ctx',
    doExecSplit (storageSplit None) metadataOf d (splitCtx 6 requestsAMZ)
    = Return (newAdminResponseBatch AdminCmdType_BatchSplit
                (BatchSplitResponse (childrenOf parentAZ requestsAMZ)))
             None d' ctx' /\
    Shard.State (stateMachine.shard d') = ResourceState_Destroying /\
    Epoch.Version (Shard.Epoch (stateMachine.shard d')) = 11.
Proof.
  intros d.
  assert (Hrun : exists d' ctx',
             doExecSplit (storageSplit None) metadataOf d (splitCtx 6 requestsAMZ)
             = Return (newAdminResponseBatch AdminCmdType_BatchSplit
                         (BatchSplitResponse (childrenOf parentAZ requestsAMZ)))
                      None d' ctx')
    by (eexists _, _; reflexivity).
  destruct Hrun as (d' & ctx' & Hrun).
  exists d', ctx'. split; [exact Hrun|].
  destruct (doExecSplit_parent (storageSplit None) metadataOf d
              (splitCtx 6 requestsAMZ) requestsAMZ [] _ None d' ctx' eq_refl Hrun)
    as (Hstate & _ & _ & _ & _ & _ & Hver & _).
  split; [exact Hstate|]. rewrite Hver. reflexivity.
Defined.

(** ** Log compaction, further *)

(** When [GetPersistentLogIndex] fails, [doExecCompactLog] returns that
    error with the empty response and compacts nothing: [firstIndex], the
    shard and the admin result are the ones before; the process goes on. *)
Theorem doExecCompactLog_storage_error
        (ds : DataStorage.t) (d : stateMachine.t) (ctx : applyContext.t)
        (compactIndex : Z) (err : error) :
  applyContext.req ctx = Req_CompactLog (CompactLogRequest.mk compactIndex) ->
  stateMachine.firstIndex d < compactIndex ->
  DataStorage.GetPersistentLogIndex ds (stateMachine.calls d) (stateMachine.shardID d)
  = inr err ->
  exists d' ctx',
    doExecCompactLog ds d ctx = Return ResponseBatch.empty (Some err) d' ctx' /\
    stateMachine.firstIndex d' = stateMachine.firstIndex d /\
    stateMachine.shard d' = stateMachine.shard d /\
    applyContext.adminResult ctx' = applyContext.adminResult ctx /\
    stateMachine.calls d'
    = stateMachine.calls d ++ [Eff_GetPersistentLogIndex (stateMachine.shardID d)].
Proof.
  intros Hreq Hlt Herr. unfold doExecCompactLog. simpl. rewrite Hreq. simpl.
  unfold stateMachine.getFirstIndex.
  destruct (Z.leb_spec compactIndex (stateMachine.firstIndex d)); [lia|].
  unfold adjustCompactionIndex. rewrite Herr.
  eexists _, _. split; [reflexivity|]. repeat split.
Qed.

Lemma doExecCompactLog_storage_error_witness :
  let d := machineAt 5 Shard.zero (Replica.mk 1 1 ReplicaRole_Voter) in
  exists d' ctx',
    doExecCompactLog (storageFailing (errors_New "io")) d (compactCtx 100)
    = Return ResponseBatch.empty (Some (errors_New "io")) d' ctx' /\
    stateMachine.firstIndex d' = 5.
Proof.
  intros d.
  assert (Hlt : stateMachine.firstIndex d < 100) by (simpl; lia).
  destruct (doExecCompactLog_storage_error (storageFailing (errors_New "io")) d
              (compactCtx 100) 100 (errors_New "io") eq_refl Hlt eq_refl)
    as (d' & ctx' & Hrun & Hfirst & _).
  exists d', ctx'. split; [exact Hrun | exact Hfirst].
Defined.

(** [doExecCompactLog] never compacts past the persistent log index: when
    it changes [firstIndex] or answers with a response, the storage gave a
    persistent log index [p], the index in the admin result is at most [p]
    and at most the requested index, and [firstIndex] is that index plus 1. *)
Theorem doExecCompactLog_bounded
        (ds : DataStorage.t) (d : stateMachine.t) (ctx : applyContext.t)
        (compactIndex : Z) (resp : ResponseBatch.t) (err : option error)
        (d' : stateMachine.t) (ctx' : applyContext.t) :
  applyContext.req ctx = Req_CompactLog (CompactLogRequest.mk compactIndex) ->
  doExecCompactLog ds d ctx = Return resp err d' ctx' ->
  resp <> ResponseBatch.empty \/
  stateMachine.firstIndex d' <> stateMachine.firstIndex d ->
  exists p index,
    DataStorage.GetPersistentLogIndex ds (stateMachine.calls d)
                                      (stateMachine.shardID d) = inl p /\
    applyContext.adminResult ctx' = Some (compactionResult index) /\
    index <= p /\ index <= compactIndex /\
    stateMachine.firstIndex d < compactIndex /\
    stateMachine.firstIndex d' = wrap64 (index + 1) /\
    err = None.
Proof.
  intros Hreq Hrun Hchanged.
  destruct (Z.le_gt_cases compactIndex (stateMachine.firstIndex d)) as [Hle | Hgt].
  - rewrite (doExecCompactLog_noop ds d ctx compactIndex Hreq Hle) in Hrun.
    injection Hrun as <- <- <- <-. destruct Hchanged; congruence.
  - destruct (DataStorage.GetPersistentLogIndex ds (stateMachine.calls d)
                                                (stateMachine.shardID d))
      as [p | e] eqn:Hp.
    + rewrite (doExecCompactLog_apply ds d ctx compactIndex p Hreq Hgt Hp) in Hrun.
      injection Hrun as <- <- <- <-.
      exists p, (Z.min compactIndex p). simpl. repeat split; lia.
    + destruct (doExecCompactLog_storage_error ds d ctx compactIndex e Hreq Hgt Hp)
        as (d1 & ctx1 & Hrun1 & Hfirst & _).
      rewrite Hrun1 in Hrun. injection Hrun as <- <- <- <-.
      destruct Hchanged; congruence.
Qed.

Lemma doExecCompactLog_bounded_witness :
  let d := machineAt 5 Shard.zero (Replica.mk 1 1 ReplicaRole_Voter) in
  exists resp d' ctx' index,
    doExecCompactLog (storageAt 20) d (compactCtx 100) = Return resp None d' ctx' /\
    applyContext.adminResult ctx' = Some (compactionResult index) /\
    index <= 20.
Proof.
  intros d.
  assert (Hlt : stateMachine.firstIndex d < 100) by (simpl; lia).
  pose proof (doExecCompactLog_apply (storageAt 20) d (compactCtx 100) 100 20
                eq_refl Hlt eq_refl) as Hrun.
  destruct (doExecCompactLog_bounded (storageAt 20) d (compactCtx 100) 100
              _ _ _ _ eq_refl Hrun) as (p & index & Hp & Hres & Hle & _).
  - left. discriminate.
  - injection Hp as <-.
    eexists _, _, _, index. split; [exact Hrun|]. split; [exact Hres | exact Hle].
Defined.

(** When the persistent log index has reached [firstIndex], an applied
    compaction moves [firstIndex] forward, to at most the persistent log
    index plus 1. *)
Theorem doExecCompactLog_advances
        (ds : DataStorage.t) (d : stateMachine.t) (ctx : applyContext.t)
        (compactIndex p : Z) :
  applyContext.req ctx = Req_CompactLog (CompactLogRequest.mk compactIndex) ->
  DataStorage.GetPersistentLogIndex ds (stateMachine.calls d) (stateMachine.shardID d)
  = inl p ->
  0 <= stateMachine.firstIndex d < compactIndex ->
  stateMachine.firstIndex d <= p < 2 ^ 64 - 1 ->
  exists resp d' ctx',
    doExecCompactLog ds d ctx = Return resp None d' ctx' /\
    stateMachine.firstIndex d < stateMachine.firstIndex d' <= p + 1.
Proof.
  intros Hreq Hp Hfirst Hpers.
  eexists _, _, _. split.
  - apply (doExecCompactLog_apply ds d ctx compactIndex p Hreq); [lia | exact Hp].
  - simpl. rewrite wrap64_small; [lia|]. unfold is_uint64. lia.
Qed.

Lemma doExecCompactLog_advances_witness :
  let d := machineAt 5 Shard.zero (Replica.mk 1 1 ReplicaRole_Voter) in
  exists resp d' ctx',
    doExecCompactLog (storageAt 20) d (compactCtx 100) = Return resp None d' ctx' /\
    5 < stateMachine.firstIndex d' <= 21.
Proof.
  intros d.
  destruct (doExecCompactLog_advances (storageAt 20) d (compactCtx 100) 100 20
              eq_refl eq_refl) as (resp & d' & ctx' & Hrun & Hadv).
  - simpl; lia.
  - simpl; lia.
  - exists resp, d', ctx'. split; [exact Hrun | exact Hadv].
Defined.

(** ** Write metrics, further *)

(** One batch: the hint stays at or above zero and rises by at most the
    bytes the batch added; a deletion never raises it. *)
Lemma updateWriteMetrics_step metrics w :
  0 <= applyMetrics.approximateDiffHint metrics ->
  0 <= applyMetrics.approximateDiffHint (updateWriteMetrics metrics w)
  <= applyMetrics.approximateDiffHint metrics + Z.max 0 (writeContext.diffBytes w) /\
  applyMetrics.writtenKeys (updateWriteMetrics metrics w)
  = applyMetrics.writtenKeys metrics /\
  applyMetrics.admin (updateWriteMetrics metrics w) = applyMetrics.admin metrics.
Proof.
  intros Hh. unfold updateWriteMetrics. simpl.
  split; [|split; reflexivity].
  destruct (Z.ltb_spec (writeContext.diffBytes w) 0) as [Hneg | Hpos].
  - pose proof (wrap64_range (math_Abs (float64_of_int64 (writeContext.diffBytes w))))
      as Hv.
    unfold uint64_of_float64. unfold is_uint64 in Hv.
    destruct (Z.leb_spec (applyMetrics.approximateDiffHint metrics)
                         (wrap64 (math_Abs (float64_of_int64
                                              (writeContext.diffBytes w)))));
      lia.
  - unfold uint64_of_int64, wrap64.
    pose proof (Z.mod_pos_bound (writeContext.diffBytes w) (2 ^ 64)) as H1.
    pose proof (Z.mod_le (writeContext.diffBytes w) (2 ^ 64)) as H2.
    pose proof (Z.mod_pos_bound
                  (applyMetrics.approximateDiffHint metrics
                   + writeContext.diffBytes w mod 2 ^ 64) (2 ^ 64)) as H3.
    pose proof (Z.mod_le
                  (applyMetrics.approximateDiffHint metrics
                   + writeContext.diffBytes w mod 2 ^ 64) (2 ^ 64)) as H4.
    lia.
Qed.

(** Deleted bytes never raise the size hint: over any run of write batches
    the hint stays at or above zero and ends at most at the hint before
    plus the bytes the batches added, so a run of deletions leaves it at or
    below the hint before (the subtraction never wraps around).  The written
    keys and the admin counters are not touched. *)
Theorem updateWriteMetrics_bounded
        (batches : list writeContext.t) (metrics : applyMetrics.t) :
  0 <= applyMetrics.approximateDiffHint metrics ->
  let after := updateWriteMetricsAll metrics batches in
  0 <= applyMetrics.approximateDiffHint after
  <= applyMetrics.approximateDiffHint metrics + addedBytes batches /\
  ((forall w, w ∈ batches -> writeContext.diffBytes w < 0) ->
   applyMetrics.approximateDiffHint after
   <= applyMetrics.approximateDiffHint metrics) /\
  applyMetrics.writtenKeys after = applyMetrics.writtenKeys metrics /\
  applyMetrics.admin after = applyMetrics.admin metrics.
Proof.
  revert metrics. unfold updateWriteMetricsAll.
  induction batches as [|w batches IH]; intros metrics Hh; simpl.
  - repeat split; lia.
  - destruct (updateWriteMetrics_step metrics w Hh) as (Hstep & Hk & Ha).
    destruct (IH (updateWriteMetrics metrics w)) as (Hrun & Hdel & Hk' & Ha');
      [lia|].
    split; [lia|]. split; [|split; congruence].
    intros Hall.
    assert (Hw : writeContext.diffBytes w < 0)
      by (apply Hall; apply list_elem_of_here).
    assert (Hrest : forall w', w' ∈ batches -> writeContext.diffBytes w' < 0)
      by (intros w' Hw'; apply Hall; apply list_elem_of_further; exact Hw').
    specialize (Hdel Hrest). lia.
Qed.

Lemma updateWriteMetrics_bounded_witness :
  let metrics := applyMetrics.mk 0 0 100 (adminMetrics.mk 0 0 0) in
  let batches := [writeContext.mk 10 (- 250); writeContext.mk 10 (- 15)] in
  0 <= applyMetrics.approximateDiffHint metrics /\
  (forall w, w ∈ batches -> writeContext.diffBytes w < 0) /\
  applyMetrics.approximateDiffHint (updateWriteMetricsAll metrics batches) = 0 /\
  applyMetrics.approximateDiffHint (updateWriteMetricsAll metrics batches) <= 100.
Proof.
  intros metrics batches.
  assert (Hh : 0 <= applyMetrics.approximateDiffHint metrics) by (simpl; lia).
  assert (Hall : forall w, w ∈ batches -> writeContext.diffBytes w < 0).
  { intros w Hw. unfold batches in Hw.
    repeat (apply elem_of_cons in Hw; destruct Hw as [-> | Hw]; [simpl; lia|]).
    inversion Hw. }
  split; [exact Hh|]. split; [exact Hall|]. split; [reflexivity|].
  destruct (updateWriteMetrics_bounded batches metrics Hh) as (_ & Hdel & _).
  exact (Hdel Hall).
Defined.

(** ** Configuration changes, further *)

(** A successful [ConfigChange] leaves memory and storage in agreement: the
    one call made on the storage is a [SaveShardMetadata] of one record, with
    the shard now in memory, at the entry's index, with the state
    [Tombstone] when the state machine is marked removed and [Normal]
    otherwise; the response and the admin result carry that same shard. *)
Theorem doExecConfigChange_persists
        (ds : DataStorage.t) (d : stateMachine.t) (ctx : applyContext.t)
        (resp : ResponseBatch.t) (d' : stateMachine.t) (ctx' : applyContext.t) :
  doExecConfigChange ds d ctx = Return resp None d' ctx' ->
  let shard := stateMachine.shard d' in
  stateMachine.calls d'
  = stateMachine.calls d ++
    [Eff_SaveShardMetadata
       [ShardMetadata.mk (Shard.ID shard) (applyContext.index ctx)
                         (ShardLocalState.mk (persistedState d') shard false)]] /\
  resp = newAdminResponseBatch AdminCmdType_ConfigChange (ConfigChangeResponse shard) /\
  applyContext.adminResult ctx'
  = Some (configChangeResult (applyContext.index ctx)
                             [GetConfigChangeRequest (applyContext.req ctx)] shard) /\
  Shard.ID shard = Shard.ID (stateMachine.shard d) /\
  Shard.Start shard = Shard.Start (stateMachine.shard d) /\
  Shard.End_ shard = Shard.End_ (stateMachine.shard d) /\
  Shard.State shard = Shard.State (stateMachine.shard d) /\
  stateMachine.firstIndex d' = stateMachine.firstIndex d /\
  stateMachine.splited d' = stateMachine.splited d.
Proof.
  intros Hrun shard.
  destruct (configChangeSwitch d (GetConfigChangeRequest (applyContext.req ctx))
                               (incrConfVer (stateMachine.shard d)))
    as [err | [res d1]] eqn:Hsw.
  - rewrite (doExecConfigChange_inl ds d ctx err Hsw) in Hrun. discriminate Hrun.
  - rewrite (doExecConfigChange_inr ds d ctx res d1 Hsw) in Hrun.
    destruct (DataStorage.SaveShardMetadata _ _ _); [discriminate Hrun|].
    injection Hrun as <- <- <-.
    apply configChangeSwitch_inr in Hsw. destruct Hsw as [Hres Hd1].
    unfold shard. simpl.
    assert (Hcalls : stateMachine.calls d1 = stateMachine.calls d)
      by (destruct Hd1 as [-> | ->]; reflexivity).
    rewrite Hcalls. unfold savedRecords, persistedState. simpl.
    repeat split; try (rewrite Hres; reflexivity);
      destruct Hd1 as [-> | ->]; reflexivity.
Qed.

Lemma doExecConfigChange_persists_witness :
  let d := machineAt 5 (shardOf 3 9 [Replica.mk 1 1 ReplicaRole_Voter])
                     (Replica.mk 1 1 ReplicaRole_Voter) in
  let ctx := configChangeCtx 6 ConfigChangeType_RemoveNode
                             (Replica.mk 1 1 ReplicaRole_Voter) in
  exists resp d' ctx',
    doExecConfigChange (storageAt 0) d ctx = Return resp None d' ctx' /\
    stateMachine.calls d'
    = [Eff_SaveShardMetadata
         [ShardMetadata.mk 7 6
            (ShardLocalState.mk ReplicaState_Tombstone (shardOf 4 9 []) false)]].
Proof.
  intros d ctx.
  destruct (doExecConfigChange (storageAt 0) d ctx)
    as [msg | resp [err|] d' ctx'] eqn:Hrun;
    [vm_compute in Hrun; discriminate Hrun
    | vm_compute in Hrun; discriminate Hrun |].
  exists resp, d', ctx'. split; [reflexivity|].
  destruct (doExecConfigChange_persists (storageAt 0) d ctx resp d' ctx' Hrun)
    as (Hcalls & _).
  rewrite Hcalls. vm_compute in Hrun. injection Hrun as _ <- _. reflexivity.
Defined.

(** [ConfigChange] with [RemoveNode].  A replica on the requested container
    with the requested id is removed: no replica on that container is left,
    the others stay in order, and the state machine is marked removed when
    the id is its own.  A replica with another id on the container, or no
    replica there, fails with [ReplicaNotFound]. *)
Theorem doExecConfigChange_RemoveNode
        (ds : DataStorage.t) (d : stateMachine.t) (ctx : applyContext.t)
        (replica : Replica.t) :
  applyContext.req ctx
  = Req_ConfigChange (ConfigChangeRequest.mk ConfigChangeType_RemoveNode replica) ->
  let replicas := Shard.Replicas (stateMachine.shard d) in
  let found := findReplica (stateMachine.shard d) (Replica.ContainerID replica) in
  let saved := forall records,
      DataStorage.SaveShardMetadata ds (stateMachine.calls d) records = None in
  (forall i p,
      found = Some (i, p) -> Replica.ID p = Replica.ID replica -> saved ->
      exists resp d' ctx',
        doExecConfigChange ds d ctx = Return resp None d' ctx' /\
        Shard.Replicas (stateMachine.shard d')
        = filter (fun r => Replica.ContainerID r <> Replica.ContainerID replica)
                 replicas /\
        (forall r, r ∈ Shard.Replicas (stateMachine.shard d') ->
                   Replica.ContainerID r <> Replica.ContainerID replica) /\
        stateMachine.removed d'
        = (stateMachine.removed d ||
           (Replica.ID (stateMachine.replica d) =? Replica.ID replica))) /\
  (forall i p,
      found = Some (i, p) -> Replica.ID p <> Replica.ID replica ->
      exists err,
        doExecConfigChange ds d ctx = Return ResponseBatch.empty (Some err) d ctx /\
        errors_Is err ErrReplicaNotFound = true) /\
  (found = None ->
   exists err,
     doExecConfigChange ds d ctx = Return ResponseBatch.empty (Some err) d ctx /\
     errors_Is err ErrReplicaNotFound = true).
Proof.
  intros Hreq replicas found saved.
  assert (Hsw : forall r,
             configChangeSwitch d (GetConfigChangeRequest (applyContext.req ctx))
                                (incrConfVer (stateMachine.shard d)) = r ->
             r = match found with
                 | Some (i, p) =>
                     if negb (Replica.ID p =? Replica.ID replica) then
                       inl (errors_Wrapf ErrReplicaNotFound
                              "shardID %d, replicaID %d found on container %d"
                              [ArgUint64 (Shard.ID (stateMachine.shard d));
                               ArgUint64 (Replica.ID p);
                               ArgUint64 (Replica.ContainerID replica)])
                     else
                       let res := removeReplica (incrConfVer (stateMachine.shard d))
                                                (Replica.ContainerID replica) in
                       if Replica.ID (stateMachine.replica d) =? Replica.ID replica
                       then inr (res, stateMachine.setRemoved d)
                       else inr (res, d)
                 | None =>
                     inl (errors_Wrapf ErrReplicaNotFound
                            "shardID %d, replicaID %d found on container %d"
                            [ArgUint64 (Shard.ID (stateMachine.shard d));
                             ArgUint64 (Replica.ID replica);
                             ArgUint64 (Replica.ContainerID replica)])
                 end).
  { intros r <-. rewrite Hreq. reflexivity. }
  split; [|split].
  - intros i p Hf Hid Hsaved. specialize (Hsw _ eq_refl). rewrite Hf in Hsw.
    rewrite (proj2 (Z.eqb_eq _ _) Hid) in Hsw. simpl in Hsw.
    assert (Hfilter : forall r,
               r ∈ filter (fun r => Replica.ContainerID r
                                    <> Replica.ContainerID replica) replicas ->
               Replica.ContainerID r <> Replica.ContainerID replica).
    { intros r Hr. apply list_elem_of_filter in Hr. tauto. }
    destruct (Replica.ID (stateMachine.replica d) =? Replica.ID replica);
      rewrite (doExecConfigChange_inr ds d ctx _ _ Hsw); simpl;
      rewrite Hsaved; eexists _, _, _; (split; [reflexivity|]); simpl;
      (split; [reflexivity|]); (split; [exact Hfilter|]).
    + rewrite orb_true_r. reflexivity.
    + rewrite orb_false_r. reflexivity.
  - intros i p Hf Hid. specialize (Hsw _ eq_refl). rewrite Hf in Hsw.
    rewrite (proj2 (Z.eqb_neq _ _) Hid) in Hsw. simpl in Hsw.
    eexists. split; [apply (doExecConfigChange_inl ds d ctx _ Hsw)|reflexivity].
  - intros Hf. specialize (Hsw _ eq_refl). rewrite Hf in Hsw.
    eexists. split; [apply (doExecConfigChange_inl ds d ctx _ Hsw)|reflexivity].
Qed.

(** Self-removal: the state machine of replica 1 applies [RemoveNode] of
    replica 1 on container 1. *)
Lemma doExecConfigChange_RemoveNode_witness :
  let d := machineAt 5 (shardOf 3 9 [Replica.mk 1 1 ReplicaRole_Voter;
                                     Replica.mk 2 2 ReplicaRole_Voter])
                     (Replica.mk 1 1 ReplicaRole_Voter) in
  let ctx := configChangeCtx 6 ConfigChangeType_RemoveNode
                             (Replica.mk 1 1 ReplicaRole_Voter) in
  exists resp d' ctx',
    doExecConfigChange (storageAt 0) d ctx = Return resp None d' ctx' /\
    Shard.Replicas (stateMachine.shard d') = [Replica.mk 2 2 ReplicaRole_Voter] /\
    stateMachine.removed d' = true.
Proof.
  intros d ctx.
  destruct (doExecConfigChange_RemoveNode (storageAt 0) d ctx
              (Replica.mk 1 1 ReplicaRole_Voter) eq_refl) as (Hremove & _ & _).
  destruct (Hremove 0%nat (Replica.mk 1 1 ReplicaRole_Voter))
    as (resp & d' & ctx' & Hrun & Hreplicas & _ & Hremoved).
  - reflexivity.
  - reflexivity.
  - intros records. reflexivity.
  - exists resp, d', ctx'. split; [exact Hrun|].
    rewrite Hreplicas, Hremoved. split; reflexivity.
Defined.

(** [ConfigChange] with [AddLearnerNode]: when no replica is on the
    requested container the requested replica is appended with the role
    [Learner], whatever role the request carried; when a replica is there,
    whatever its id or role, the change fails with [ReplicaDuplicated]. *)
Theorem doExecConfigChange_AddLearnerNode
        (ds : DataStorage.t) (d : stateMachine.t) (ctx : applyContext.t)
        (replica : Replica.t) :
  applyContext.req ctx
  = Req_ConfigChange (ConfigChangeRequest.mk ConfigChangeType_AddLearnerNode replica) ->
  let replicas := Shard.Replicas (stateMachine.shard d) in
  let found := findReplica (stateMachine.shard d) (Replica.ContainerID replica) in
  (found = None ->
   (forall records,
       DataStorage.SaveShardMetadata ds (stateMachine.calls d) records = None) ->
   exists resp d' ctx',
     doExecConfigChange ds d ctx = Return resp None d' ctx' /\
     Shard.Replicas (stateMachine.shard d')
     = replicas ++ [Replica.mk (Replica.ID replica) (Replica.ContainerID replica)
                               ReplicaRole_Learner] /\
     stateMachine.removed d' = stateMachine.removed d) /\
  (forall i p,
      found = Some (i, p) ->
      exists err,
        doExecConfigChange ds d ctx = Return ResponseBatch.empty (Some err) d ctx /\
        errors_Is err ErrReplicaDuplicated = true).
Proof.
  intros Hreq replicas found.
  assert (Hsw : forall r,
             configChangeSwitch d (GetConfigChangeRequest (applyContext.req ctx))
                                (incrConfVer (stateMachine.shard d)) = r ->
             r = match found with
                 | Some (i, p) =>
                     inl (errors_Wrapf ErrReplicaDuplicated
                            "shardID %d, replicaID %d role %v already exist on store %d"
                            [ArgUint64 (Shard.ID (stateMachine.shard d));
                             ArgUint64 (Replica.ID p);
                             ArgRole (Replica.Role p);
                             ArgUint64 (Replica.ContainerID replica)])
                 | None =>
                     inr (Shard.withReplicas
                            (incrConfVer (stateMachine.shard d))
                            (replicas ++ [Replica.withRole replica ReplicaRole_Learner]),
                          d)
                 end).
  { intros r <-. rewrite Hreq. reflexivity. }
  split.
  - intros Hf Hsaved. specialize (Hsw _ eq_refl). rewrite Hf in Hsw.
    rewrite (doExecConfigChange_inr ds d ctx _ _ Hsw), Hsaved.
    eexists _, _, _. repeat split.
  - intros i p Hf. specialize (Hsw _ eq_refl). rewrite Hf in Hsw.
    eexists. split; [apply (doExecConfigChange_inl ds d ctx _ Hsw)|reflexivity].
Qed.

Lemma doExecConfigChange_AddLearnerNode_witness :
  let d := machineAt 5 (shardOf 3 9 [Replica.mk 1 1 ReplicaRole_Voter])
                     (Replica.mk 1 1 ReplicaRole_Voter) in
  let ctx := configChangeCtx 6 ConfigChangeType_AddLearnerNode
                             (Replica.mk 2 2 ReplicaRole_Voter) in
  exists resp d' ctx',
    doExecConfigChange (storageAt 0) d ctx = Return resp None d' ctx' /\
    Shard.Replicas (stateMachine.shard d')
    = [Replica.mk 1 1 ReplicaRole_Voter; Replica.mk 2 2 ReplicaRole_Learner].
Proof.
  intros d ctx.
  destruct (doExecConfigChange_AddLearnerNode (storageAt 0) d ctx
              (Replica.mk 2 2 ReplicaRole_Voter) eq_refl) as (Hadd & _).
  destruct Hadd as (resp & d' & ctx' & Hrun & Hreplicas & _).
  - reflexivity.
  - intros records. reflexivity.
  - exists resp, d', ctx'. split; [exact Hrun|]. rewrite Hreplicas. reflexivity.
Defined.

Lemma map_ContainerID_insert (replicas : list Replica.t) i p role :
  replicas !! i = Some p ->
  map Replica.ContainerID (<[i := Replica.withRole p role]> replicas)
  = map Replica.ContainerID replicas.
Proof.
  revert i. induction replicas as [|r rest IH]; intros [|i] H; simpl in *;
    try discriminate.
  - injection H as ->. reflexivity.
  - rewrite (IH i H). reflexivity.
Qed.

Lemma NoDup_map_filter {A B} (f : A -> B) (P : A -> Prop)
      `{forall x, Decision (P x)} (l : list A) :
  NoDup (map f l) -> NoDup (map f (filter P l)).
Proof.
  induction l as [|x l IH]; simpl; [auto|].
  intros Hnd. apply NoDup_cons in Hnd. destruct Hnd as [Hx Hnd].
  rewrite filter_cons. destruct (decide (P x)); [|auto].
  simpl. apply NoDup_cons. split; [|auto].
  intros Hin. apply Hx.
  apply list_elem_of_fmap in Hin. destruct Hin as (y & Hy & Hel).
  apply list_elem_of_filter in Hel. destruct Hel as [_ Hel].
  apply list_elem_of_fmap. exists y. split; assumption.
Qed.

Lemma NoDup_map_snoc (replicas : list Replica.t) (r : Replica.t) :
  NoDup (map Replica.ContainerID replicas) ->
  (forall p, p ∈ replicas -> Replica.ContainerID p <> Replica.ContainerID r) ->
  NoDup (map Replica.ContainerID (replicas ++ [r])).
Proof.
  intros Hnd Hfresh. rewrite map_app. simpl.
  apply NoDup_app. split; [exact Hnd|]. split.
  - intros c Hc Hr. apply list_elem_of_fmap in Hc. destruct Hc as (p & -> & Hp).
    apply list_elem_of_singleton in Hr. exact (Hfresh p Hp Hr).
  - apply NoDup_singleton.
Qed.

(** The switch keeps at most one replica per container. *)
Lemma configChangeSwitch_unique d req res res' d1 :
  configChangeSwitch d req res = inr (res', d1) ->
  uniqueContainers res -> uniqueContainers res'.
Proof.
  unfold configChangeSwitch, uniqueContainers. intros H Hnd.
  destruct req as [[| | |code] replica]; simpl in H;
    destruct (findReplica res (Replica.ContainerID replica)) as [[i p]|] eqn:Hf;
    repeat (match type of H with
            | context [if ?c then _ else _] => destruct c
            end);
    try discriminate H; injection H as <- <-; simpl; try exact Hnd.
  - apply findReplica_Some in Hf. destruct Hf as [Hf _].
    rewrite (map_ContainerID_insert _ _ _ _ Hf). exact Hnd.
  - apply NoDup_map_snoc; [exact Hnd|]. apply findReplica_None. exact Hf.
  - apply NoDup_map_filter. exact Hnd.
  - apply NoDup_map_filter. exact Hnd.
  - apply NoDup_map_snoc; [exact Hnd|]. apply findReplica_None. exact Hf.
Qed.

(** A [ConfigChange] keeps the replicas keyed by container: when no two
    replicas of the shard were on one container before, none are after. *)
Theorem doExecConfigChange_unique
        (ds : DataStorage.t) (d : stateMachine.t) (ctx : applyContext.t)
        (resp : ResponseBatch.t) (err : option error)
        (d' : stateMachine.t) (ctx' : applyContext.t) :
  doExecConfigChange ds d ctx = Return resp err d' ctx' ->
  uniqueContainers (stateMachine.shard d) ->
  uniqueContainers (stateMachine.shard d').
Proof.
  intros Hrun Hnd.
  destruct (configChangeSwitch d (GetConfigChangeRequest (applyContext.req ctx))
                               (incrConfVer (stateMachine.shard d)))
    as [e | [res d1]] eqn:Hsw.
  - rewrite (doExecConfigChange_inl ds d ctx e Hsw) in Hrun.
    injection Hrun as _ _ <- _. exact Hnd.
  - rewrite (doExecConfigChange_inr ds d ctx res d1 Hsw) in Hrun.
    destruct (DataStorage.SaveShardMetadata _ _ _); [discriminate Hrun|].
    injection Hrun as _ _ <- _. simpl.
    exact (configChangeSwitch_unique _ _ _ _ _ Hsw Hnd).
Qed.

Lemma doExecConfigChange_unique_witness :
  let d := machineAt 5 (shardOf 3 9 [Replica.mk 1 1 ReplicaRole_Voter;
                                     Replica.mk 2 2 ReplicaRole_Learner])
                     (Replica.mk 1 1 ReplicaRole_Voter) in
  let ctx := configChangeCtx 6 ConfigChangeType_AddNode
                             (Replica.mk 3 3 ReplicaRole_Voter) in
  uniqueContainers (stateMachine.shard d) /\
  exists resp d' ctx',
    doExecConfigChange (storageAt 0) d ctx = Return resp None d' ctx' /\
    uniqueContainers (stateMachine.shard d').
Proof.
  intros d ctx.
  assert (Hnd : uniqueContainers (stateMachine.shard d)).
  { unfold uniqueContainers. simpl.
    apply NoDup_cons. split; [intros H; apply list_elem_of_singleton in H; lia|].
    apply NoDup_singleton. }
  split; [exact Hnd|].
  destruct (doExecConfigChange (storageAt 0) d ctx)
    as [msg | resp [err|] d' ctx'] eqn:Hrun;
    [vm_compute in Hrun; discriminate Hrun
    | vm_compute in Hrun; discriminate Hrun |].
  exists resp, d', ctx'. split; [reflexivity|].
  exact (doExecConfigChange_unique (storageAt 0) d ctx resp None d' ctx' Hrun Hnd).
Defined.

Lemma list_find_snoc_fresh (replicas : list Replica.t) (r : Replica.t) :
  list_find (fun x => Replica.ContainerID x = Replica.ContainerID r) replicas = None ->
  list_find (fun x => Replica.ContainerID x = Replica.ContainerID r) (replicas ++ [r])
  = Some (length replicas, r).
Proof.
  intros H. rewrite list_find_app_r by exact H. simpl.
  rewrite decide_True by reflexivity. reflexivity.
Qed.

Lemma insert_snoc {A} (l : list A) (x y : A) : <[length l := y]> (l ++ [x]) = l ++ [y].
Proof.
  replace (length l) with (length l + 0)%nat by lia.
  rewrite insert_app_r. reflexivity.
Qed.

(** Learner promotion: on a shard with no replica on the container,
    [AddLearnerNode] of a replica followed by [AddNode] of the same replica
    leaves the old replicas followed by that replica as a [Voter], with
    [confVer] raised twice and [version] unchanged. *)
Theorem doExecConfigChange_learner_then_voter
        (ds : DataStorage.t) (d : stateMachine.t) (ctx1 ctx2 : applyContext.t)
        (id containerID : Z) (role1 role2 : ReplicaRole) :
  applyContext.req ctx1
  = Req_ConfigChange (ConfigChangeRequest.mk ConfigChangeType_AddLearnerNode
                        (Replica.mk id containerID role1)) ->
  applyContext.req ctx2
  = Req_ConfigChange (ConfigChangeRequest.mk ConfigChangeType_AddNode
                        (Replica.mk id containerID role2)) ->
  findReplica (stateMachine.shard d) containerID = None ->
  (forall calls records, DataStorage.SaveShardMetadata ds calls records = None) ->
  exists resp1 d1 ctx1' resp2 d2 ctx2',
    doExecConfigChange ds d ctx1 = Return resp1 None d1 ctx1' /\
    doExecConfigChange ds d1 ctx2 = Return resp2 None d2 ctx2' /\
    Shard.Replicas (stateMachine.shard d2)
    = Shard.Replicas (stateMachine.shard d)
      ++ [Replica.mk id containerID ReplicaRole_Voter] /\
    Epoch.ConfVer (Shard.Epoch (stateMachine.shard d2))
    = wrap64 (wrap64 (Epoch.ConfVer (Shard.Epoch (stateMachine.shard d)) + 1) + 1) /\
    Epoch.Version (Shard.Epoch (stateMachine.shard d2))
    = Epoch.Version (Shard.Epoch (stateMachine.shard d)).
Proof.
  intros Hreq1 Hreq2 Hf Hsaved.
  set (learner := Replica.mk id containerID ReplicaRole_Learner).
  set (res1 := Shard.withReplicas (incrConfVer (stateMachine.shard d))
                 (Shard.Replicas (stateMachine.shard d) ++ [learner])).
  assert (Hsw1 : configChangeSwitch d (GetConfigChangeRequest (applyContext.req ctx1))
                                    (incrConfVer (stateMachine.shard d))
                 = inr (res1, d)).
  { rewrite Hreq1. unfold configChangeSwitch. simpl.
    rewrite findReplica_incrConfVer, Hf. reflexivity. }
  pose proof (doExecConfigChange_inr ds d ctx1 _ _ Hsw1) as Hrun1.
  cbv zeta in Hrun1. rewrite Hsaved in Hrun1.
  set (d1 := stateMachine.called (stateMachine.updateShard d res1)
               (Eff_SaveShardMetadata
                  (savedRecords (applyContext.index ctx1) res1
                     (if stateMachine.removed d
                      then ReplicaState_Tombstone else ReplicaState_Normal)))) in *.
  assert (Hf1 : findReplica (incrConfVer (stateMachine.shard d1)) containerID
                = Some (length (Shard.Replicas (stateMachine.shard d)), learner)).
  { unfold findReplica. simpl.
    apply (list_find_snoc_fresh (Shard.Replicas (stateMachine.shard d)) learner).
    exact Hf. }
  assert (Hsw2 : configChangeSwitch d1
                   (GetConfigChangeRequest (applyContext.req ctx2))
                   (incrConfVer (stateMachine.shard d1))
                 = inr (Shard.withReplicas (incrConfVer (stateMachine.shard d1))
                          (<[length (Shard.Replicas (stateMachine.shard d))
                             := Replica.withRole learner ReplicaRole_Voter]>
                             (Shard.Replicas (incrConfVer (stateMachine.shard d1)))),
                        d1)).
  { rewrite Hreq2. unfold configChangeSwitch.
    cbn [GetConfigChangeRequest ConfigChangeRequest.Replica
         ConfigChangeRequest.ChangeType Replica.ContainerID].
    rewrite Hf1. cbn [Replica.ID learner Replica.Role].
    rewrite Z.eqb_refl. reflexivity. }
  pose proof (doExecConfigChange_inr ds d1 ctx2 _ _ Hsw2) as Hrun2.
  cbv zeta in Hrun2. rewrite Hsaved in Hrun2.
  eexists _, _, _, _, _, _. split; [exact Hrun1|]. split; [exact Hrun2|].
  simpl. split; [apply insert_snoc|]. split; reflexivity.
Qed.

Lemma doExecConfigChange_learner_then_voter_witness :
  let d := machineAt 5 (shardOf 3 9 [Replica.mk 1 1 ReplicaRole_Voter])
                     (Replica.mk 1 1 ReplicaRole_Voter) in
  exists resp1 d1 ctx1' resp2 d2 ctx2',
    doExecConfigChange (storageAt 0) d
      (configChangeCtx 6 ConfigChangeType_AddLearnerNode
                       (Replica.mk 2 2 ReplicaRole_Voter))
    = Return resp1 None d1 ctx1' /\
    doExecConfigChange (storageAt 0) d1
      (configChangeCtx 7 ConfigChangeType_AddNode (Replica.mk 2 2 ReplicaRole_Voter))
    = Return resp2 None d2 ctx2' /\
    Shard.Replicas (stateMachine.shard d2)
    = [Replica.mk 1 1 ReplicaRole_Voter; Replica.mk 2 2 ReplicaRole_Voter] /\
    Epoch.ConfVer (Shard.Epoch (stateMachine.shard d2)) = 5.
Proof.
  intros d.
  destruct (doExecConfigChange_learner_then_voter (storageAt 0) d
              (configChangeCtx 6 ConfigChangeType_AddLearnerNode
                               (Replica.mk 2 2 ReplicaRole_Voter))
              (configChangeCtx 7 ConfigChangeType_AddNode
                               (Replica.mk 2 2 ReplicaRole_Voter))
              2 2 ReplicaRole_Voter ReplicaRole_Voter eq_refl eq_refl eq_refl)
    as (resp1 & d1 & ctx1' & resp2 & d2 & ctx2' & Hrun1 & Hrun2 & Hreplicas & Hconf & _).
  - intros calls records. reflexivity.
  - exists resp1, d1, ctx1', resp2, d2, ctx2'.
    split; [exact Hrun1|]. split; [exact Hrun2|].
    rewrite Hreplicas, Hconf. split; reflexivity.
Defined.

(** ** Label updates *)

Lemma removeFlag_true labels oldLabel :
  forall remove,
    removeFlag labels oldLabel remove = true <->
    remove = true \/ requested labels oldLabel.
Proof.
  induction labels as [|label rest IH]; intros remove; simpl.
  - split; [auto|]. intros [H | (l & Hl & _)]; [exact H | inversion Hl].
  - rewrite IH. unfold requested. split.
    + intros [H | (l & Hl & Hk)].
      * destruct (String.eqb_spec (Pair.Key label) (Pair.Key oldLabel)) as [Hk|Hk].
        -- right. exists label. split; [apply list_elem_of_here | exact Hk].
        -- left. exact H.
      * right. exists l. split; [apply list_elem_of_further; exact Hl | exact Hk].
    + intros [H | (l & Hl & Hk)].
      * left. rewrite H. destruct (String.eqb _ _); reflexivity.
      * apply elem_of_cons in Hl. destruct Hl as [-> | Hl].
        -- left. rewrite (proj2 (String.eqb_eq _ _) Hk). reflexivity.
        -- right. exists l. split; assumption.
Qed.

Lemma keptLabels_elem_of old labels :
  forall newLabels x,
    x ∈ keptLabels old labels newLabels <->
    x ∈ newLabels \/ (x ∈ old /\ ~ requested labels x).
Proof.
  induction old as [|o rest IH]; intros newLabels x; simpl.
  - split; [auto|]. intros [H | [H _]]; [exact H | inversion H].
  - destruct (removeFlag labels o false) eqn:Hflag; simpl; rewrite IH.
    + apply removeFlag_true in Hflag. destruct Hflag as [Hf | Hreq]; [discriminate|].
      rewrite elem_of_cons. split; [tauto|].
      intros [H | [[-> | H] Hn]]; tauto.
    + assert (Hnot : ~ requested labels o).
      { intros Hreq.
        assert (removeFlag labels o false = true)
          by (apply removeFlag_true; right; exact Hreq).
        congruence. }
      rewrite elem_of_app, list_elem_of_singleton, elem_of_cons.
      split; [|tauto]. intros [[H | ->] | H]; tauto.
Qed.

Lemma doUpdateLabels_saved ds sortSlice d ctx updateReq :
  let U := updatedLabels (UpdateLabelsRequest.Policy updateReq)
                         (Shard.Labels (stateMachine.shard d))
                         (UpdateLabelsRequest.Labels updateReq) in
  (forall records,
      DataStorage.SaveShardMetadata ds (stateMachine.calls d) records = None) ->
  doUpdateLabels ds sortSlice d ctx updateReq
  = LabelsReturn (afterLabels d (applyContext.index ctx) U (sortSlice U)).
Proof.
  intros U Hsaved. unfold doUpdateLabels. rewrite Hsaved. reflexivity.
Qed.

Lemma removeFlag_existsb labels oldLabel :
  forall remove,
    removeFlag labels oldLabel remove
    = remove || existsb (fun l => String.eqb (Pair.Key l) (Pair.Key oldLabel)) labels.
Proof.
  induction labels as [|label rest IH]; intros remove; simpl.
  - rewrite orb_false_r. reflexivity.
  - rewrite IH. destruct (String.eqb (Pair.Key label) (Pair.Key oldLabel)), remove;
      reflexivity.
Qed.

Lemma keptLabels_unrequested old labels :
  forall newLabels,
    keptLabels old labels newLabels = newLabels ++ unrequested old labels.
Proof.
  unfold unrequested.
  induction old as [|o rest IH]; intros newLabels; simpl.
  - rewrite app_nil_r. reflexivity.
  - rewrite removeFlag_existsb. simpl.
    destruct (existsb (fun l => String.eqb (Pair.Key l) (Pair.Key o)) labels); simpl.
    + apply IH.
    + rewrite IH, <- app_assoc. reflexivity.
Qed.

Lemma unrequested_elem_of old labels x :
  x ∈ unrequested old labels <-> x ∈ old /\ ~ requested labels x.
Proof.
  pose proof (keptLabels_elem_of old labels [] x) as H.
  rewrite keptLabels_unrequested in H. simpl in H. rewrite H.
  split; [intros [Hnil | Hx]; [inversion Hnil | exact Hx] | tauto].
Qed.

(** What each policy of [UpdateLabels] leaves in memory, once the storage
    has saved the metadata: the labels are in key order, and they are, each
    as often as it occurs there,
    - for [Add], the old labels whose key was not requested and the
      requested labels;
    - for [Remove], the old labels whose key was not requested;
    - for [Reset], the requested labels, whatever the old ones were;
    - for [Clear], none;
    - for a policy the [switch] has no [case] for, the old labels.
    The rest of the shard, its epoch included, is as before. *)
Theorem doUpdateLabels_labels
        (ds : DataStorage.t) (sortSlice : list Pair.t -> list Pair.t)
        (d : stateMachine.t) (ctx : applyContext.t)
        (updateReq : UpdateLabelsRequest.t) :
  let old := Shard.Labels (stateMachine.shard d) in
  let labels := UpdateLabelsRequest.Labels updateReq in
  let policy := UpdateLabelsRequest.Policy updateReq in
  (forall records,
      DataStorage.SaveShardMetadata ds (stateMachine.calls d) records = None) ->
  sortsByKey sortSlice (updatedLabels policy old labels) ->
  exists d',
    doUpdateLabels ds sortSlice d ctx updateReq = LabelsReturn d' /\
    stateMachine.shard d'
    = setLabels (stateMachine.shard d) (Shard.Labels (stateMachine.shard d')) /\
    sortedByKey (Shard.Labels (stateMachine.shard d')) /\
    (policy = UpdatePolicy_Add ->
     Shard.Labels (stateMachine.shard d') ≡ₚ unrequested old labels ++ labels) /\
    (policy = UpdatePolicy_Remove ->
     Shard.Labels (stateMachine.shard d') ≡ₚ unrequested old labels) /\
    (policy = UpdatePolicy_Reset ->
     Shard.Labels (stateMachine.shard d') ≡ₚ labels) /\
    (policy = UpdatePolicy_Clear ->
     Shard.Labels (stateMachine.shard d') = []) /\
    (forall code, policy = UpdatePolicy_Unhandled code ->
                  Shard.Labels (stateMachine.shard d') ≡ₚ old) /\
    (forall x, x ∈ unrequested old labels <-> x ∈ old /\ ~ requested labels x).
Proof.
  intros old labels policy Hsaved [Hperm Hsorted].
  set (U := updatedLabels policy old labels) in *.
  exists (afterLabels d (applyContext.index ctx) U (sortSlice U)).
  split; [apply (doUpdateLabels_saved ds sortSlice d ctx updateReq Hsaved)|].
  simpl. split; [reflexivity|]. split; [exact Hsorted|].
  split; [|split; [|split; [|split; [|split]]]].
  - intros Hpolicy. unfold U in *. rewrite Hpolicy in *.
    assert (E : updatedLabels UpdatePolicy_Add old labels
                = unrequested old labels ++ labels)
      by (simpl; rewrite keptLabels_unrequested; reflexivity).
    rewrite <- E. exact Hperm.
  - intros Hpolicy. unfold U in *. rewrite Hpolicy in *.
    assert (E : updatedLabels UpdatePolicy_Remove old labels
                = unrequested old labels)
      by (simpl; rewrite keptLabels_unrequested; reflexivity).
    rewrite <- E. exact Hperm.
  - intros Hpolicy. unfold U in *. rewrite Hpolicy in *. exact Hperm.
  - intros Hpolicy. unfold U in *. rewrite Hpolicy in *. simpl in Hperm.
    apply Permutation_nil_r. exact Hperm.
  - intros code Hpolicy. unfold U in *. rewrite Hpolicy in *. exact Hperm.
  - intros x. apply unrequested_elem_of.
Qed.

Lemma sortsByKey_example :
  sortsByKey insertionSort
    (updatedLabels UpdatePolicy_Add
       [Pair.mk "zone" "a"; Pair.mk "disk" "ssd"]
       [Pair.mk "zone" "b"; Pair.mk "arch" "arm"]).
Proof.
  split.
  - simpl. unfold insertionSort. simpl.
    change ([Pair.mk "arch" "arm"; Pair.mk "disk" "ssd"; Pair.mk "zone" "b"]
            ≡ₚ [Pair.mk "disk" "ssd"; Pair.mk "zone" "b"; Pair.mk "arch" "arm"]).
    apply (Permutation_cons_append [Pair.mk "disk" "ssd"; Pair.mk "zone" "b"]).
  - unfold sortedByKey, insertionSort. simpl.
    repeat (apply SSorted_cons; [|repeat (apply Forall_cons; split; [reflexivity|]);
                                  apply Forall_nil; exact I]).
    apply SSorted_nil.
Qed.

(** [Add] of zone=b and arch=arm over zone=a and disk=ssd: zone is replaced,
    disk stays, arch is added. *)
Lemma doUpdateLabels_labels_witness :
  let d := machineAt 5 (labelledShard [Pair.mk "zone" "a"; Pair.mk "disk" "ssd"])
                     (Replica.mk 1 1 ReplicaRole_Voter) in
  let updateReq := UpdateLabelsRequest.mk
                     [Pair.mk "zone" "b"; Pair.mk "arch" "arm"] UpdatePolicy_Add in
  exists d',
    doUpdateLabels (storageSave None) insertionSort d (labelsCtx 6) updateReq
    = LabelsReturn d' /\
    Shard.Labels (stateMachine.shard d')
    = [Pair.mk "arch" "arm"; Pair.mk "disk" "ssd"; Pair.mk "zone" "b"] /\
    Shard.Labels (stateMachine.shard d')
    ≡ₚ [Pair.mk "disk" "ssd"; Pair.mk "zone" "b"; Pair.mk "arch" "arm"].
Proof.
  intros d updateReq.
  destruct (doUpdateLabels_labels (storageSave None) insertionSort d (labelsCtx 6)
              updateReq) as (d' & Hrun & _ & _ & Hadd & _).
  - intros records. reflexivity.
  - exact sortsByKey_example.
  - exists d'. split; [exact Hrun|]. split.
    + vm_compute in Hrun. injection Hrun as <-. reflexivity.
    + exact (Hadd eq_refl).
Defined.

(** [doUpdateLabels] saves before it sorts: the one record it hands to the
    storage, for this shard at the entry's index and in state [Normal],
    holds the labels in the order the policy left them, and the shard in
    memory is that shard with the labels rearranged in key order.  When the
    storage fails to save, the process ends. *)
Theorem doUpdateLabels_persists
        (ds : DataStorage.t) (sortSlice : list Pair.t -> list Pair.t)
        (d : stateMachine.t) (ctx : applyContext.t)
        (updateReq : UpdateLabelsRequest.t) :
  let saved := updatedLabels (UpdateLabelsRequest.Policy updateReq)
                             (Shard.Labels (stateMachine.shard d))
                             (UpdateLabelsRequest.Labels updateReq) in
  ((forall records,
       DataStorage.SaveShardMetadata ds (stateMachine.calls d) records = None) ->
   sortSlice saved ≡ₚ saved ->
   exists d',
     doUpdateLabels ds sortSlice d ctx updateReq = LabelsReturn d' /\
     stateMachine.calls d'
     = stateMachine.calls d ++
       [Eff_SaveShardMetadata
          [ShardMetadata.mk (stateMachine.shardID d) (applyContext.index ctx)
             (ShardLocalState.mk ReplicaState_Normal
                (setLabels (stateMachine.shard d') saved) false)]] /\
     Shard.Labels (stateMachine.shard d') ≡ₚ saved /\
     Shard.Epoch (stateMachine.shard d') = Shard.Epoch (stateMachine.shard d) /\
     Shard.Replicas (stateMachine.shard d') = Shard.Replicas (stateMachine.shard d) /\
     stateMachine.removed d' = stateMachine.removed d /\
     stateMachine.splited d' = stateMachine.splited d /\
     stateMachine.firstIndex d' = stateMachine.firstIndex d) /\
  (forall err,
      (forall records,
          DataStorage.SaveShardMetadata ds (stateMachine.calls d) records = Some err) ->
      doUpdateLabels ds sortSlice d ctx updateReq
      = LabelsFatal "failed to update labels").
Proof.
  intros saved. split.
  - intros Hsaved Hperm.
    exists (afterLabels d (applyContext.index ctx) saved (sortSlice saved)).
    split; [apply (doUpdateLabels_saved ds sortSlice d ctx updateReq Hsaved)|].
    simpl. repeat split. exact Hperm.
  - intros err Hfail. unfold doUpdateLabels. rewrite Hfail. reflexivity.
Qed.

Lemma doUpdateLabels_persists_witness :
  let d := machineAt 5 (labelledShard [Pair.mk "zone" "a"; Pair.mk "disk" "ssd"])
                     (Replica.mk 1 1 ReplicaRole_Voter) in
  let updateReq := UpdateLabelsRequest.mk
                     [Pair.mk "zone" "b"; Pair.mk "arch" "arm"] UpdatePolicy_Add in
  doUpdateLabels (storageSave (Some (errors_New "io"))) insertionSort d
                 (labelsCtx 6) updateReq
  = LabelsFatal "failed to update labels" /\
  exists d',
    doUpdateLabels (storageSave None) insertionSort d (labelsCtx 6) updateReq
    = LabelsReturn d' /\
    Shard.Epoch (stateMachine.shard d') = Epoch.mk 3 9.
Proof.
  intros d updateReq. split.
  - destruct (doUpdateLabels_persists (storageSave (Some (errors_New "io")))
                insertionSort d (labelsCtx 6) updateReq) as [_ Hfatal].
    apply (Hfatal (errors_New "io")). intros records. reflexivity.
  - destruct (doUpdateLabels_persists (storageSave None) insertionSort d
                (labelsCtx 6) updateReq) as [Hsave _].
    destruct Hsave as (d' & Hrun & _ & _ & Hepoch & _).
    + intros records. reflexivity.
    + exact (proj1 sortsByKey_example).
    + exists d'. split; [exact Hrun | exact Hepoch].
Defined.

(** ** The Redis handlers *)

Ltac handler_cases H :=
  repeat (apply elem_of_cons in H; destruct H as [-> | H]); [.. | inversion H].

(** A write handler that reads one argument answers a request with no
    argument, or with more than one, with [invalidCommandResp] and counts
    nothing, whatever the store holds. *)
Theorem redis_invalid_arguments
        (kv : redis.RedisKV) (parse : bytes -> Z + error) (show : Z -> bytes)
        (handler : Z -> redis.Request -> Z * Z * redis.Value)
        (shard : Z) (req : redis.Request) :
  handler ∈ redis.argHandlers kv parse show ->
  length (redis.Args req) <> 1%nat ->
  handler shard req = (0, 0, redis.invalidCommandResp).
Proof.
  intros Hh Hlen. unfold redis.argHandlers in Hh.
  handler_cases Hh;
    unfold redis.set, redis.incrBy, redis.decrby, redis.getset, redis.append,
      redis.setnx;
    destruct (redis.Args req) as [|arg [|arg' rest]]; simpl in Hlen;
    try reflexivity; contradiction.
Qed.

(** No write handler reports a negative size change: the written bytes are
    not negative, the size change is zero or the written bytes, and a
    response that tells of a failure comes with both at zero. *)
Theorem redis_write_counters
        (kv : redis.RedisKV) (parse : bytes -> Z + error) (show : Z -> bytes)
        (handler : Z -> redis.Request -> Z * Z * redis.Value)
        (shard : Z) (req : redis.Request) :
  handler ∈ redis.writeHandlers kv parse show ->
  let '(writtenBytes, diffBytes, value) := handler shard req in
  0 <= writtenBytes /\
  (diffBytes = 0 \/ diffBytes = writtenBytes) /\
  (redis.failed value = true -> writtenBytes = 0 /\ diffBytes = 0).
Proof.
  intros Hh. unfold redis.writeHandlers in Hh.
  handler_cases Hh;
    unfold redis.set, redis.incrBy, redis.incr, redis.decrby, redis.decr,
      redis.getset, redis.append, redis.setnx, redis.len;
    repeat (match goal with
            | |- context [match ?x with _ => _ end] =>
                lazymatch type of x with
                | prod _ _ => fail
                | _ => destruct x
                end
            end; simpl);
    (split; [lia|]); (split; [auto|]); intros Hf; try discriminate Hf; auto.
Qed.

Lemma redis_invalid_arguments_witness :
  let req := redis.mkRequest [x6b] [[x31]; [x32]] in
  redis.set storeOk ∈ redis.argHandlers storeOk parseNone showEmpty /\
  length (redis.Args req) <> 1%nat /\
  redis.set storeOk 1 req = (0, 0, redis.invalidCommandResp).
Proof.
  intros req.
  assert (Hin : redis.set storeOk ∈ redis.argHandlers storeOk parseNone showEmpty)
    by apply list_elem_of_here.
  assert (Hlen : length (redis.Args req) <> 1%nat) by discriminate.
  split; [exact Hin|]. split; [exact Hlen|].
  exact (redis_invalid_arguments storeOk parseNone showEmpty _ 1 req Hin Hlen).
Defined.

Lemma redis_write_counters_witness :
  let req := redis.mkRequest [x6b] [[x31; x32]] in
  redis.set storeOk ∈ redis.writeHandlers storeOk parseNone showEmpty /\
  redis.set storeOk 1 req = (3, 3, redis.statusResp) /\
  (let '(writtenBytes, diffBytes, value) := redis.set storeOk 1 req in
   0 <= writtenBytes /\ (diffBytes = 0 \/ diffBytes = writtenBytes)).
Proof.
  intros req.
  assert (Hin : redis.set storeOk ∈ redis.writeHandlers storeOk parseNone showEmpty)
    by apply list_elem_of_here.
  split; [exact Hin|]. split; [reflexivity|].
  pose proof (redis_write_counters storeOk parseNone showEmpty _ 1 req Hin) as H.
  destruct (redis.set storeOk 1 req) as [[w diff] v].
  destruct H as (Hw & Hd & _). split; assumption.
Defined.

(** ** Error texts *)

Example Error_sentinel : Error ErrReplicaNotFound = "replica not found".
Proof. reflexivity. Qed.

Example Error_wrapped :
  Error (errors_Wrapf ErrReplicaDuplicated "shardID %d, replicaID %d, role %v"
           [ArgUint64 7; ArgUint64 2; ArgRole ReplicaRole_Voter])
  = "shardID 7, replicaID 2, role Voter: replica duplicated".
Proof. vm_compute. reflexivity. Qed.

Example Error_wrapped_container :
  Error (errors_Wrapf ErrReplicaNotFound
           "shardID %d, replicaID %d found on container %d"
           [ArgUint64 7; ArgUint64 12; ArgUint64 340])
  = "shardID 7, replicaID 12 found on container 340: replica not found".
Proof. vm_compute. reflexivity. Qed.
